(** * SHA Connect: outbox dispatch, record store, translation and reminders

    A shallow embedding of [src/app.py] (the Streamlit script of the
    Kisumu County Referral Hospital awareness platform) and the proofs of
    its specified properties.

    Layout of the development:
    - [Value], [pd]: cell values and the fragment of pandas the script uses
      (a table is an ordered column list and labelled rows);
    - [Platform]: everything the script reaches outside itself (Twilio,
      googletrans, the clock, secrets, the environment, JSON (de)serialisers);
    - [App], [M]: [st.session_state], the data directory and the outside
      world, threaded through a state-and-exception monad;
    - the functions of the script, in source order, under their own names;
    - the page handlers, the pages that only read (FAQ list, chatbot,
      reminder metrics) and one script run per user interaction;
    - the vocabulary of the properties, and concrete platforms to run the
      script on;
    - the specified properties, then more of the script (what each page
      writes, the shape of the tables, restarts, the accounting of a drain,
      loads, reminders on the dashboard, the chatbot);
    - each property at a concrete input. *)

From Stdlib Require Import ZArith.
From stdpp Require Import base option list strings gmap pretty.

Local Open Scope Z_scope.

(** ** Cell values

    The script stores strings and integers in its tables; pandas fills a
    missing cell with NaN (JSON [null] on disk). *)

Inductive Value :=
| VStr (s : string)
| VInt (n : Z)
| VNaN.

#[global] Instance Value_eq_dec : EqDecision Value.
Proof. solve_decision. Defined.

(** Python's [==] on two cells: NaN equals nothing, itself included. *)
Definition py_eq (a b : Value) : bool :=
  match a, b with
  | VStr s, VStr t => bool_decide (s = t)
  | VInt n, VInt m => bool_decide (n = m)
  | _, _ => false
  end.

(** [str(v)], as an f-string interpolates it. *)
Definition py_str (v : Value) : string :=
  match v with
  | VStr s => s
  | VInt n => pretty n
  | VNaN => "nan"
  end.

(** A Python [dict] literal or a JSON object: keys in insertion order. *)
Abbreviation PyDict := (list (string * Value)).

(** ** The fragment of pandas used by the script *)

Module pd.

(** A row holds its cells by column name; a cell that is absent reads NaN. *)
Abbreviation Row := (gmap string Value).

Record DataFrame := mk {
  columns : list string;          (* column labels, in order *)
  rows : list (nat * Row)         (* (index label, cells), in order *)
}.

Definition cell (r : Row) (c : string) : Value := default VNaN (r !! c).

(** Only the cells under one of [cols]. *)
Definition restrict (cols : list string) (r : Row) : Row :=
  filter (λ kv, kv.1 ∈ cols) r.

Definition labels (df : DataFrame) : list nat := (rows df).*1.

(** [ignore_index=True], and the index of a freshly built frame: 0, 1, ... *)
Definition reindex (rs : list Row) : list (nat * Row) := imap (λ i r, (i, r)) rs.

(** [pd.DataFrame()] *)
Definition DataFrame_empty : DataFrame := mk [] [].

(** [pd.DataFrame(columns=cols)] *)
Definition DataFrame_columns (cols : list string) : DataFrame := mk cols [].

(** Keys in order of first appearance. *)
Fixpoint first_seen (l : list string) : list string :=
  match l with
  | [] => []
  | x :: l => x :: filter (λ y, y ≠ x) (first_seen l)
  end.

(** [pd.DataFrame(records)] for a list of dicts: the columns are the keys in
    order of first appearance. *)
Definition DataFrame_records (recs : list PyDict) : DataFrame :=
  mk (first_seen (mjoin (map (λ d, d.*1) recs)))
     (reindex (map (λ d, list_to_map d) recs)).

(** [df.empty]: some axis has length zero. *)
Definition empty (df : DataFrame) : bool :=
  bool_decide (rows df = [] ∨ columns df = []).

(** [pd.concat([a, b], ignore_index=True)]: the columns of [a], then those of
    [b] that [a] lacks; rows of [a] then rows of [b], relabelled; a cell a
    frame has no column for is NaN. *)
Definition concat (a b : DataFrame) : DataFrame :=
  mk (columns a ++ list_difference (columns b) (columns a))
     (reindex (map (restrict (columns a)) (rows a).*2
               ++ map (restrict (columns b)) (rows b).*2)).

(** [df[c] = v] with a scalar [v]: the whole column, appended when new. *)
Definition set_column (c : string) (v : Value) (df : DataFrame) : DataFrame :=
  mk (if decide (c ∈ columns df) then columns df else columns df ++ [c])
     (map (λ ir, (ir.1, <[c := v]> ir.2)) (rows df)).

(** [df[cols]] for a list [cols] of labels that are all present. *)
Definition select (cols : list string) (df : DataFrame) : option DataFrame :=
  if decide (cols ⊆ columns df)
  then Some (mk cols (map (λ ir, (ir.1, restrict cols ir.2)) (rows df)))
  else None.

(** [df.at[idx, c] = v]: every row labelled [idx]; a label that is absent is
    appended as a new row, a column that is absent as a new column. *)
Definition at_set (idx : nat) (c : string) (v : Value) (df : DataFrame) : DataFrame :=
  let cols := if decide (c ∈ columns df) then columns df else columns df ++ [c] in
  let clean (r : Row) := if decide (c ∈ columns df) then r else delete c r in
  if decide (idx ∈ labels df)
  then mk cols (map (λ ir, if decide (ir.1 = idx) then (ir.1, <[c := v]> ir.2)
                            else (ir.1, clean ir.2)) (rows df))
  else mk cols (map (λ ir, (ir.1, clean ir.2)) (rows df) ++ [(idx, {[c := v]})]).

(** [df.drop(idx)]: [KeyError] (here [None]) when no row carries the label. *)
Definition drop (idx : nat) (df : DataFrame) : option DataFrame :=
  if decide (idx ∈ labels df)
  then Some (mk (columns df) (filter (λ ir, ir.1 ≠ idx) (rows df)))
  else None.

(** [row.get(key, dflt)] on a row of [iterrows()]. *)
Definition Series_get (cols : list string) (r : Row) (key : string) (dflt : Value) : Value :=
  if decide (key ∈ cols) then cell r key else dflt.

(** [row[key]] on a row of [iterrows()]: [KeyError] when there is no such column. *)
Definition Series_item (cols : list string) (r : Row) (key : string) : option Value :=
  if decide (key ∈ cols) then Some (cell r key) else None.

(** [df.loc[df[key] == v, c] = w]; [df[key]] needs the column [key]. *)
Definition loc_set (key : string) (v : Value) (c : string) (w : Value)
    (df : DataFrame) : option DataFrame :=
  if decide (key ∈ columns df)
  then Some (mk (if decide (c ∈ columns df) then columns df else columns df ++ [c])
                (map (λ ir, if py_eq (cell ir.2 key) v then (ir.1, <[c := w]> ir.2)
                            else (ir.1, if decide (c ∈ columns df) then ir.2 else delete c ir.2))
                     (rows df)))
  else None.

(** [df[df[key] == v][c].tolist()] *)
Definition where_tolist (key : string) (v : Value) (c : string)
    (df : DataFrame) : option (list Value) :=
  if decide (key ∈ columns df ∧ c ∈ columns df)
  then Some (map (λ ir, cell ir.2 c) (filter (λ ir, py_eq (cell ir.2 key) v = true) (rows df)))
  else None.

(** [df.to_dict(orient="records")]: one dict per row, keys in column order. *)
Definition to_dict (df : DataFrame) : list PyDict :=
  map (λ ir, map (λ c, (c, cell ir.2 c)) (columns df)) (rows df).

End pd.

Abbreviation DataFrame := pd.DataFrame.

(** ** The world outside the script

    Everything the script imports or reads from its surroundings.  [Ext] is
    the state of the network services and the clock; an operation that can
    raise returns [None] (or [Failed] with the text of the exception). *)

(** What a Twilio [create] call does: it returns a resource, which may or
    may not carry a [sid], or it raises; [err] is [str(e)]. *)
Inductive Outcome :=
| Returned (sid : option string)
| Failed (err : string).

Record Platform := {
  Ext : Type;
  Client : Type;                       (* a twilio.rest.Client *)
  Content : Type;                      (* what a file under ./data holds *)
  PyObj : Type;                        (* what json.load returns *)
  secrets : gmap string (gmap string string);      (* st.secrets *)
  environ : gmap string string;                    (* os.environ *)
  (* [None]: "from twilio.rest import Client" failed. The constructor
     itself may raise. *)
  TwilioClient : option (option string → option string → option Client);
  messages_create : Client → Value → option string → Value → Ext → Outcome * Ext;
  calls_create : Client → string → option string → Value → Ext → Outcome * Ext;
  (* [None]: googletrans is not installed. [translate(text, dest).text]
     may raise. *)
  gt_translator : option (string → string → Ext → option string * Ext);
  (* datetime.datetime.now().strftime("%Y-%m-%d %H:%M:%S") *)
  now : Ext → string * Ext;
  (* df.to_json(path, orient="records", ...) may raise; the json.dump of
     the fallback writes plain dicts of strings, integers and nulls. *)
  to_json : DataFrame → option Content;
  json_dump : list PyDict → Content;
  read_json : Content → option DataFrame;          (* pd.read_json *)
  json_load : Content → option PyObj;              (* json.load *)
  DataFrame_of : PyObj → option DataFrame;         (* pd.DataFrame(records) *)
  int_of_str : string → option Z                   (* int(s) on a str *)
}.

(** The messaging calls the script has made, oldest first. *)
Inductive Call :=
| SmsCall (body : Value) (from_ : option string) (to : Value)
| VoiceCall (twiml : string) (from_ : option string) (to : Value).

(** ** Configuration and data paths *)

Definition DATA_DIR : string := "./data".
Definition PARTNERS_FILE : string := DATA_DIR +:+ "/partners.json".
Definition MESSAGES_FILE : string := DATA_DIR +:+ "/message_logs.json".
Definition FEEDBACK_FILE : string := DATA_DIR +:+ "/feedback.json".
Definition REMINDERS_FILE : string := DATA_DIR +:+ "/reminders.json".
Definition OUTBOX_FILE : string := DATA_DIR +:+ "/outbox.json".

Definition partners_columns : list string :=
  ["Name"; "Role"; "Language"; "Contact"; "Campaign Assigned"].
Definition message_logs_columns : list string :=
  ["Recipient"; "Message"; "Language"; "Date Sent"; "Type"; "Status"].
Definition feedback_columns : list string :=
  ["Name"; "Message"; "Language"; "Date Submitted"].
Definition reminders_columns : list string :=
  ["Task"; "Due Date"; "Assigned To"; "Status"].
Definition outbox_columns : list string :=
  ["Recipient"; "Message"; "Language"; "Date Created"; "Type"; "Attempts"].

Definition language_options : list string := ["English"; "Swahili"; "Luo"; "Luhya"].

(** ** Exceptions *)

Inductive Result (A : Type) :=
| Ok (a : A)
| Raise (e : string).
Arguments Ok {A} a.
Arguments Raise {A} e.

Section Script.

Context {P : Platform}.

(** ** Program state: [st.session_state], the data directory, the world *)

Record App := mkApp {
  partners_df : DataFrame;
  message_logs : DataFrame;
  feedback_df : DataFrame;
  reminders_df : DataFrame;
  outbox_df : DataFrame;
  fs : gmap string (Content P);
  ext : Ext P;
  dispatched : list Call
}.

Definition set_partners_df (d : DataFrame) (s : App) : App :=
  mkApp d (message_logs s) (feedback_df s) (reminders_df s) (outbox_df s) (fs s) (ext s) (dispatched s).
Definition set_message_logs (d : DataFrame) (s : App) : App :=
  mkApp (partners_df s) d (feedback_df s) (reminders_df s) (outbox_df s) (fs s) (ext s) (dispatched s).
Definition set_feedback_df (d : DataFrame) (s : App) : App :=
  mkApp (partners_df s) (message_logs s) d (reminders_df s) (outbox_df s) (fs s) (ext s) (dispatched s).
Definition set_reminders_df (d : DataFrame) (s : App) : App :=
  mkApp (partners_df s) (message_logs s) (feedback_df s) d (outbox_df s) (fs s) (ext s) (dispatched s).
Definition set_outbox_df (d : DataFrame) (s : App) : App :=
  mkApp (partners_df s) (message_logs s) (feedback_df s) (reminders_df s) d (fs s) (ext s) (dispatched s).
Definition set_fs (f : gmap string (Content P)) (s : App) : App :=
  mkApp (partners_df s) (message_logs s) (feedback_df s) (reminders_df s) (outbox_df s) f (ext s) (dispatched s).
Definition set_ext (e : Ext P) (s : App) : App :=
  mkApp (partners_df s) (message_logs s) (feedback_df s) (reminders_df s) (outbox_df s) (fs s) e (dispatched s).
Definition log_call (c : Call) (s : App) : App :=
  mkApp (partners_df s) (message_logs s) (feedback_df s) (reminders_df s) (outbox_df s) (fs s) (ext s)
        (dispatched s ++ [c]).

(** A computation reads and writes the state and returns or raises; what
    it wrote before raising stays written, as in Python. *)
Definition M (A : Type) : Type := App → Result A * App.

Definition ret {A} (a : A) : M A := λ s, (Ok a, s).
Definition raise {A} (e : string) : M A := λ s, (Raise e, s).
Definition bind {A B} (m : M A) (k : A → M B) : M B :=
  λ s, match m s with
       | (Ok a, s') => k a s'
       | (Raise e, s') => (Raise e, s')
       end.
Definition gets {A} (f : App → A) : M A := λ s, (Ok (f s), s).
Definition modify (f : App → App) : M unit := λ s, (Ok tt, f s).
(** [try: body  except Exception as e: handler(e)] *)
Definition try_except {A} (body : M A) (handler : string → M A) : M A :=
  λ s, match body s with
       | (Ok a, s') => (Ok a, s')
       | (Raise e, s') => handler e s'
       end.
(** An optional value whose absence is an exception. *)
Definition or_raise {A} (e : string) (o : option A) : M A :=
  match o with Some a => ret a | None => raise e end.

Notation "'let*' x := m 'in' k" := (bind m (λ x, k))
  (at level 10, x pattern, m at level 100, k at level 200, only parsing).
Notation "m ;; k" := (bind m (λ _, k))
  (at level 100, k at level 200, right associativity, only parsing).

(** ** Helpers: JSON persistence *)

Definition save_df_to_file (df : DataFrame) (path : string) : M unit :=
  modify (λ s,
    set_fs (<[path := match to_json P df with
                      | Some c => c
                      | None => json_dump P (pd.to_dict df)   (* except: json.dump *)
                      end]> (fs s)) s).

(** [if columns:] is false for [None] and for the empty list. *)
Definition given (columns : option (list string)) : option (list string) :=
  match columns with
  | Some (c :: cs) => Some (c :: cs)
  | _ => None
  end.

(** [for c in columns: if c not in df.columns: df[c] = ""] *)
Definition backfill (columns : list string) (df : DataFrame) : DataFrame :=
  foldl (λ df c, if decide (c ∈ pd.columns df) then df else pd.set_column c (VStr "") df)
        df columns.

(** The body shared by the two parse attempts, after the frame is built. *)
Definition expect (columns : option (list string)) (df : DataFrame) : option DataFrame :=
  match given columns with
  | Some cols => pd.select cols (backfill cols df)
  | None => Some df
  end.

Definition load_df_from_file (files : gmap string (Content P)) (path : string)
    (columns : option (list string)) : DataFrame :=
  match files !! path with
  | None =>                                   (* not os.path.isfile(path) *)
      match given columns with
      | Some cols => pd.DataFrame_columns cols
      | None => pd.DataFrame_empty
      end
  | Some c =>
      match df ← read_json P c; expect columns df with
      | Some df => df
      | None =>                               (* except Exception: *)
          match records ← json_load P c; df ← DataFrame_of P records; expect columns df with
          | Some df => df
          | None => pd.DataFrame_empty        (* except Exception: *)
          end
      end
  end.

(** ** Translation utilities and custom translations *)

Definition custom_translations : gmap string (gmap string string) :=
  list_to_map [
    ("Luo", list_to_map [
      ("What is SHA?",
       "SHA en Social Health Authority, ma orit gi dhok yi mondo giko gi bedo mag dhok.");
      ("How can I register for SHA?",
       "Inyalo registr kendo e health center maduong' gi e SHA portal.");
      ("Which services are covered?",
       "SHA en giko mag preventive care, maternal care, kod treatments ma nyaka.");
      ("Thank you for your feedback!", "Awuoyo gi nyalo walo!") ]);
    ("Luhya", list_to_map [
      ("What is SHA?", "SHA ni Social Health Authority, ebuya amagara netaweire.");
      ("How can I register for SHA?", "Olwikhilire kuhealth center oba e SHA portal.");
      ("Which services are covered?",
       "SHA ibuyire preventive care, maternal care, ne essential treatments.");
      ("Thank you for your feedback!", "Webale muno okhu") ]) ].

(** [d.get(k, dflt)] on a dict. *)
Definition dict_get {V} (d : gmap string V) (k : string) (dflt : V) : V :=
  default dflt (d !! k).

(** A call to a network service that returns or raises. *)
Definition remote {A} (e : string) (f : Ext P → option A * Ext P) : M A :=
  λ s, let '(r, x) := f (ext s) in
       (match r with Some a => Ok a | None => Raise e end, set_ext x s).

Definition safe_translate (text lang : string) : M string :=
  if decide (text = "") then ret text                       (* if not text *)
  else if decide (lang ∈ ["Luo"; "Luhya"]) then
    ret (dict_get (dict_get custom_translations lang ∅) text text)
  else if decide (lang = "English") then ret text
  else if decide (lang = "Swahili") then
    match gt_translator P with
    | Some translate =>
        try_except (remote "googletrans" (translate text "sw")) (λ _, ret text)
    | None => ret text
    end
  else ret text.

(** ** Twilio configuration helpers *)

Definition has_key {V} (k : string) (d : gmap string V) : bool :=
  bool_decide (is_Some (d !! k)).

(** [os.getenv(k)] in a boolean position: set, and not the empty string. *)
Definition getenv_truthy (k : string) : bool :=
  match environ P !! k with
  | Some v => bool_decide (v ≠ "")
  | None => false
  end.

Definition twilio_configured : bool :=
  let has_secrets :=
    match secrets P !! "twilio" with
    | Some tw => has_key "account_sid" tw && has_key "auth_token" tw
                 && has_key "from_number" tw
    | None => false
    end in
  if has_secrets then true
  else getenv_truthy "TWILIO_ACCOUNT_SID" && getenv_truthy "TWILIO_AUTH_TOKEN"
       && getenv_truthy "TWILIO_PHONE_NUMBER".

(** [None] is Python's [None]; every exception of the [try] block ends there too. *)
Definition get_twilio_client : option (Client P) :=
  if negb twilio_configured then None
  else
    '(sid, token) ←
      match secrets P !! "twilio" with
      | Some tw =>
          sid ← tw !! "account_sid";         (* KeyError *)
          token ← tw !! "auth_token";        (* KeyError *)
          Some (Some sid, Some token)
      | None =>
          Some (environ P !! "TWILIO_ACCOUNT_SID", environ P !! "TWILIO_AUTH_TOKEN")
      end;
    ctor ← TwilioClient P;                   (* if TwilioClient is None *)
    ctor sid token.

(** The sender number, looked up inside the [try] block of both senders. *)
Definition from_number : M (option string) :=
  match secrets P !! "twilio" with
  | Some tw =>
      match tw !! "from_number" with
      | Some n => ret (Some n)
      | None => raise "'from_number'"        (* str(KeyError("from_number")) *)
      end
  | None => ret (environ P !! "TWILIO_PHONE_NUMBER")
  end.

(** One call to the provider: it is logged, the world moves on, and the
    provider's exception, if any, is raised. *)
Definition provider (c : Call) (f : Ext P → Outcome * Ext P) : M (option string) :=
  λ s, let '(o, x) := f (ext s) in
       (match o with Returned sid => Ok sid | Failed err => Raise err end,
        log_call c (set_ext x s)).

Definition NOT_CONFIGURED : string := "Twilio not configured or library missing.".

Definition safe_send_sms (to_number body : Value) : M (bool * string) :=
  match get_twilio_client with
  | None => ret (false, NOT_CONFIGURED)
  | Some client =>
      try_except
        (let* from_ := from_number in
         let* sid := provider (SmsCall body from_ to_number)
                       (messages_create P client body from_ to_number) in
         ret (true, default "sent" sid))               (* getattr(msg, "sid", "sent") *)
        (λ e, ret (false, e))
  end.

Definition safe_make_call (to_number text_to_say : Value) : M (bool * string) :=
  match get_twilio_client with
  | None => ret (false, NOT_CONFIGURED)
  | Some client =>
      try_except
        (let* from_ := from_number in
         let twiml := "<Response><Say>" +:+ py_str text_to_say +:+ "</Say></Response>" in
         let* sid := provider (VoiceCall twiml from_ to_number)
                       (calls_create P client twiml from_ to_number) in
         ret (true, default "call-initiated" sid))
        (λ e, ret (false, e))
  end.

(** ** Outbox management *)

(** The clock, read as a formatted string. *)
Definition strftime_now : M string :=
  λ s, let '(t, x) := now P (ext s) in (Ok t, set_ext x s).

Definition add_to_outbox (recipient message language msg_type : Value) : M unit :=
  let* date := strftime_now in
  let row : PyDict :=
    [("Recipient", recipient); ("Message", message); ("Language", language);
     ("Date Created", VStr date); ("Type", msg_type); ("Attempts", VInt 0)] in
  modify (λ s, set_outbox_df (pd.concat (outbox_df s) (pd.DataFrame_records [row])) s);;
  let* df := gets outbox_df in
  save_df_to_file df OUTBOX_FILE.

(** [int(v)] *)
Definition py_int (v : Value) : M Z :=
  match v with
  | VInt n => ret n
  | VStr s => or_raise "ValueError" (int_of_str P s)
  | VNaN => raise "ValueError"
  end.

(** [for x in l: acc = body(x, acc)] *)
Fixpoint for_each {A S} (body : A → S → M S) (l : list A) (acc : S) : M S :=
  match l with
  | [] => ret acc
  | a :: l => let* acc := body a acc in for_each body l acc
  end.

Definition MAX_REACHED : string := "max attempts reached".

(** The body of the loop of [process_outbox] for one row of the copy;
    [cols] are the columns of the copy. *)
Definition process_row (max_attempts : Z) (cols : list string) (ir : nat * pd.Row)
    (results : list (nat * bool * string)) : M (list (nat * bool * string)) :=
  let '(idx, row) := ir in
  let* attempts := py_int (pd.Series_get cols row "Attempts" (VInt 0)) in
  if decide (attempts >= max_attempts) then
    ret (results ++ [(idx, false, MAX_REACHED)])                  (* continue *)
  else
    let* recipient := or_raise "'Recipient'" (pd.Series_item cols row "Recipient") in
    let* message := or_raise "'Message'" (pd.Series_item cols row "Message") in
    let msg_type := pd.Series_get cols row "Type" (VStr "sms") in
    let language := pd.Series_get cols row "Language" (VStr "English") in
    let* (ok, info) :=
      if py_eq msg_type (VStr "sms") then safe_send_sms recipient message
      else safe_make_call recipient message in
    (* update attempts *)
    modify (λ s, set_outbox_df (pd.at_set idx "Attempts" (VInt (attempts + 1)) (outbox_df s)) s);;
    if ok : bool then
      (* log into message_logs *)
      let* date := strftime_now in
      let sent_row : PyDict :=
        [("Recipient", recipient); ("Message", message); ("Language", language);
         ("Date Sent", VStr date); ("Type", msg_type); ("Status", VStr "Sent")] in
      modify (λ s, set_message_logs
                     (pd.concat (message_logs s) (pd.DataFrame_records [sent_row])) s);;
      (* remove from outbox *)
      let* df := gets outbox_df in
      let* df := or_raise "KeyError" (pd.drop idx df) in
      modify (set_outbox_df df);;
      ret (results ++ [(idx, true, info)])
    else
      ret (results ++ [(idx, false, info)]).

Definition process_outbox (max_attempts : Z) : M (list (nat * bool * string)) :=
  let* copy := gets outbox_df in
  if pd.empty copy then ret []
  else
    let* results := for_each (process_row max_attempts (pd.columns copy)) (pd.rows copy) [] in
    (* persist changes *)
    let* df := gets outbox_df in
    save_df_to_file df OUTBOX_FILE;;
    let* df := gets message_logs in
    save_df_to_file df MESSAGES_FILE;;
    ret results.

(** ** Utility: persist all main tables *)

Definition persist_all : M unit :=
  let* df := gets partners_df in save_df_to_file df PARTNERS_FILE;;
  let* df := gets message_logs in save_df_to_file df MESSAGES_FILE;;
  let* df := gets feedback_df in save_df_to_file df FEEDBACK_FILE;;
  let* df := gets reminders_df in save_df_to_file df REMINDERS_FILE;;
  let* df := gets outbox_df in save_df_to_file df OUTBOX_FILE.

(** ** Pages

    One user interaction is one run of the script: the handler of the button
    that was pressed, then [persist_all()].  Widgets that only render
    ([st.dataframe], charts, messages) are left out.  A run in which none of
    these buttons is pressed (navigation, the FAQ list, the chatbot, the
    dashboard) reads the tables and may talk to the network, so it can leave
    the outside world in any state, but it assigns to no table. *)

Inductive Action :=
| SendNow (recipient msg_text msg_type msg_lang : string)
| AddPartner (name role : string) (langs : list string) (contact campaign : string)
| SubmitFeedback (fname fmsg flang : string)
| AddReminder (task due_date assigned_to : string)
| MarkCompleted (choice : nat)       (* position chosen in the select box *)
| ProcessOutbox
| SaveAll
| Browse (world : Ext P).            (* any other run; [world] is what it leaves outside *)

(** [st.session_state.X = pd.concat([st.session_state.X, pd.DataFrame([row])],
    ignore_index=True)] *)
Definition append_row (get : App → DataFrame) (set : DataFrame → App → App)
    (row : PyDict) : M unit :=
  modify (λ s, set (pd.concat (get s) (pd.DataFrame_records [row])) s).

(** Multilingual Messages: "Send Now". *)
Definition send_now (recipient msg_text msg_type msg_lang : string) : M unit :=
  if decide (recipient = "" ∨ msg_text = "") then ret tt
  else
    let* translated := safe_translate msg_text msg_lang in
    let kind := if decide (msg_type = "sms") then "sms" else "voice" in
    let* (ok, info) :=
      if twilio_configured && bool_decide (is_Some (TwilioClient P)) then
        if decide (msg_type = "sms") then safe_send_sms (VStr recipient) (VStr translated)
        else safe_make_call (VStr recipient) (VStr translated)
      else ret (false, "Twilio not configured") in
    if ok : bool then
      let* date := strftime_now in
      append_row message_logs set_message_logs
        [("Recipient", VStr recipient); ("Message", VStr translated);
         ("Language", VStr msg_lang); ("Date Sent", VStr date);
         ("Type", VStr kind); ("Status", VStr "Sent")];;
      let* df := gets message_logs in
      save_df_to_file df MESSAGES_FILE
    else
      add_to_outbox (VStr recipient) (VStr translated) (VStr msg_lang) (VStr kind).

(** Outreach Partners: "Add Partner". *)
Definition add_partner (name role : string) (langs : list string)
    (contact campaign : string) : M unit :=
  if decide (name = "") then ret tt
  else
    append_row partners_df set_partners_df
      [("Name", VStr name); ("Role", VStr role);
       ("Language", VStr (String.concat ", " langs));
       ("Contact", VStr contact); ("Campaign Assigned", VStr campaign)];;
    let* df := gets partners_df in
    save_df_to_file df PARTNERS_FILE.

(** Community Feedback: "Submit Feedback". *)
Definition submit_feedback (fname fmsg flang : string) : M unit :=
  if decide (fname = "" ∨ fmsg = "") then ret tt
  else
    let* date := strftime_now in
    append_row feedback_df set_feedback_df
      [("Name", VStr fname); ("Message", VStr fmsg); ("Language", VStr flang);
       ("Date Submitted", VStr date)];;
    let* df := gets feedback_df in
    save_df_to_file df FEEDBACK_FILE;;
    let* conf := safe_translate "Thank you for your feedback!" flang in
    ret tt.

(** Notifications & Reminders: "Add Reminder". *)
Definition add_reminder (task due_date assigned_to : string) : M unit :=
  if decide (task = "" ∨ assigned_to = "") then ret tt
  else
    append_row reminders_df set_reminders_df
      [("Task", VStr task); ("Due Date", VStr due_date);
       ("Assigned To", VStr assigned_to); ("Status", VStr "Pending")];;
    let* df := gets reminders_df in
    save_df_to_file df REMINDERS_FILE.

(** Notifications & Reminders: "Mark Completed".  The select box offers
    [pending_tasks]; [choice] is the position the user picked, and a
    position the box does not have picks nothing. *)
Definition mark_completed (choice : nat) : M unit :=
  let* df := gets reminders_df in
  if pd.empty df then ret tt
  else
    let* pending_tasks :=
      or_raise "KeyError" (pd.where_tolist "Status" (VStr "Pending") "Task" df) in
    match pending_tasks !! choice with
    | None => ret tt
    | Some selected_task =>
        let* df := or_raise "KeyError"
                     (pd.loc_set "Task" selected_task "Status" (VStr "Completed") df) in
        modify (set_reminders_df df);;
        save_df_to_file df REMINDERS_FILE
    end.

(** Outbox: "Process Outbox (attempt send)", inside the page's [try]. *)
Definition outbox_page : M unit :=
  try_except (let* results := process_outbox 3 in ret tt) (λ _, ret tt).

Definition handle (a : Action) : M unit :=
  match a with
  | SendNow recipient msg_text msg_type msg_lang =>
      send_now recipient msg_text msg_type msg_lang
  | AddPartner name role langs contact campaign =>
      add_partner name role langs contact campaign
  | SubmitFeedback fname fmsg flang => submit_feedback fname fmsg flang
  | AddReminder task due_date assigned_to => add_reminder task due_date assigned_to
  | MarkCompleted choice => mark_completed choice
  | ProcessOutbox => outbox_page
  | SaveAll => persist_all
  | Browse world => modify (set_ext world)
  end.

(** One run of the script; the last line of the file is [persist_all()]. *)
Definition run (a : Action) : M unit := handle a;; persist_all.

(** The state a run leaves behind, whether it ended or was aborted. *)
Definition step (s : App) (a : Action) : App := (run a s).2.

(** The tables as the first run of a session loads them. *)
Definition startup (files : gmap string (Content P)) (x : Ext P) : App :=
  mkApp (load_df_from_file files PARTNERS_FILE (Some partners_columns))
        (load_df_from_file files MESSAGES_FILE (Some message_logs_columns))
        (load_df_from_file files FEEDBACK_FILE (Some feedback_columns))
        (load_df_from_file files REMINDERS_FILE (Some reminders_columns))
        (load_df_from_file files OUTBOX_FILE (Some outbox_columns))
        files x [].

(** ** Pages that only read

    The FAQ list, the chatbot and the reminder metrics of the dashboard
    assign to no table; the chatbot and the translations may talk to the
    network. *)

(** [faqs], a dict literal: question and answer, in insertion order. *)
Definition faqs : list (string * string) :=
  [("What is SHA?",
    "SHA stands for Social Health Authority, which provides health services and benefits.");
   ("How can I register for SHA?",
    "You can register at your nearest health center or via the SHA portal.");
   ("Which services are covered?",
    "SHA covers preventive care, maternal care, and essential treatments.")].

(** FAQs & Chatbot: the expanders, question and answer as shown. *)
Definition faq_page (selected_language : string) : M (list (string * string)) :=
  for_each (λ '(q, a) shown,
              let* tq := safe_translate q selected_language in
              let* ta := safe_translate a selected_language in
              ret (shown ++ [(tq, ta)]))
           faqs [].

Definition openai_configured : bool :=
  match secrets P !! "openai" with
  | Some o => has_key "api_key" o
  | None => false
  end
  || getenv_truthy "OPENAI_API_KEY".

(** [sub in s] on two strings. *)
Definition contains (sub s : string) : bool :=
  bool_decide (is_Some (String.index 0 sub s)).

(** What the chatbot shows. *)
Inductive Reply :=
| EnterQuestion                        (* st.warning("Please enter a question.") *)
| AIResponse (text : string)           (* **Chatbot (AI) Response:** *)
| FallbackResponse (text : string)     (* st.error("OpenAI error: ..."), **Chatbot (Fallback):** *)
| KeywordResponse (text : string).     (* **Chatbot Response:** *)

Definition SYSTEM_PROMPT : string :=
  "You are a helpful assistant for SHA health services in Kisumu. Keep answers short and local-language friendly.".
Definition NO_AI_RESPONSE : string :=
  "Sorry, I couldn't fetch an AI response. Here is a simple answer attempt.".
Definition NO_ANSWER : string := "Sorry, I don't have an answer for that yet.".

Section Chatbot.

(** The [openai] module when its import succeeded: the chat completion,
    given the key the script stored in [openai.api_key], the model and the
    messages, up to [response.choices[0].message.content.strip()]; [None] is
    any exception on the way.  [lower] is Python's [str.lower]. *)
Context (openai : option (option string → string → list (string * string) →
                          Ext P → option string * Ext P)).
Context (lower : string → string).

(** [None]: the function returns [False]; [Some key]: it returns [True]
    and has set [openai.api_key = key]. *)
Definition configure_openai_api : option (option string) :=
  if negb openai_configured || negb (bool_decide (is_Some openai)) then None
  else
    match secrets P !! "openai" with
    | Some o => key ← o !! "api_key"; Some (Some key)      (* KeyError: return False *)
    | None => Some (environ P !! "OPENAI_API_KEY")
    end.

(** [for q, a in items: if user_input.lower() in q.lower() or
    user_input.lower() in a.lower(): reply = a; break] *)
Fixpoint keyword_reply (user_input : string) (items : list (string * string))
    (reply : string) : string :=
  match items with
  | [] => reply
  | (q, a) :: items =>
      if contains (lower user_input) (lower q) || contains (lower user_input) (lower a)
      then a
      else keyword_reply user_input items reply
  end.

(** FAQs & Chatbot: "Get Answer". *)
Definition get_answer (user_input selected_language : string) : M Reply :=
  if decide (user_input = "") then ret EnterQuestion
  else
    match openai, configure_openai_api with
    | Some create, Some key =>
        try_except
          (let* answer := remote "openai"
                            (create key "gpt-3.5-turbo"
                               [("system", SYSTEM_PROMPT); ("user", user_input)]) in
           let* shown := safe_translate answer selected_language in
           ret (AIResponse shown))
          (λ e,
           (* fallback to simple keyword-based reply *)
           let fallback := keyword_reply user_input faqs NO_AI_RESPONSE in
           let* shown := safe_translate fallback selected_language in
           ret (FallbackResponse shown))
    | _, _ =>
        (* simple keyword-based chatbot *)
        let response := keyword_reply user_input faqs NO_ANSWER in
        let* shown := safe_translate response selected_language in
        ret (KeywordResponse shown)
    end.

End Chatbot.

(** [len(df[df[key] == v])]: [KeyError] (here [None]) without the column. *)
Definition len_where (key : string) (v : Value) (df : DataFrame) : option nat :=
  if decide (key ∈ pd.columns df)
  then Some (length (filter (λ ir, py_eq (pd.cell ir.2 key) v = true) (pd.rows df)))
  else None.

(** Campaign Dashboard: the two reminder metrics, pending and completed;
    [None] when the page says "No reminders yet." *)
Definition reminder_metrics : M (option (nat * nat)) :=
  let* df := gets reminders_df in
  if pd.empty df then ret None
  else
    let* pending := or_raise "KeyError" (len_where "Status" (VStr "Pending") df) in
    let* completed := or_raise "KeyError" (len_where "Status" (VStr "Completed") df) in
    ret (Some (pending, completed)).

(** ** Vocabulary of the properties

    The predicates and auxiliary functions the statements below are written
    with. *)

(** The serialisers and [pd.read_json] understand each other: what
    [to_json] or the [json.dump] fallback wrote for a frame is read back as
    the frame built from the same records. *)
Definition faithful_json : Prop :=
  (∀ df c, to_json P df = Some c →
           read_json P c = Some (pd.DataFrame_records (pd.to_dict df))) ∧
  (∀ recs, read_json P (json_dump P recs) = Some (pd.DataFrame_records recs)).

(** What [process_outbox] relies on: index labels are distinct (they
    come from [ignore_index=True] and [drop]), the columns it reads are
    there, and every attempt count is an integer. *)
Definition outbox_wf (df : DataFrame) : Prop :=
  NoDup (pd.labels df) ∧
  "Recipient" ∈ pd.columns df ∧ "Message" ∈ pd.columns df ∧
  "Attempts" ∈ pd.columns df ∧
  Forall (λ ir, ∃ a, pd.cell ir.2 "Attempts" = VInt a) (pd.rows df).

(** The message log as the script loads it or first creates it. *)
Definition log_wf (df : DataFrame) : Prop :=
  pd.columns df = message_logs_columns ∨ df = pd.DataFrame_empty.

(** The dispatch of one outbox row, by its type. *)
Definition dispatch (cols : list string) (row : pd.Row) : M (bool * string) :=
  if py_eq (pd.Series_get cols row "Type" (VStr "sms")) (VStr "sms")
  then safe_send_sms (pd.cell row "Recipient") (pd.cell row "Message")
  else safe_make_call (pd.cell row "Recipient") (pd.cell row "Message").

(** The log entry of a delivered outbox row. *)
Definition sent_row (cols : list string) (row : pd.Row) (date : string) : PyDict :=
  [("Recipient", pd.cell row "Recipient"); ("Message", pd.cell row "Message");
   ("Language", pd.Series_get cols row "Language" (VStr "English"));
   ("Date Sent", VStr date);
   ("Type", pd.Series_get cols row "Type" (VStr "sms"));
   ("Status", VStr "Sent")].

(** The entries of a result list that report a delivery. *)
Definition delivered (results : list (nat * bool * string)) : list (nat * bool * string) :=
  filter (λ r, r.1.2 = true) results.

(** The state with another outside world and call log. *)
Definition with_world (x : Ext P) (d : list Call) (s : App) : App :=
  mkApp (partners_df s) (message_logs s) (feedback_df s) (reminders_df s)
        (outbox_df s) (fs s) x d.

(** The state after the two [save_df_to_file] calls that end
    [process_outbox]: only files are written. *)
Definition persisted (s : App) : App :=
  set_fs (<[MESSAGES_FILE := match to_json P (message_logs s) with
                             | Some c => c
                             | None => json_dump P (pd.to_dict (message_logs s))
                             end]>
          (<[OUTBOX_FILE := match to_json P (outbox_df s) with
                            | Some c => c
                            | None => json_dump P (pd.to_dict (outbox_df s))
                            end]> (fs s))) s.

(** A provider that is configured and whose [create] calls always return. *)
Definition provider_always_succeeds : Prop :=
  is_Some get_twilio_client ∧
  (∀ tw, secrets P !! "twilio" = Some tw → is_Some (tw !! "from_number")) ∧
  (∀ client body from_ to x, ∃ sid x',
     messages_create P client body from_ to x = (Returned sid, x')) ∧
  (∀ client twiml from_ to x, ∃ sid x',
     calls_create P client twiml from_ to x = (Returned sid, x')).

(** The outbox table as the script loads it or first creates it. *)
Definition outbox_fresh (df : DataFrame) : Prop :=
  pd.rows df = [] ∧ (pd.columns df = outbox_columns ∨ pd.columns df = []).

(** The outbox entry [add_to_outbox] creates. *)
Definition outbox_row (recipient message language msg_type : Value) (created : string) : PyDict :=
  [("Recipient", recipient); ("Message", message); ("Language", language);
   ("Date Created", VStr created); ("Type", msg_type); ("Attempts", VInt 0)].

(** [n] drains in a row, with the results of each. *)
Fixpoint drains (n : nat) (max_attempts : Z) : M (list (list (nat * bool * string))) :=
  match n with
  | O => ret []
  | S n =>
      let* results := process_outbox max_attempts in
      let* rest := drains n max_attempts in
      ret (results :: rest)
  end.

(** A computation that leaves a part [f] of the state as it found it,
    whether it returns or raises. *)
Definition preserves {B A} (f : App → B) (m : M A) : Prop :=
  ∀ s, f (m s).2 = f s.

(** What "Mark Completed" makes of a row when [selected] is the chosen task. *)
Definition complete_row (selected : Value) (ir : nat * pd.Row) : nat * pd.Row :=
  if py_eq (pd.cell ir.2 "Task") selected
  then (ir.1, <["Status" := VStr "Completed"]> ir.2)
  else ir.

(** The Status column of the reminders, row by row. *)
Definition statuses (df : DataFrame) : list Value :=
  map (λ ir, pd.cell ir.2 "Status") (pd.rows df).

(** A reminders table that has rows has the columns the page reads. *)
Definition reminders_ok (df : DataFrame) : Prop :=
  pd.rows df = [] ∨ ("Task" ∈ pd.columns df ∧ "Status" ∈ pd.columns df).

(** The states a session goes through: the first run loads the tables,
    every interaction is one more run. *)
Inductive reachable : App → Prop :=
| reachable_startup files x : reachable (startup files x)
| reachable_step s a : reachable s → reachable (step s a).

(** The reminder [add_reminder] creates. *)
Definition new_reminder (task due_date assigned_to : string) : PyDict :=
  [("Task", VStr task); ("Due Date", VStr due_date);
   ("Assigned To", VStr assigned_to); ("Status", VStr "Pending")].

(** A computation that keeps an invariant [I] of the state, whether it
    returns or raises. *)
Definition maintains {A} (I : App → Prop) (m : M A) : Prop :=
  ∀ s, I s → I (m s).2.

(** A view of the state that the files, the outside world and the call log
    do not enter. *)
Definition table_view {B} (f : App → B) : Prop :=
  ∀ s files x d,
    f (mkApp (partners_df s) (message_logs s) (feedback_df s) (reminders_df s)
             (outbox_df s) files x d) = f s.

(** The outbox along a session that started with a well-formed one: labels
    are distinct, attempt counts are integers, and the columns are the six
    of [add_to_outbox] (or the frame is [pd.DataFrame()]). *)
Definition outbox_inv (df : DataFrame) : Prop :=
  NoDup (pd.labels df) ∧
  Forall (λ ir, ∃ a, pd.cell ir.2 "Attempts" = VInt a) (pd.rows df) ∧
  (pd.columns df = outbox_columns ∨ df = pd.DataFrame_empty).


(** What [save_df_to_file] leaves in the file it writes. *)
Definition file_content (df : DataFrame) : Content P :=
  match to_json P df with
  | Some c => c
  | None => json_dump P (pd.to_dict df)
  end.

(** What a file holds, as [load_df_from_file] gets to see it: read by
    [pd.read_json], or else by [json.load] and [pd.DataFrame]. *)
Definition parsed (c : Content P) : option DataFrame :=
  match read_json P c with
  | Some df => Some df
  | None => json_load P c ≫= DataFrame_of P
  end.

(** A table with exactly the columns [cols], or [pd.DataFrame()]. *)
Definition shaped (cols : list string) (df : DataFrame) : Prop :=
  pd.columns df = cols ∨ df = pd.DataFrame_empty.

Definition tables_shaped (s : App) : Prop :=
  shaped partners_columns (partners_df s) ∧
  shaped message_logs_columns (message_logs s) ∧
  shaped feedback_columns (feedback_df s) ∧
  shaped reminders_columns (reminders_df s) ∧
  shaped outbox_columns (outbox_df s).

(** The data directory holds what the session holds. *)
Definition in_sync (s : App) : Prop :=
  fs s !! PARTNERS_FILE = Some (file_content (partners_df s)) ∧
  fs s !! MESSAGES_FILE = Some (file_content (message_logs s)) ∧
  fs s !! FEEDBACK_FILE = Some (file_content (feedback_df s)) ∧
  fs s !! REMINDERS_FILE = Some (file_content (reminders_df s)) ∧
  fs s !! OUTBOX_FILE = Some (file_content (outbox_df s)).

(** A computation that returns, whatever the state. *)
Definition returns {A} (m : M A) : Prop := ∀ s, ∃ a s', m s = (Ok a, s').

(** The records the forms build. *)
Definition new_partner (name role : string) (langs : list string)
    (contact campaign : string) : PyDict :=
  [("Name", VStr name); ("Role", VStr role);
   ("Language", VStr (String.concat ", " langs));
   ("Contact", VStr contact); ("Campaign Assigned", VStr campaign)].

Definition new_fb (fname fmsg flang date : string) : PyDict :=
  [("Name", VStr fname); ("Message", VStr fmsg); ("Language", VStr flang);
   ("Date Submitted", VStr date)].

Definition log_row (recipient translated msg_lang date kind : string) : PyDict :=
  [("Recipient", VStr recipient); ("Message", VStr translated);
   ("Language", VStr msg_lang); ("Date Sent", VStr date);
   ("Type", VStr kind); ("Status", VStr "Sent")].

(** The value of the Type column for the choice of the "Message Type" box. *)
Definition kind_of (msg_type : string) : string :=
  if decide (msg_type = "sms") then "sms" else "voice".

(** What a drain makes of a queued row it does not deliver: one more
    attempt, unless the attempts are used up. *)
Definition bump (max_attempts : Z) (ir : nat * pd.Row) : nat * pd.Row :=
  match pd.cell ir.2 "Attempts" with
  | VInt a => if decide (a >= max_attempts) then ir
              else (ir.1, <["Attempts" := VInt (a + 1)]> ir.2)
  | _ => ir
  end.

(** What is left in the outbox of a row, given the result the drain
    reports for it. *)
Definition survivor (max_attempts : Z) (ir : nat * pd.Row) (r : nat * bool * string)
    : list (nat * pd.Row) :=
  if r.1.2 then [] else [bump max_attempts ir].

(** The attempt count of a queued row, when it is an integer. *)
Definition attempts_of (ir : nat * pd.Row) : option Z :=
  match pd.cell ir.2 "Attempts" with
  | VInt a => Some a
  | _ => None
  end.

(** The number of reminders with a given Status. *)
Definition status_count (v : Value) (df : DataFrame) : nat :=
  length (filter (λ ir, py_eq (pd.cell ir.2 "Status") v = true) (pd.rows df)).

(** The options of the "Mark completed" select box. *)
Definition pending_tasks (df : DataFrame) : list Value :=
  map (λ ir, pd.cell ir.2 "Task")
      (filter (λ ir, py_eq (pd.cell ir.2 "Status") (VStr "Pending") = true) (pd.rows df)).

(** Whether a FAQ entry answers a question, as the keyword chatbot sees it. *)
Definition answers (lower : string → string) (user_input : string)
    (qa : string * string) : Prop :=
  contains (lower user_input) (lower qa.1) = true ∨
  contains (lower user_input) (lower qa.2) = true.

(** What one of the two senders does: it returns, and moves nothing but
    the outside world and the call log, by at most one call. *)
Definition one_attempt (m : M (bool * string)) : Prop :=
  ∀ s, ∃ ok info x d,
    m s = (Ok (ok, info), with_world x d s) ∧
    (d = dispatched s ∨ ∃ c, d = dispatched s ++ [c]) ∧
    (ok = true → ∃ c, d = dispatched s ++ [c]) ∧
    (get_twilio_client = None → ok = false ∧ x = ext s ∧ d = dispatched s).


(** What a drain reports for a row when no Twilio client can be built. *)
Definition offline_result (max_attempts : Z) (ir : nat * pd.Row) : nat * bool * string :=
  (ir.1, false,
   match pd.cell ir.2 "Attempts" with
   | VInt a => if decide (a >= max_attempts) then MAX_REACHED else NOT_CONFIGURED
   | _ => NOT_CONFIGURED
   end).

(** What is left of the rows [rows] when the drain reported [results] for
    them, row by row. *)
Definition survivors (max_attempts : Z) (rows : list (nat * pd.Row))
    (results : list (nat * bool * string)) : list (nat * pd.Row) :=
  mjoin (zip_with (survivor max_attempts) rows results).


(** The attempt counts of the queue are integers between 0 and
    [max_attempts]. *)
Definition attempts_within (max_attempts : Z) (df : DataFrame) : Prop :=
  Forall (λ ir, ∃ a, pd.cell ir.2 "Attempts" = VInt a ∧ 0 ≤ a ≤ max_attempts) (pd.rows df).


(** A message log that holds the records of [before] and, after them,
    only records of sent messages. *)
Definition extends_log (before : DataFrame) (df : DataFrame) : Prop :=
  log_wf df ∧
  ∃ later, pd.to_dict df = pd.to_dict before ++ later ∧
           Forall (λ d : PyDict, d.*1 = message_logs_columns ∧
                                 ("Status", VStr "Sent") ∈ d) later.

End Script.

Arguments App P : clear implicits.
Arguments M P A : clear implicits.
Arguments Action P : clear implicits.
Arguments twilio_configured P : clear implicits.
Arguments get_twilio_client P : clear implicits.
Arguments faithful_json P : clear implicits.
Arguments provider_always_succeeds P : clear implicits.

(** * Concrete instances

    A small platform to run the script on: secrets that configure Twilio or
    not, a provider that delivers or refuses, a translator that is absent or
    raises, a clock that ticks, and files that hold either a list of records
    or text no parser reads. *)

Definition demo_secrets (configured : bool) : gmap string (gmap string string) :=
  if configured
  then {[ "twilio" := list_to_map [("account_sid", "AC0001"); ("auth_token", "token");
                                   ("from_number", "+15550100")] ]}
  else ∅.

Definition demo (configured delivers translator : bool) : Platform := {|
  Ext := nat;
  Client := string * string;
  Content := option (list PyDict);
  PyObj := list PyDict;
  secrets := demo_secrets configured;
  environ := ∅;
  TwilioClient := Some (λ sid token, a ← sid; b ← token; Some (a, b));
  messages_create := λ _ _ _ _ x,
    (if delivers then Returned (Some "SM0001") else Failed "unreachable", S x);
  calls_create := λ _ _ _ _ x,
    (if delivers then Returned (Some "CA0001") else Failed "unreachable", S x);
  gt_translator := if translator then Some (λ _ _ x, (None, S x)) else None;
  now := λ x, ("2024-05-01 09:00:00", S x);
  to_json := λ df, Some (Some (pd.to_dict df));
  json_dump := λ recs, Some recs;
  read_json := λ c, pd.DataFrame_records <$> c;
  json_load := λ c, c;
  DataFrame_of := λ recs, Some (pd.DataFrame_records recs);
  int_of_str := λ _, None
|}.

(** A session started on an empty data directory. *)
Definition fresh (configured delivers translator : bool) : App (demo configured delivers translator) :=
  startup (P:=demo configured delivers translator) ∅ 0%nat.

(** Enqueue one SMS on a fresh session, then drain once. *)
Definition enqueue_and_drain (delivers : bool) :=
  bind (add_to_outbox (VStr "+254700000001") (VStr "Clinic opens at 8")
                          (VStr "English") (VStr "sms"))
         (λ _, process_outbox 3) (fresh true delivers false).

(** An outbox with one entry, attempted [attempts] times. *)
Definition queued_row (attempts : Z) : pd.Row :=
  list_to_map [("Recipient", VStr "+254700000001"); ("Message", VStr "Clinic opens at 8");
               ("Language", VStr "English"); ("Date Created", VStr "2024-05-01 09:00:00");
               ("Type", VStr "sms"); ("Attempts", VInt attempts)].

Definition queued (delivers : bool) (attempts : Z) : App (demo true delivers false) :=
  set_outbox_df (pd.mk outbox_columns [(0%nat, queued_row attempts)])
                (fresh true delivers false).

(** A data directory whose reminders file holds text that is not JSON. *)
Definition garbled : gmap string (option (list PyDict)) := {[ REMINDERS_FILE := None ]}.

(** A reminders table with two pending reminders for the same task and one
    for another. *)
Definition three_reminders : DataFrame :=
  pd.mk reminders_columns
    [(0%nat, list_to_map [("Task", VStr "Call clinic"); ("Due Date", VStr "2024-05-02");
                          ("Assigned To", VStr "Akinyi"); ("Status", VStr "Pending")]);
     (1%nat, list_to_map [("Task", VStr "Print posters"); ("Due Date", VStr "2024-05-03");
                          ("Assigned To", VStr "Otieno"); ("Status", VStr "Pending")]);
     (2%nat, list_to_map [("Task", VStr "Call clinic"); ("Due Date", VStr "2024-05-09");
                          ("Assigned To", VStr "Wanjiru"); ("Status", VStr "Pending")])].

(** The first interaction of a session: a reminder is added. *)
Definition add_call_clinic : Action (demo false false false) :=
  AddReminder "Call clinic" "2024-05-02" "Akinyi".

(** A session whose reminders table holds [three_reminders]. *)
Definition reminding : App (demo false false false) :=
  set_reminders_df three_reminders (fresh false false false).

(** A platform with other secrets and another environment. *)
Definition reconfigured (sec : gmap string (gmap string string))
    (env : gmap string string) (Q : Platform) : Platform := {|
  Ext := Ext Q;
  Client := Client Q;
  Content := Content Q;
  PyObj := PyObj Q;
  secrets := sec;
  environ := env;
  TwilioClient := TwilioClient Q;
  messages_create := messages_create Q;
  calls_create := calls_create Q;
  gt_translator := gt_translator Q;
  now := now Q;
  to_json := to_json Q;
  json_dump := json_dump Q;
  read_json := read_json Q;
  json_load := json_load Q;
  DataFrame_of := DataFrame_of Q;
  int_of_str := int_of_str Q
|}.

(** Secrets with a [twilio] section that has no sender number and an
    [openai] section that has no key, beside an environment that holds all
    four variables. *)
Definition half_configured : Platform :=
  reconfigured
    {[ "twilio" := list_to_map [("account_sid", "AC0001"); ("auth_token", "token")];
       "openai" := ∅ ]}
    (list_to_map [("TWILIO_ACCOUNT_SID", "AC0002"); ("TWILIO_AUTH_TOKEN", "token2");
                  ("TWILIO_PHONE_NUMBER", "+15550101"); ("OPENAI_API_KEY", "sk-0001")])
    (demo false true false).

(** Secrets that configure OpenAI. *)
Definition ai_configured : Platform :=
  reconfigured {[ "openai" := {[ "api_key" := "sk-0001" ]} ]} ∅ (demo false false false).

(** An OpenAI library whose call raises, and one that answers. *)
Definition openai_down
    : option (option string → string → list (string * string) → nat → option string * nat) :=
  Some (λ _ _ _ x, (None, S x)).

Definition openai_up
    : option (option string → string → list (string * string) → nat → option string * nat) :=
  Some (λ _ _ _ x, (Some "Visit the nearest health center.", S x)).

(** [str.lower] on ASCII text. *)
Definition lower_ascii (c : Ascii.ascii) : Ascii.ascii :=
  let n := Ascii.nat_of_ascii c in
  if (65 <=? n)%nat && (n <=? 90)%nat then Ascii.ascii_of_nat (n + 32) else c.

Fixpoint str_lower (s : string) : string :=
  match s with
  | EmptyString => EmptyString
  | String c s => String (lower_ascii c) (str_lower s)
  end.

(** An outbox with a fresh entry and an exhausted one, and no Twilio
    configuration. *)
Definition offline_queue : App (demo false false false) :=
  set_outbox_df (pd.mk outbox_columns [(0%nat, queued_row 0); (1%nat, queued_row 3)])
                (fresh false false false).

(** A partners file written by another tool: a column the script does not
    know, and only one of those it expects. *)
Definition foreign_partners : list PyDict :=
  [[("Name", VStr "Achieng"); ("Phone", VStr "+254700000002")]].

(** An outbox file whose records have no "Attempts" key. *)
Definition outbox_without_attempts : list PyDict :=
  [[("Recipient", VStr "+254700000001"); ("Message", VStr "Clinic opens at 8");
    ("Language", VStr "English"); ("Date Created", VStr "2024-05-01 09:00:00");
    ("Type", VStr "sms")]].

(** A reminders file with a pending reminder whose task is null. *)
Definition reminders_with_null_task : list PyDict :=
  [[("Task", VNaN); ("Due Date", VStr "2024-05-02"); ("Assigned To", VStr "Akinyi");
    ("Status", VStr "Pending")]].

(** A session in which two reminders were added. *)
Definition two_reminders : App (demo false false false) :=
  step (step (fresh false false false) add_call_clinic)
       (AddReminder "Print posters" "2024-05-03" "Otieno").

(** A short session: a message is sent while Twilio is not configured, and
    the outbox is processed twice. *)
Definition offline_session : list (Action (demo false false false)) :=
  [SendNow "+254700000001" "Clinic opens at 8" "sms" "English"; ProcessOutbox; ProcessOutbox].

(** Sessions started on an empty data directory under these secrets. *)
Definition half_start : App half_configured := startup (P:=half_configured) ∅ 0%nat.
Definition ai_start : App ai_configured := startup (P:=ai_configured) ∅ 0%nat.

(** An outbox file whose one record has no "Type" key, and the row
    [pd.read_json] makes of it. *)
Definition untyped_record : PyDict :=
  [("Recipient", VStr "+254700000001"); ("Message", VStr "Clinic opens at 8");
   ("Language", VStr "English"); ("Date Created", VStr "2024-05-01 09:00:00");
   ("Attempts", VInt 0)].

Definition outbox_without_type : list PyDict := [untyped_record].

Definition untyped_row : nat * pd.Row := (0%nat, list_to_map untyped_record).

(** * Properties *)

Section Properties.

Context {P : Platform}.

Implicit Types (s : App P) (files : gmap string (Content P)).

(** [x ∉ [a; b; ...]] for literals. *)
Ltac not_in_list :=
  let H := fresh in
  intros H; repeat (apply elem_of_cons in H as [H|H]; [congruence|]);
  by apply elem_of_nil in H.

(** ** Translation *)

Lemma safe_translate_english text s : safe_translate text "English" s = (Ok text, s).
Proof.
  unfold safe_translate.
  destruct (decide (text = "")); [done|].
  by rewrite decide_False by not_in_list.
Qed.

Lemma safe_translate_other text lang s :
  lang ∉ language_options → safe_translate text lang s = (Ok text, s).
Proof.
  intros Hl. unfold language_options in Hl.
  repeat (apply not_elem_of_cons in Hl as [? Hl]).
  unfold safe_translate.
  destruct (decide (text = "")); [done|].
  rewrite decide_False by not_in_list.
  by rewrite !decide_False by done.
Qed.

Lemma safe_translate_swahili text s :
  safe_translate text "Swahili" s =
    if decide (text = "") then (Ok text, s)
    else match gt_translator P with
         | Some translate =>
             match translate text "sw" (ext s) with
             | (Some t, x) => (Ok t, set_ext x s)
             | (None, x) => (Ok text, set_ext x s)
             end
         | None => (Ok text, s)
         end.
Proof.
  unfold safe_translate.
  destruct (decide (text = "")); [done|].
  rewrite decide_False by not_in_list.
  rewrite decide_False by done. rewrite decide_True by done.
  destruct (gt_translator P) as [translate|]; [|done].
  unfold try_except, remote.
  by destruct (translate text "sw" (ext s)) as [[t|] x].
Qed.

Lemma safe_translate_dict text lang s :
  lang ∈ ["Luo"; "Luhya"] →
  safe_translate text lang s =
    (Ok (default text (custom_translations !! lang ≫= (.!! text))), s).
Proof.
  intros Hl. unfold safe_translate.
  destruct (decide (text = "")) as [->|].
  - apply elem_of_cons in Hl as [->|Hl]; [done|].
    apply elem_of_cons in Hl as [->|Hl]; [done|]. by apply elem_of_nil in Hl.
  - rewrite decide_True by done. unfold dict_get, ret.
    by destruct (custom_translations !! lang) as [d|]; simpl; [destruct (d !! text)|].
Qed.

(** C6. [safe_translate] never raises, whatever the text, the language and
    the state of the world: it always returns a string.  English is the
    identity; so is every language outside English, Swahili, Luo and Luhya;
    and for Swahili the text comes back unchanged when googletrans is not
    installed and when its call raises. *)
Theorem safe_translate_never_raises text lang s :
  (∃ out s', safe_translate text lang s = (Ok out, s')) ∧
  safe_translate text "English" s = (Ok text, s) ∧
  (lang ∉ language_options → safe_translate text lang s = (Ok text, s)) ∧
  (gt_translator P = None → safe_translate text "Swahili" s = (Ok text, s)) ∧
  (∀ translate, gt_translator P = Some translate →
     (translate text "sw" (ext s)).1 = None →
     (safe_translate text "Swahili" s).1 = Ok text).
Proof.
  split_and!.
  - destruct (decide (lang ∈ ["Luo"; "Luhya"])) as [Hd|Hd].
    { rewrite safe_translate_dict by done. eauto. }
    destruct (decide (lang = "English")) as [->|He].
    { rewrite safe_translate_english. eauto. }
    destruct (decide (lang = "Swahili")) as [->|Hs].
    { rewrite safe_translate_swahili. case_decide; [eauto|].
      destruct (gt_translator P) as [translate|]; [|eauto].
      destruct (translate text "sw" (ext s)) as [[t|] x]; eauto. }
    rewrite safe_translate_other; [eauto|].
    apply not_elem_of_cons in Hd as [? Hd]. apply not_elem_of_cons in Hd as [? _].
    unfold language_options. not_in_list.
  - apply safe_translate_english.
  - apply safe_translate_other.
  - intros Hg. rewrite safe_translate_swahili, Hg. by case_decide.
  - intros translate Hg Hfail. rewrite safe_translate_swahili, Hg.
    case_decide; [done|].
    by destruct (translate text "sw" (ext s)) as [[t|] x]; simplify_eq/=.
Qed.

(** C7. Luo and Luhya are exact-match lookups in [custom_translations]:
    "What is SHA?" in Luo is the dictionary's Luo string, "unknown phrase"
    comes back unchanged, and in general the result is the entry stored
    under exactly [text], or [text] itself when there is none. *)
Theorem safe_translate_exact_match s :
  safe_translate "What is SHA?" "Luo" s =
    (Ok "SHA en Social Health Authority, ma orit gi dhok yi mondo giko gi bedo mag dhok.", s) ∧
  safe_translate "unknown phrase" "Luo" s = (Ok "unknown phrase", s) ∧
  (∀ text lang, lang ∈ ["Luo"; "Luhya"] →
     (∀ t, custom_translations !! lang ≫= (.!! text) = Some t →
           safe_translate text lang s = (Ok t, s)) ∧
     (custom_translations !! lang ≫= (.!! text) = None →
           safe_translate text lang s = (Ok text, s))).
Proof.
  split_and!.
  - by rewrite safe_translate_dict by constructor.
  - by rewrite safe_translate_dict by constructor.
  - intros text lang Hl. rewrite safe_translate_dict by done.
    split; [intros t ->|intros ->]; done.
Qed.

(** ** Messaging gateway *)

(** Without credentials there is no client. *)
Lemma get_twilio_client_unconfigured :
  twilio_configured P = false ∨ TwilioClient P = None → get_twilio_client P = None.
Proof.
  unfold get_twilio_client. intros [->| Hlib]; [done|].
  destruct twilio_configured; [simpl|done]. rewrite Hlib.
  destruct (secrets P !! "twilio") as [tw|]; simpl; [|done].
  destruct (tw !! "account_sid"); simpl; [|done].
  by destruct (tw !! "auth_token").
Qed.

Lemma safe_send_sms_spec to_number body s :
  safe_send_sms to_number body s =
    match get_twilio_client P with
    | None => (Ok (false, NOT_CONFIGURED), s)
    | Some client =>
        match from_number s with
        | (Ok from_, _) =>
            let '(o, x) := messages_create P client body from_ to_number (ext s) in
            (Ok match o with
                | Returned sid => (true, default "sent" sid)
                | Failed err => (false, err)
                end,
             log_call (SmsCall body from_ to_number) (set_ext x s))
        | (Raise e, _) => (Ok (false, e), s)
        end
    end.
Proof.
  unfold safe_send_sms. destruct get_twilio_client as [client|]; [|done].
  unfold try_except, bind, from_number, provider, ret, raise.
  destruct (secrets P !! "twilio") as [tw|]; [destruct (tw !! "from_number")|];
    try done;
    by destruct (messages_create _ _ _ _ _ _) as [[sid|err] x].
Qed.

Lemma safe_make_call_spec to_number text_to_say s :
  safe_make_call to_number text_to_say s =
    match get_twilio_client P with
    | None => (Ok (false, NOT_CONFIGURED), s)
    | Some client =>
        match from_number s with
        | (Ok from_, _) =>
            let twiml := "<Response><Say>" +:+ py_str text_to_say +:+ "</Say></Response>" in
            let '(o, x) := calls_create P client twiml from_ to_number (ext s) in
            (Ok match o with
                | Returned sid => (true, default "call-initiated" sid)
                | Failed err => (false, err)
                end,
             log_call (VoiceCall twiml from_ to_number) (set_ext x s))
        | (Raise e, _) => (Ok (false, e), s)
        end
    end.
Proof.
  unfold safe_make_call. destruct get_twilio_client as [client|]; [|done].
  unfold try_except, bind, from_number, provider, ret, raise.
  destruct (secrets P !! "twilio") as [tw|]; [destruct (tw !! "from_number")|];
    try done;
    by destruct (calls_create _ _ _ _ _ _) as [[sid|err] x].
Qed.


(** ** Record store: loading *)

Lemma backfill_columns_mono cols df :
  pd.columns df ⊆ pd.columns (backfill cols df).
Proof.
  unfold backfill. revert df. induction cols as [|c cols IH]; intros df; [done|].
  simpl. etrans; [|apply IH].
  case_decide; [done|]. simpl. rewrite decide_False by done.
  intros x Hx. apply elem_of_app. by left.
Qed.

Lemma backfill_columns_sub cols df : cols ⊆ pd.columns (backfill cols df).
Proof.
  unfold backfill. revert df. induction cols as [|c cols IH]; intros df.
  { intros x Hx. by apply elem_of_nil in Hx. }
  simpl. intros x [->|Hx]%elem_of_cons; [|by apply IH].
  apply (backfill_columns_mono cols). case_decide; [done|].
  simpl. rewrite decide_False by done. apply elem_of_app. right. constructor.
Qed.

(** With expected columns the projection never fails, and the frame that
    comes out has exactly those columns, in that order. *)
Lemma expect_given cols df :
  given (Some cols) = Some cols →
  ∃ df', expect (Some cols) df = Some df' ∧ pd.columns df' = cols.
Proof.
  intros Hg. unfold expect. rewrite Hg. unfold pd.select.
  rewrite decide_True by apply backfill_columns_sub. eauto.
Qed.

(** Where [load_df_from_file] keeps its promise: the file is absent, or one
    of the two parsers reads it. *)
Lemma load_df_from_file_columns files path cols :
  cols ≠ [] →
  (files !! path = None ∨
   ∃ c, files !! path = Some c ∧
        (is_Some (read_json P c) ∨ is_Some (json_load P c ≫= DataFrame_of P))) →
  pd.columns (load_df_from_file files path (Some cols)) = cols.
Proof.
  intros Hne Hfile.
  assert (given (Some cols) = Some cols) as Hg by (by destruct cols).
  unfold load_df_from_file.
  destruct Hfile as [->|(c & -> & Hparse)]; [by rewrite Hg|].
  destruct (read_json P c) as [df|] eqn:Hread; simpl.
  { by destruct (expect_given cols df Hg) as (df' & -> & ?). }
  destruct Hparse as [[? [=]]|[df Hraw]].
  destruct (json_load P c) as [records|]; simpl in *; [|done].
  rewrite Hraw. simpl.
  by destruct (expect_given cols df Hg) as (df' & -> & ?).
Qed.

(** C4 (where the code departs from it). A file that neither
    [pd.read_json] nor [json.load] can read makes [load_df_from_file] return
    [pd.DataFrame()], a frame with no columns at all, whatever columns were
    expected: the expected columns are not there. *)
Theorem load_df_from_file_unreadable files path c cols :
  files !! path = Some c →
  read_json P c = None →
  json_load P c = None →
  cols ≠ [] →
  load_df_from_file files path (Some cols) = pd.DataFrame_empty ∧
  pd.columns (load_df_from_file files path (Some cols)) ≠ cols.
Proof.
  intros Hfile Hread Hraw Hne.
  assert (load_df_from_file files path (Some cols) = pd.DataFrame_empty) as ->.
  { unfold load_df_from_file. by rewrite Hfile, Hread, Hraw. }
  split; [done|]. simpl. by destruct cols.
Qed.

(** ** Record store: saving, then loading *)

Lemma elem_of_first_seen x l : x ∈ pd.first_seen l ↔ x ∈ l.
Proof.
  induction l as [|y l IH]; simpl; [done|].
  rewrite !elem_of_cons, list_elem_of_filter, IH.
  destruct (decide (x = y)); intuition.
Qed.

(** Relabelling keeps the rows and their order. *)
Lemma map_imap_snd {A} (g : pd.Row → A) (h : nat → nat) (rs : list pd.Row) :
  map (λ ir, g ir.2) (imap (λ i r, (h i, r)) rs) = map g rs.
Proof.
  revert h. induction rs as [|r rs IH]; intros h; [done|].
  simpl. f_equal. apply (IH (h ∘ S)).
Qed.

Lemma map_reindex {A} (g : pd.Row → A) (rs : list pd.Row) :
  map (λ ir, g ir.2) (pd.reindex rs) = map g rs.
Proof. apply (map_imap_snd g id). Qed.

Lemma to_dict_reindex cols (rs : list pd.Row) :
  pd.to_dict (pd.mk cols (pd.reindex rs)) = map (λ r, map (λ c, (c, pd.cell r c)) cols) rs.
Proof. unfold pd.to_dict. simpl. apply (map_reindex (λ r, map (λ c, (c, pd.cell r c)) cols)). Qed.

Lemma cell_restrict cols (r : pd.Row) c :
  c ∈ cols → pd.cell (pd.restrict cols r) c = pd.cell r c.
Proof.
  intros Hc. unfold pd.cell, pd.restrict. f_equal.
  destruct (r !! c) as [v|] eqn:Hr.
  - by apply map_lookup_filter_Some.
  - apply map_lookup_filter_None. by left.
Qed.

Lemma to_dict_select cols df :
  cols ⊆ pd.columns df →
  ∃ df', pd.select cols df = Some df' ∧ pd.columns df' = cols ∧
         pd.to_dict df' = map (λ ir, map (λ c, (c, pd.cell ir.2 c)) cols) (pd.rows df).
Proof.
  intros Hsub. unfold pd.select. rewrite decide_True by done.
  eexists. split_and!; [done..|].
  unfold pd.to_dict. simpl. rewrite map_map. apply map_ext. intros [i r]. simpl.
  apply Forall_fmap_ext, Forall_forall. intros c Hc. by rewrite cell_restrict.
Qed.

Lemma backfill_present cols df : cols ⊆ pd.columns df → backfill cols df = df.
Proof.
  unfold backfill. induction cols as [|c cols IH]; intros Hsub; [done|].
  simpl. rewrite decide_True by (apply Hsub; constructor).
  apply IH. intros x Hx. apply Hsub. by constructor.
Qed.

Lemma backfill_no_rows cols df : pd.rows df = [] → pd.rows (backfill cols df) = [].
Proof.
  unfold backfill. revert df. induction cols as [|c cols IH]; intros df Hr; [done|].
  simpl. apply IH. case_decide; [done|]. simpl. by rewrite Hr.
Qed.

(** A dict built from distinct or repeated column names reads back the
    cell stored under each name. *)
Lemma cell_list_to_map (f : string → Value) cols c :
  c ∈ cols → pd.cell (list_to_map (map (λ c, (c, f c)) cols)) c = f c.
Proof.
  unfold pd.cell. induction cols as [|c' cols IH]; intros Hc.
  { by apply elem_of_nil in Hc. }
  simpl. destruct (decide (c' = c)) as [->|Hne].
  - by rewrite lookup_insert_eq.
  - rewrite lookup_insert_ne by done. apply IH.
    by apply elem_of_cons in Hc as [->|Hc].
Qed.

(** The frame built from the records of [T] holds, under the columns of
    [T], the cells of [T]. *)
Lemma to_dict_records T :
  map (λ ir, map (λ c, (c, pd.cell ir.2 c)) (pd.columns T))
      (pd.rows (pd.DataFrame_records (pd.to_dict T)))
  = pd.to_dict T.
Proof.
  unfold pd.DataFrame_records. cbn [pd.rows].
  rewrite (map_reindex (λ r, map (λ c, (c, pd.cell r c)) (pd.columns T))).
  unfold pd.to_dict. rewrite !map_map.
  apply Forall_fmap_ext, Forall_forall. intros ir _. cbn beta.
  apply Forall_fmap_ext, Forall_forall. intros c Hc. cbn beta.
  f_equal. by apply (cell_list_to_map (pd.cell ir.2)).
Qed.

(** What the guarded projection of [load_df_from_file] makes of the frame
    [pd.read_json] builds from the records of [T]: the records of [T]. *)
Lemma expect_records T :
  ∃ T', expect (Some (pd.columns T)) (pd.DataFrame_records (pd.to_dict T)) = Some T' ∧
        pd.columns T' = pd.columns T ∧ pd.to_dict T' = pd.to_dict T.
Proof.
  destruct T as [cols rs]. simpl.
  set (D := pd.DataFrame_records (pd.to_dict (pd.mk cols rs))).
  destruct cols as [|c0 cs].
  - (* no expected columns: the frame is returned as it was read *)
    exists D. split; [done|].
    assert (pd.columns D = []) as Hcols.
    { unfold D, pd.DataFrame_records, pd.to_dict. simpl.
      replace (mjoin _) with (@nil string); [done|].
      induction rs as [|r rs IH]; simpl; [done|]. by rewrite <-IH. }
    split; [done|].
    unfold pd.to_dict at 1. rewrite Hcols. simpl.
    unfold D, pd.DataFrame_records. simpl pd.rows.
    rewrite (map_reindex (λ _, [])). unfold pd.to_dict. simpl.
    by rewrite !map_map.
  - set (cols := c0 :: cs) in *.
    unfold expect. simpl given. fold cols.
    destruct rs as [|r rs].
    + (* no rows: every expected column is backfilled *)
      destruct (to_dict_select cols (backfill cols D)) as (T' & -> & Hc & Hd).
      { apply backfill_columns_sub. }
      exists T'. split_and!; [done..|].
      rewrite Hd. by rewrite backfill_no_rows.
    + (* some row: every expected column is a key of its record *)
      assert (cols ⊆ pd.columns D) as Hsub.
      { intros c Hc. unfold D, pd.DataFrame_records. cbn [pd.columns].
        apply elem_of_first_seen, list_elem_of_join.
        exists (map (λ c, (c, pd.cell r.2 c)) cols).*1. split.
        - apply list_elem_of_fmap. exists (c, pd.cell r.2 c). split; [done|].
          apply list_elem_of_fmap. by exists c.
        - apply list_elem_of_fmap. eexists. split; [done|].
          unfold pd.to_dict. cbn [pd.rows pd.columns]. rewrite map_cons. constructor. }
      rewrite backfill_present by done.
      destruct (to_dict_select cols D Hsub) as (T' & -> & Hc & Hd).
      exists T'. split_and!; [done..|].
      rewrite Hd. apply (to_dict_records (pd.mk cols (r :: rs))).
Qed.

Lemma save_then_load T F s :
  faithful_json P →
  ∃ T', load_df_from_file (fs (save_df_to_file T F s).2) F (Some (pd.columns T)) = T' ∧
        pd.columns T' = pd.columns T ∧ pd.to_dict T' = pd.to_dict T.
Proof.
  intros [Hjson Hdump].
  destruct (expect_records T) as (T' & HT' & Hc & Hd).
  exists T'. split; [|done].
  unfold load_df_from_file, save_df_to_file, modify. simpl.
  rewrite lookup_insert_eq.
  destruct (to_json P T) as [c|] eqn:Hto.
  - rewrite (Hjson _ _ Hto). simpl. by rewrite HT'.
  - rewrite Hdump. simpl. by rewrite HT'.
Qed.


(** ** Outbox *)

(** [x ∈ [a; b; ...]] for literals. *)
Ltac in_list := repeat constructor.

Lemma from_number_state s : (from_number s).2 = s.
Proof.
  unfold from_number.
  by destruct (secrets P !! "twilio") as [tw|]; [destruct (tw !! "from_number")|].
Qed.

(** A dispatch never raises, and touches nothing but the outside world and
    the call log. *)
Lemma dispatch_world cols row s :
  ∃ ok info x d, dispatch cols row s = (Ok (ok, info), with_world x d s).
Proof.
  unfold dispatch.
  destruct (py_eq _ _); rewrite ?safe_send_sms_spec, ?safe_make_call_spec;
    (destruct get_twilio_client as [client|];
      [|exists false, NOT_CONFIGURED, (ext s), (dispatched s); by destruct s]);
    pose proof (from_number_state s) as Hs;
    (destruct (from_number s) as [[from_|e] s0]; simpl in Hs; subst s0;
      [|exists false, e, (ext s), (dispatched s); by destruct s]); simpl.
  - destruct (messages_create _ _ _ _ _ _) as [[sid|err] x]; by do 4 eexists.
  - destruct (calls_create _ _ _ _ _ _) as [[sid|err] x]; by do 4 eexists.
Qed.

Lemma filter_all {A} (Q : A → Prop) `{!∀ x, Decision (Q x)} (l : list A) :
  Forall Q l → filter Q l = l.
Proof.
  induction 1 as [|x l Hx _ IH]; [done|].
  by rewrite filter_cons, decide_True, IH by done.
Qed.

Lemma labels_before_ne (K : list (nat * pd.Row)) idx row post :
  NoDup (K ++ (idx, row) :: post).*1 → Forall (λ ir, ir.1 ≠ idx) (K ++ post).
Proof.
  rewrite fmap_app, fmap_cons. intros Hnd.
  apply NoDup_app in Hnd as (_ & Hdisj & Hnd').
  apply NoDup_cons in Hnd' as [Hpost _].
  apply Forall_app. split; apply Forall_forall; intros [i r] Hin Heq; simpl in *; subst i.
  - apply (Hdisj idx); [|constructor]. by apply (list_elem_of_fmap_2 fst _ (idx, r)).
  - apply Hpost. by apply (list_elem_of_fmap_2 fst _ (idx, r)).
Qed.

(** [df.at[idx, c] = v] on the one row labelled [idx]. *)
Lemma at_set_row idx c v df K row post :
  pd.rows df = K ++ (idx, row) :: post →
  NoDup (pd.labels df) →
  c ∈ pd.columns df →
  pd.at_set idx c v df = pd.mk (pd.columns df) (K ++ (idx, <[c := v]> row) :: post).
Proof.
  intros Hrows Hnd Hc. unfold pd.at_set, pd.labels in *. rewrite Hrows in *.
  destruct (decide (c ∈ pd.columns df)); [|done].
  destruct (decide (idx ∈ (K ++ (idx, row) :: post).*1)) as [_|Hout].
  2: { destruct Hout. rewrite fmap_app, fmap_cons. apply elem_of_app. right. constructor. }
  f_equal. apply labels_before_ne, Forall_app in Hnd as [HK Hpost].
  rewrite map_app, map_cons. simpl. rewrite decide_True by done.
  assert (∀ l : list (nat * pd.Row), Forall (λ ir, ir.1 ≠ idx) l →
            map (λ ir, if decide (ir.1 = idx) then (ir.1, <[c := v]> ir.2)
                       else (ir.1, ir.2)) l = l) as Hsame.
  { intros l Hl. etrans; [|apply map_id]. apply Forall_fmap_ext.
    eapply Forall_impl; [exact Hl|]. intros [i r] Hne. simpl in *.
    by rewrite decide_False by done. }
  by rewrite !Hsame by done.
Qed.

(** [df.drop(idx)] on the one row labelled [idx]. *)
Lemma drop_row idx df K row post :
  pd.rows df = K ++ (idx, row) :: post →
  NoDup (pd.labels df) →
  pd.drop idx df = Some (pd.mk (pd.columns df) (K ++ post)).
Proof.
  intros Hrows Hnd. unfold pd.drop, pd.labels in *. rewrite Hrows in *.
  destruct (decide (idx ∈ (K ++ (idx, row) :: post).*1)) as [_|Hout].
  2: { destruct Hout. rewrite fmap_app, fmap_cons. apply elem_of_app. right. constructor. }
  do 2 f_equal. apply labels_before_ne, Forall_app in Hnd as [HK Hpost].
  rewrite filter_app, filter_cons. simpl. rewrite decide_False by (by intros []).
  by rewrite !filter_all by done.
Qed.

(** One turn of the loop of [process_outbox], on the row labelled [idx] of
    the copy, when the live outbox still holds that row between [K] and
    [post]. *)
Lemma process_row_step max cols K idx row post res s a :
  pd.rows (outbox_df s) = K ++ (idx, row) :: post →
  NoDup (pd.labels (outbox_df s)) →
  pd.columns (outbox_df s) = cols →
  "Recipient" ∈ cols → "Message" ∈ cols → "Attempts" ∈ cols →
  pd.cell row "Attempts" = VInt a →
  process_row max cols (idx, row) res s =
    if decide (a >= max) then (Ok (res ++ [(idx, false, MAX_REACHED)]), s)
    else
      let '(r, s1) := dispatch cols row s in
      match r with
      | Ok (true, info) =>
          let '(date, x) := now P (ext s1) in
          (Ok (res ++ [(idx, true, info)]),
           mkApp (partners_df s)
                 (pd.concat (message_logs s) (pd.DataFrame_records [sent_row cols row date]))
                 (feedback_df s) (reminders_df s)
                 (pd.mk cols (K ++ post)) (fs s) x (dispatched s1))
      | Ok (false, info) =>
          (Ok (res ++ [(idx, false, info)]),
           mkApp (partners_df s) (message_logs s) (feedback_df s) (reminders_df s)
                 (pd.mk cols (K ++ (idx, <["Attempts" := VInt (a + 1)]> row) :: post))
                 (fs s) (ext s1) (dispatched s1))
      | Raise e => (Raise e, s1)
      end.
Proof.
  intros Hrows Hnd Hcols HR HM HA Hcell.
  unfold process_row. unfold bind at 1.
  unfold pd.Series_get at 1. rewrite decide_True by done. rewrite Hcell. simpl.
  destruct (decide (a >= max)); [done|].
  unfold pd.Series_item. rewrite !decide_True by done.
  unfold bind at 1. simpl. unfold bind at 1. simpl. unfold bind at 1.
  destruct (dispatch_world cols row s) as (ok & info & x & d & Hd).
  rewrite Hd. unfold dispatch in Hd. rewrite Hd. clear Hd.
  unfold bind at 1. unfold modify at 1. simpl.
  erewrite at_set_row by (done || by rewrite Hcols).
  destruct ok.
  - unfold bind, strftime_now, modify, gets, or_raise. simpl.
    destruct (now P x) as [date x'].
    erewrite drop_row; [|done|..].
    + simpl. unfold ret. by rewrite Hcols.
    + simpl. unfold pd.labels in *. simpl. rewrite Hrows in Hnd.
      by rewrite fmap_app, fmap_cons in *.
  - unfold ret. simpl. by rewrite Hcols.
Qed.


(** Appending the log entry of a delivered row to a well-formed log adds
    exactly that record, and nothing else changes. *)
Lemma log_append logs cols row date :
  log_wf logs →
  log_wf (pd.concat logs (pd.DataFrame_records [sent_row cols row date])) ∧
  pd.to_dict (pd.concat logs (pd.DataFrame_records [sent_row cols row date]))
    = pd.to_dict logs ++ [sent_row cols row date].
Proof.
  intros Hwf.
  assert (pd.columns (pd.DataFrame_records [sent_row cols row date]) = message_logs_columns)
    as Hkeys by done.
  assert (map (λ c, (c, pd.cell (pd.restrict message_logs_columns
                                   (list_to_map (sent_row cols row date))) c))
              message_logs_columns = sent_row cols row date) as Hnew.
  { unfold message_logs_columns at 2. simpl map.
    rewrite !cell_restrict by (unfold message_logs_columns; in_list).
    unfold pd.cell at 1 3 5 7 9 11. unfold sent_row. simpl list_to_map.
    by simplify_map_eq. }
  assert (message_logs_columns ++ list_difference message_logs_columns message_logs_columns
          = message_logs_columns) as Hdiff by done.
  unfold pd.concat. rewrite Hkeys. cbn [pd.rows pd.DataFrame_records].
  destruct Hwf as [Hcols| ->].
  - rewrite Hcols, Hdiff. split; [by left|].
    rewrite to_dict_reindex, map_app, map_map.
    apply (f_equal2 app).
    + unfold pd.to_dict. rewrite Hcols.
      change (map ?f ((pd.rows logs).*2)) with (map f (map snd (pd.rows logs))).
      rewrite map_map.
      apply map_ext. intros ir. cbn beta.
      apply Forall_fmap_ext, Forall_forall. intros c Hc. by rewrite cell_restrict.
    + cbn [map pd.reindex imap fmap list_fmap snd]. by rewrite Hnew.
  - split; [by left|]. cbn [pd.columns pd.rows pd.DataFrame_empty app fmap list_fmap].
    rewrite to_dict_reindex.
    change (list_difference message_logs_columns []) with message_logs_columns.
    cbn [map app pd.reindex imap fmap list_fmap snd]. by rewrite Hnew.
Qed.

Lemma delivered_cons idx ok info res :
  delivered ((idx, ok, info) :: res) =
    if ok then (idx, ok, info) :: delivered res else delivered res.
Proof.
  unfold delivered. rewrite filter_cons. simpl.
  by destruct ok; [rewrite decide_True|rewrite decide_False].
Qed.

(** The loop of [process_outbox] over the rows [todo] of the copy, started
    when the live outbox holds them between [K] and [rest]: it never raises,
    reports one result per row, keeps or removes each row of [todo] and
    touches no other, and appends one log entry per delivery. *)
Lemma sweep_spec max cols todo : ∀ K rest res s,
  pd.rows (outbox_df s) = K ++ todo ++ rest →
  NoDup (K ++ todo ++ rest).*1 →
  pd.columns (outbox_df s) = cols →
  "Recipient" ∈ cols → "Message" ∈ cols → "Attempts" ∈ cols →
  Forall (λ ir, ∃ a, pd.cell ir.2 "Attempts" = VInt a) todo →
  ∃ res' K' s',
    for_each (process_row max cols) todo res s = (Ok (res ++ res'), s') ∧
    pd.rows (outbox_df s') = K ++ K' ++ rest ∧
    pd.columns (outbox_df s') = cols ∧
    K'.*1 `sublist_of` todo.*1 ∧
    Forall (λ ir, ∃ a, pd.cell ir.2 "Attempts" = VInt a) K' ∧
    res'.*1.*1 = todo.*1 ∧
    (log_wf (message_logs s) →
     ∃ later,
       log_wf (message_logs s') ∧
       pd.to_dict (message_logs s') = pd.to_dict (message_logs s) ++ later ∧
       length later = length (delivered res') ∧
       Forall (λ d, ∃ ir date, ir ∈ todo ∧ d = sent_row cols ir.2 date) later).
Proof.
  induction todo as [|[idx row] todo IH];
    intros K rest res s Hrows Hnd Hcols HR HM HA Hint.
  { exists [], [], s. rewrite !app_nil_r. split_and!; try done.
    intros Hlog. exists []. by rewrite app_nil_r. }
  apply Forall_cons in Hint as [[a Ha] Hint].
  assert (NoDup (pd.labels (outbox_df s))) as Hnd'.
  { unfold pd.labels. by rewrite Hrows. }
  cbn [for_each]. unfold bind at 1.
  rewrite (process_row_step max cols K idx row (todo ++ rest) res s a) by done.
  (* the labels do not change when the row labelled [idx] is rewritten *)
  assert (∀ row', NoDup ((K ++ [(idx, row')]) ++ todo ++ rest).*1) as Hnd1.
  { intros row'. rewrite <-app_assoc. by rewrite !fmap_app, !fmap_cons in *. }
  assert (NoDup (K ++ todo ++ rest).*1) as Hnd2.
  { rewrite !fmap_app, !fmap_cons in *.
    apply NoDup_app in Hnd as (? & Hdisj & [? ?]%NoDup_cons).
    apply NoDup_app. split_and!; [done| |done].
    intros x Hx Hx'. apply (Hdisj x Hx). by constructor. }
  destruct (decide (a >= max)).
  - (* attempts exhausted: the row stays as it is *)
    destruct (IH (K ++ [(idx, row)]) rest (res ++ [(idx, false, MAX_REACHED)]) s)
      as (res' & K' & s' & Hrun & Hrows' & Hcols' & Hsub & Hint' & Hres & Hlogs);
      [by rewrite <-app_assoc|done..|].
    exists ((idx, false, MAX_REACHED) :: res'), ((idx, row) :: K'), s'.
    rewrite Hrun, <-!app_assoc in *. split_and!; try done.
    + by apply sublist_skip.
    + apply Forall_cons. eauto.
    + by rewrite !fmap_cons, Hres.
    + intros Hlog. destruct (Hlogs Hlog) as (later & Hlog' & Hdict & Hlen & Hlater).
      exists later. split_and!; try done.
      eapply Forall_impl; [done|]. intros d (ir & date & Hin & ->).
      exists ir, date. split; [by constructor|done].
  - destruct (dispatch_world cols row s) as (ok & info & x & d & ->). destruct ok.
    + (* delivered: the row goes, one entry joins the log *)
      simpl ext. destruct (now P x) as [date x'] eqn:Hnow.
      match goal with |- context [for_each _ _ _ ?st] => set (s1 := st) end.
      destruct (IH K rest (res ++ [(idx, true, info)]) s1)
        as (res' & K' & s' & Hrun & Hrows' & Hcols' & Hsub & Hint' & Hres & Hlogs);
        [done..|].
      exists ((idx, true, info) :: res'), K', s'.
      rewrite Hrun, <-!app_assoc in *. split_and!; try done.
      * by apply sublist_cons.
      * by rewrite !fmap_cons, Hres.
      * intros Hlog.
        destruct (log_append (message_logs s) cols row date Hlog) as [Hlog1 Hdict1].
        destruct (Hlogs Hlog1) as (later & Hlog' & Hdict & Hlen & Hlater).
        exists (sent_row cols row date :: later). split_and!; [done| | |].
        -- rewrite Hdict. subst s1. simpl. by rewrite Hdict1, <-app_assoc.
        -- rewrite delivered_cons. simpl. by rewrite Hlen.
        -- apply Forall_cons. split; [exists (idx, row), date; split; [constructor|done]|].
           eapply Forall_impl; [done|]. intros d' (ir & date' & Hin & ->).
           exists ir, date'. split; [by constructor|done].
    + (* not delivered: the row stays, with one more attempt *)
      match goal with |- context [for_each _ _ _ ?st] => set (s1 := st) end.
      destruct (IH (K ++ [(idx, <["Attempts" := VInt (a + 1)]> row)]) rest
                   (res ++ [(idx, false, info)]) s1)
        as (res' & K' & s' & Hrun & Hrows' & Hcols' & Hsub & Hint' & Hres & Hlogs);
        [by subst s1; simpl; rewrite <-app_assoc|done..|].
      exists ((idx, false, info) :: res'),
             ((idx, <["Attempts" := VInt (a + 1)]> row) :: K'), s'.
      rewrite Hrun, <-!app_assoc in *. split_and!; try done.
      * by apply sublist_skip.
      * apply Forall_cons. split; [|done]. exists (a + 1). unfold pd.cell. simpl.
        by rewrite lookup_insert_eq.
      * by rewrite !fmap_cons, Hres.
      * intros Hlog. destruct (Hlogs Hlog) as (later & Hlog' & Hdict & Hlen & Hlater).
        exists later. rewrite delivered_cons. split_and!; try done.
        eapply Forall_impl; [done|]. intros d' (ir & date' & Hin & ->).
        exists ir, date'. split; [by constructor|done].
Qed.

Lemma for_each_app {A S} (body : A → S → M P S) l1 l2 acc s :
  for_each body (l1 ++ l2) acc s =
    match for_each body l1 acc s with
    | (Ok acc', s') => for_each body l2 acc' s'
    | (Raise e, s') => (Raise e, s')
    end.
Proof.
  revert acc s. induction l1 as [|a l1 IH]; intros acc s; [done|].
  simpl. unfold bind. destruct (body a acc s) as [[acc'|e] s']; [apply IH|done].
Qed.

(** [process_outbox] on an outbox that holds the row [e] between [pre] and
    [post]: the loop over [pre], the turn of [e], the loop over [post], the
    two saves. *)
Lemma process_outbox_at max s pre e post :
  pd.columns (outbox_df s) ≠ [] →
  pd.rows (outbox_df s) = pre ++ e :: post →
  process_outbox max s =
    let body := process_row max (pd.columns (outbox_df s)) in
    match for_each body pre [] s with
    | (Ok res1, s1) =>
        match body e res1 s1 with
        | (Ok res2, s2) =>
            match for_each body post res2 s2 with
            | (Ok res3, s3) => (Ok res3, persisted s3)
            | (Raise err, s3) => (Raise err, s3)
            end
        | (Raise err, s2) => (Raise err, s2)
        end
    | (Raise err, s1) => (Raise err, s1)
    end.
Proof.
  intros Hcols Hrows. unfold process_outbox. unfold bind at 1, gets at 1.
  assert (pd.empty (outbox_df s) = false) as ->.
  { unfold pd.empty. apply bool_decide_eq_false. rewrite Hrows.
    intros [Hnil|?]; [|done]. by destruct pre. }
  unfold bind at 1. rewrite Hrows, for_each_app. simpl.
  destruct (for_each _ pre [] s) as [[res1|err] s1]; [|done].
  unfold bind at 1.
  destruct (process_row _ _ e res1 s1) as [[res2|err] s2]; [|done].
  by destruct (for_each _ post res2 s2) as [[res3|err] s3].
Qed.

(** The setting in which a row is reached by the loop: what holds after the
    loop has gone over the rows before it. *)
Lemma sweep_before max s pre idx row post :
  outbox_wf (outbox_df s) →
  pd.rows (outbox_df s) = pre ++ (idx, row) :: post →
  ∃ res1 K1 s1,
    for_each (process_row max (pd.columns (outbox_df s))) pre [] s = (Ok res1, s1) ∧
    pd.rows (outbox_df s1) = K1 ++ (idx, row) :: post ∧
    pd.columns (outbox_df s1) = pd.columns (outbox_df s) ∧
    K1.*1 `sublist_of` pre.*1 ∧
    NoDup (K1 ++ (idx, row) :: post).*1 ∧
    Forall (λ ir, ∃ a, pd.cell ir.2 "Attempts" = VInt a) (K1 ++ (idx, row) :: post) ∧
    (log_wf (message_logs s) →
     ∃ earlier,
       log_wf (message_logs s1) ∧
       pd.to_dict (message_logs s1) = pd.to_dict (message_logs s) ++ earlier ∧
       length earlier = length (delivered res1)).
Proof.
  intros (Hnd & HR & HM & HA & Hint) Hrows.
  unfold pd.labels in Hnd. rewrite Hrows in Hnd, Hint.
  apply Forall_app in Hint as [Hpre Hpost].
  destruct (sweep_spec max (pd.columns (outbox_df s)) pre [] ((idx, row) :: post) [] s)
    as (res1 & K1 & s1 & Hrun & Hrows1 & Hcols1 & Hsub & Hint1 & _ & Hlogs); try done.
  exists res1, K1, s1. simpl in Hrows1. split_and!; try done.
  - rewrite fmap_app in *. apply NoDup_app in Hnd as (Hnd1 & Hdisj & Hnd2).
    apply NoDup_app. split_and!; [by apply (sublist_NoDup _ pre.*1)| |done].
    intros x Hx. apply Hdisj. by apply (sublist_subseteq K1.*1).
  - by apply Forall_app.
  - intros Hlog. destruct (Hlogs Hlog) as (earlier & ? & ? & ? & _). eauto.
Qed.


(** An outbox entry that the loop reaches below [max_attempts] and whose
    dispatch succeeds. *)
Lemma process_outbox_delivers max s pre idx row post a res1 s1 info s2 :
  outbox_wf (outbox_df s) →
  log_wf (message_logs s) →
  pd.rows (outbox_df s) = pre ++ (idx, row) :: post →
  pd.cell row "Attempts" = VInt a →
  a < max →
  for_each (process_row max (pd.columns (outbox_df s))) pre [] s = (Ok res1, s1) →
  dispatch (pd.columns (outbox_df s)) row s1 = (Ok (true, info), s2) →
  ∃ date res2 earlier later s',
    process_outbox max s = (Ok (res1 ++ (idx, true, info) :: res2), s') ∧
    (idx ∉ pd.labels (outbox_df s')) ∧
    pd.labels (outbox_df s') `sublist_of` (pre ++ post).*1 ∧
    res2.*1.*1 = post.*1 ∧
    pd.to_dict (message_logs s') =
      pd.to_dict (message_logs s) ++ earlier
        ++ (sent_row (pd.columns (outbox_df s)) row date :: later) ∧
    length earlier = length (delivered res1) ∧
    length later = length (delivered res2).
Proof.
  set (cols := pd.columns (outbox_df s)).
  intros Hwf Hlog Hrows Ha Hmax Hrun1 Hdispatch.
  destruct (sweep_before max s pre idx row post Hwf Hrows)
    as (res1' & K1 & s1' & Hrun1' & Hrows1 & Hcols1 & Hsub1 & Hnd1 & Hint1 & Hlogs1).
  fold cols in Hrun1', Hcols1. rewrite Hrun1 in Hrun1'. injection Hrun1' as <- <-.
  destruct (Hlogs1 Hlog) as (earlier & Hlog1 & Hdict1 & Hlen1).
  destruct Hwf as (Hnd & HR & HM & HA & Hint). fold cols in HR, HM, HA.
  (* the turn of the entry *)
  pose proof (process_row_step max cols K1 idx row post res1 s1 a) as Hturn.
  rewrite decide_False, Hdispatch in Hturn by lia.
  destruct (dispatch_world cols row s1) as (ok & info' & x & d & Hworld).
  rewrite Hdispatch in Hworld. injection Hworld as <- <- ->.
  simpl ext in Hturn. destruct (now P x) as [date x'].
  specialize (Hturn Hrows1). unfold pd.labels in Hturn. rewrite Hrows1 in Hturn.
  specialize (Hturn Hnd1 Hcols1 HR HM HA Ha).
  destruct (log_append (message_logs s1) cols row date Hlog1) as [Hlog2 Hdict2].
  (* the rest of the loop *)
  match type of Hturn with _ = (_, ?st) => set (s2 := st) in * end.
  assert (NoDup (K1 ++ post).*1 ∧ idx ∉ (K1 ++ post).*1) as [Hnd2 Hfresh].
  { rewrite !fmap_app, !fmap_cons in *.
    apply NoDup_app in Hnd1 as (? & Hdisj & [Hnotin ?]%NoDup_cons). simpl in *. split.
    - apply NoDup_app. split_and!; [done| |done].
      intros y Hy Hy'. apply (Hdisj y Hy). by constructor.
    - intros [Hin|Hin]%elem_of_app; [|done]. apply (Hdisj idx Hin). constructor. }
  destruct (sweep_spec max cols post K1 [] (res1 ++ [(idx, true, info)]) s2)
    as (res2 & K2 & s3 & Hrun2 & Hrows2 & _ & Hsub2 & _ & Hres2 & Hlogs2);
    try (by rewrite ?app_nil_r).
  { apply Forall_app in Hint1 as [_ [_ ?]%Forall_cons]. done. }
  destruct (Hlogs2 Hlog2) as (later & _ & Hdict3 & Hlen3 & _).
  rewrite app_nil_r in Hrows2.
  exists date, res2, earlier, later, (persisted s3). split_and!; try done.
  - rewrite (process_outbox_at max s pre (idx, row) post);
      [|by intros E; unfold cols in HA; rewrite E in HA; apply elem_of_nil in HA|done].
    cbv zeta. fold cols. by rewrite Hrun1, Hturn, Hrun2, <-app_assoc.
  - simpl. unfold pd.labels. rewrite Hrows2. intros Hin. apply Hfresh.
    rewrite fmap_app in *. apply elem_of_app in Hin as [?|Hin]; apply elem_of_app; [by left|].
    right. by apply (sublist_subseteq K2.*1).
  - simpl. unfold pd.labels. rewrite Hrows2, !fmap_app.
    by apply sublist_app.
  - change (message_logs (persisted s3)) with (message_logs s3).
    rewrite Hdict3. subst s2. simpl. by rewrite Hdict2, Hdict1, <-!app_assoc.
Qed.

Lemma dispatch_succeeds cols row s :
  provider_always_succeeds P →
  ∃ info s', dispatch cols row s = (Ok (true, info), s').
Proof.
  intros ([client Hclient] & Hfrom & Hsms & Hcall). unfold dispatch.
  assert (∃ from_, from_number s = (Ok from_, s)) as [from_ Hf].
  { unfold from_number. destruct (secrets P !! "twilio") as [tw|] eqn:Htw; [|by eexists].
    destruct (Hfrom tw eq_refl) as [n ->]. by eexists. }
  destruct (py_eq _ _).
  - rewrite safe_send_sms_spec, Hclient, Hf.
    destruct (Hsms client (pd.cell row "Message") from_ (pd.cell row "Recipient") (ext s))
      as (sid & x' & ->). eauto.
  - rewrite safe_make_call_spec, Hclient, Hf. simpl.
    edestruct Hcall as (sid & x' & ->). eauto.
Qed.

(** What [add_to_outbox] does to an empty outbox. *)
Lemma add_to_outbox_fresh recipient message language msg_type s :
  outbox_fresh (outbox_df s) →
  ∃ created s1,
    add_to_outbox recipient message language msg_type s = (Ok tt, s1) ∧
    outbox_df s1 =
      pd.mk outbox_columns
        [(0%nat, pd.restrict outbox_columns
                   (list_to_map (outbox_row recipient message language msg_type created)))] ∧
    message_logs s1 = message_logs s ∧
    pd.to_dict (outbox_df s1) = [outbox_row recipient message language msg_type created].
Proof.
  intros [Hrows Hcols]. unfold add_to_outbox, bind, strftime_now, modify, gets.
  destruct (now P (ext s)) as [created x] eqn:Hnow. simpl.
  unfold save_df_to_file, modify. simpl.
  eexists created, _. split; [done|]. simpl.
  fold (outbox_row recipient message language msg_type created).
  assert (pd.concat (outbox_df s)
            (pd.DataFrame_records [outbox_row recipient message language msg_type created])
          = pd.mk outbox_columns
              [(0%nat, pd.restrict outbox_columns
                  (list_to_map (outbox_row recipient message language msg_type created)))]) as Hdf.
  { unfold pd.concat. rewrite Hrows. by destruct Hcols as [-> | ->]. }
  rewrite Hdf. split_and!; [done..|].
  unfold pd.to_dict. cbn [pd.rows pd.columns map snd].
  unfold outbox_columns at 2. cbn [map].
  rewrite !cell_restrict by (unfold outbox_columns; in_list).
  unfold pd.cell, outbox_row. by simplify_map_eq.
Qed.

(** Enqueueing into an empty outbox, then draining with a provider that
    always succeeds. *)
Lemma enqueue_then_drain max recipient message language msg_type s :
  provider_always_succeeds P →
  0 < max →
  outbox_fresh (outbox_df s) →
  log_wf (message_logs s) →
  ∃ created s1 info sent s',
    add_to_outbox recipient message language msg_type s = (Ok tt, s1) ∧
    pd.to_dict (outbox_df s1) = [outbox_row recipient message language msg_type created] ∧
    process_outbox max s1 = (Ok [(0%nat, true, info)], s') ∧
    pd.rows (outbox_df s') = [] ∧
    pd.to_dict (message_logs s') =
      pd.to_dict (message_logs s) ++
      [[("Recipient", recipient); ("Message", message); ("Language", language);
        ("Date Sent", VStr sent); ("Type", msg_type); ("Status", VStr "Sent")]].
Proof.
  intros Hprov Hmax Hfresh Hlog.
  destruct (add_to_outbox_fresh recipient message language msg_type s Hfresh)
    as (created & s1 & Hadd & Hdf & Hlogs & Hdict).
  set (row0 := pd.restrict outbox_columns
                 (list_to_map (outbox_row recipient message language msg_type created))) in *.
  assert (∀ c, c ∈ outbox_columns →
            pd.cell row0 c = pd.cell (list_to_map
              (outbox_row recipient message language msg_type created)) c) as Hcell.
  { intros c Hc. by apply cell_restrict. }
  destruct (dispatch_succeeds (pd.columns (outbox_df s1)) row0 s1 Hprov) as (info & s2 & Hdisp).
  destruct (process_outbox_delivers max s1 [] 0%nat row0 [] 0 [] s1 info s2)
    as (sent & res2 & earlier & later & s' & Hrun & _ & Hsub & Hres & Hdict' & Hlen1 & Hlen2);
    try done.
  - rewrite Hdf. unfold outbox_wf, pd.labels. simpl. split_and!.
    + apply NoDup_singleton.
    + unfold outbox_columns. in_list.
    + unfold outbox_columns. in_list.
    + unfold outbox_columns. in_list.
    + apply Forall_singleton. exists 0. simpl.
      rewrite Hcell by (unfold outbox_columns; in_list).
      unfold pd.cell, outbox_row. by simplify_map_eq.
  - by rewrite Hlogs.
  - by rewrite Hdf.
  - apply fmap_nil_inv, fmap_nil_inv in Hres. subst res2.
    apply sublist_nil_r, fmap_nil_inv in Hsub.
    destruct earlier; [|done]. destruct later; [|done].
    exists created, s1, info, sent, s'. split_and!; try done.
    rewrite Hdict', Hlogs, Hdf. cbn [app pd.columns].
    apply (f_equal (λ d, pd.to_dict (message_logs s) ++ [d])).
    unfold sent_row, pd.Series_get.
    rewrite !decide_True by (unfold outbox_columns; in_list).
    rewrite !Hcell by (unfold outbox_columns; in_list).
    unfold pd.cell, outbox_row. by simplify_map_eq.
Qed.

(** C1. An outbox entry that the drain reaches with an attempt count
    below [max_attempts] and whose dispatch succeeds: the drain records
    [(idx, True, info)] for it, with the provider's [info], in the entry's
    place among the results; the entry is gone from the outbox afterwards;
    and the message log has gained exactly one record for it, with status
    "Sent", after the records of the deliveries before it and before those of
    the deliveries after it.  In particular, enqueueing into an empty outbox
    and draining with a provider that always succeeds leaves the outbox
    empty and the message log one "Sent" record longer. *)
Theorem process_outbox_success :
  (∀ max s pre idx row post a res1 s1 info s2,
     outbox_wf (outbox_df s) →
     log_wf (message_logs s) →
     pd.rows (outbox_df s) = pre ++ (idx, row) :: post →
     pd.cell row "Attempts" = VInt a →
     a < max →
     for_each (process_row max (pd.columns (outbox_df s))) pre [] s = (Ok res1, s1) →
     dispatch (pd.columns (outbox_df s)) row s1 = (Ok (true, info), s2) →
     ∃ date res2 earlier later s',
       process_outbox max s = (Ok (res1 ++ (idx, true, info) :: res2), s') ∧
       (idx ∉ pd.labels (outbox_df s')) ∧
       pd.to_dict (message_logs s') =
         pd.to_dict (message_logs s) ++ earlier
           ++ (sent_row (pd.columns (outbox_df s)) row date :: later) ∧
       length earlier = length (delivered res1) ∧
       length later = length (delivered res2)) ∧
  (∀ max recipient message language msg_type s,
     provider_always_succeeds P →
     0 < max →
     outbox_fresh (outbox_df s) →
     log_wf (message_logs s) →
     ∃ created s1 info sent s',
       add_to_outbox recipient message language msg_type s = (Ok tt, s1) ∧
       pd.to_dict (outbox_df s1) = [outbox_row recipient message language msg_type created] ∧
       process_outbox max s1 = (Ok [(0%nat, true, info)], s') ∧
       pd.rows (outbox_df s') = [] ∧
       pd.to_dict (message_logs s') =
         pd.to_dict (message_logs s) ++
         [[("Recipient", recipient); ("Message", message); ("Language", language);
           ("Date Sent", VStr sent); ("Type", msg_type); ("Status", VStr "Sent")]]).
Proof.
  split.
  - intros max s pre idx row post a res1 s1 info s2 Hwf Hlog Hrows Ha Hmax Hrun Hdisp.
    destruct (process_outbox_delivers max s pre idx row post a res1 s1 info s2)
      as (date & res2 & earlier & later & s' & ? & ? & ? & ? & ? & ? & ?); try done.
    by exists date, res2, earlier, later, s'.
  - intros. by apply enqueue_then_drain.
Qed.

(** On a well-formed outbox a drain never raises and leaves a well-formed
    outbox. *)
Lemma process_outbox_wf max s :
  outbox_wf (outbox_df s) →
  ∃ res s', process_outbox max s = (Ok res, s') ∧ outbox_wf (outbox_df s').
Proof.
  intros Hwf. pose proof Hwf as (Hnd & HR & HM & HA & Hint).
  unfold process_outbox. unfold bind at 1, gets at 1.
  destruct (pd.empty (outbox_df s)); [by exists [], s|].
  destruct (sweep_spec max (pd.columns (outbox_df s)) (pd.rows (outbox_df s)) [] [] [] s)
    as (res & K & s1 & Hrun & Hrows & Hcols & Hsub & Hint' & _); try done.
  { by rewrite app_nil_r. }
  { by rewrite app_nil_r. }
  unfold bind at 1. rewrite Hrun. simpl. exists res, (persisted s1).
  split; [done|]. simpl. rewrite app_nil_r in Hrows.
  unfold outbox_wf, pd.labels. rewrite Hrows, Hcols. split_and!; try done.
  by apply (sublist_NoDup _ (pd.labels (outbox_df s))).
Qed.

Lemma drains_total n max s :
  outbox_wf (outbox_df s) →
  ∃ rss s', drains n max s = (Ok rss, s') ∧ length rss = n.
Proof.
  revert s. induction n as [|n IH]; intros s Hwf; [by exists [], s|].
  destruct (process_outbox_wf max s Hwf) as (res & s1 & Hrun & Hwf1).
  destruct (IH s1 Hwf1) as (rss & s' & Hrest & Hlen).
  exists (res :: rss), s'. simpl. unfold bind. rewrite Hrun, Hrest. simpl.
  by rewrite Hlen.
Qed.

(** One drain and one entry below [max_attempts]: either the drain reports
    its delivery, or it reports a failure and the entry is still there with
    one more attempt. *)
Lemma drain_once max s idx row a :
  outbox_wf (outbox_df s) →
  (idx, row) ∈ pd.rows (outbox_df s) →
  pd.cell row "Attempts" = VInt a →
  a < max →
  ∃ res s',
    process_outbox max s = (Ok res, s') ∧
    outbox_wf (outbox_df s') ∧
    ((∃ info, (idx, true, info) ∈ res) ∨
     ((∃ info, (idx, false, info) ∈ res) ∧
      (idx, <["Attempts" := VInt (a + 1)]> row) ∈ pd.rows (outbox_df s'))).
Proof.
  intros Hwf Hin Ha Hmax.
  destruct (process_outbox_wf max s Hwf) as (res & s' & Hrun & Hwf').
  exists res, s'. split_and!; [done..|].
  apply list_elem_of_split in Hin as (pre & post & Hrows).
  destruct (sweep_before max s pre idx row post Hwf Hrows)
    as (res1 & K1 & s1 & Hrun1 & Hrows1 & Hcols1 & Hsub1 & Hnd1 & Hint1 & _).
  destruct Hwf as (Hnd & HR & HM & HA & Hint).
  pose proof (process_row_step max (pd.columns (outbox_df s)) K1 idx row post res1 s1 a)
    as Hturn.
  rewrite decide_False in Hturn by lia.
  specialize (Hturn Hrows1). unfold pd.labels in Hturn. rewrite Hrows1 in Hturn.
  specialize (Hturn Hnd1 Hcols1 HR HM HA Ha).
  rewrite (process_outbox_at max s pre (idx, row) post) in Hrun;
    [|by intros E; rewrite E in HA; apply elem_of_nil in HA|done].
  cbv zeta in Hrun. rewrite Hrun1, Hturn in Hrun. clear Hturn.
  assert (Forall (λ ir, ∃ a, pd.cell ir.2 "Attempts" = VInt a) post) as Hpost.
  { apply Forall_app in Hint1 as [_ [_ ?]%Forall_cons]. done. }
  destruct (dispatch_world (pd.columns (outbox_df s)) row s1) as (ok & info & x & d & Hd).
  rewrite Hd in Hrun. destruct ok.
  - (* delivered *)
    left. exists info. simpl ext in Hrun. destruct (now P x) as [date x'].
    match type of Hrun with context [for_each _ _ _ ?st] => set (s2 := st) in * end.
    destruct (sweep_spec max (pd.columns (outbox_df s)) post K1 []
                (res1 ++ [(idx, true, info)]) s2)
      as (res2 & K2 & s3 & Hrun2 & _); try (by rewrite ?app_nil_r).
    { rewrite app_nil_r, !fmap_app, !fmap_cons in *.
      apply NoDup_app in Hnd1 as (? & Hdisj & [? ?]%NoDup_cons).
      apply NoDup_app. split_and!; [done| |done].
      intros y Hy Hy'. apply (Hdisj y Hy). by constructor. }
    rewrite Hrun2 in Hrun. injection Hrun as <- <-.
    apply elem_of_app. left. apply elem_of_app. right. constructor.
  - (* not delivered *)
    right.
    match type of Hrun with context [for_each _ _ _ ?st] => set (s2 := st) in * end.
    destruct (sweep_spec max (pd.columns (outbox_df s)) post
                (K1 ++ [(idx, <["Attempts" := VInt (a + 1)]> row)]) []
                (res1 ++ [(idx, false, info)]) s2)
      as (res2 & K2 & s3 & Hrun2 & Hrows2 & _); try done.
    { by rewrite app_nil_r, <-app_assoc. }
    { rewrite app_nil_r, <-app_assoc. by rewrite !fmap_app, !fmap_cons in *. }
    rewrite Hrun2 in Hrun. injection Hrun as <- <-. split.
    + exists info. apply elem_of_app. left. apply elem_of_app. right. constructor.
    + simpl. rewrite Hrows2. apply elem_of_app. left. apply elem_of_app. right. constructor.
Qed.


(** ** Reminders *)

Section Preserves.

Context {B : Type} (f : App P → B).

Lemma preserves_ret {A} (a : A) : preserves f (ret a).
Proof. done. Qed.

Lemma preserves_raise {A} e : preserves f (raise (A:=A) e).
Proof. done. Qed.

Lemma preserves_gets {A} (g : App P → A) : preserves f (gets g).
Proof. done. Qed.

Lemma preserves_or_raise {A} e (o : option A) : preserves f (or_raise e o).
Proof. by destruct o. Qed.

Lemma preserves_modify (g : App P → App P) : (∀ s, f (g s) = f s) → preserves f (modify g).
Proof. intros Hg s. apply Hg. Qed.

Lemma preserves_bind {A C} (m : M P A) (k : A → M P C) :
  preserves f m → (∀ a, preserves f (k a)) → preserves f (bind m k).
Proof.
  intros Hm Hk s. unfold bind. specialize (Hm s).
  destruct (m s) as [[a|e] s1]; simpl in *; [|done]. by rewrite Hk.
Qed.

Lemma preserves_try_except {A} (body : M P A) (handler : string → M P A) :
  preserves f body → (∀ e, preserves f (handler e)) → preserves f (try_except body handler).
Proof.
  intros Hm Hk s. unfold try_except. specialize (Hm s).
  destruct (body s) as [[a|e] s1]; simpl in *; [done|]. by rewrite Hk.
Qed.

Lemma preserves_for_each {A S} (body : A → S → M P S) l acc :
  (∀ a acc, preserves f (body a acc)) → preserves f (for_each body l acc).
Proof.
  intros Hbody. revert acc. induction l as [|a l IH]; intros acc; [done|].
  simpl. by apply preserves_bind.
Qed.

End Preserves.

(** Splits a computation along its binds, handlers and branches. *)
Ltac frame_step :=
  match goal with
  | |- preserves _ (bind _ _) => apply preserves_bind; [|intros ?]
  | |- preserves _ (try_except _ _) => apply preserves_try_except; [|intros ?]
  | |- preserves _ (for_each _ _ _) => apply preserves_for_each; intros ? ?
  | |- preserves _ (ret _) => apply preserves_ret
  | |- preserves _ (raise _) => apply preserves_raise
  | |- preserves _ (gets _) => apply preserves_gets
  | |- preserves _ (or_raise _ _) => apply preserves_or_raise
  | |- preserves _ (modify _) => apply preserves_modify; intros ?; reflexivity
  | |- preserves _ (if ?c then _ else _) => destruct c
  | |- preserves _ (match ?c with _ => _ end) => destruct c
  end.
Ltac frame := repeat frame_step; eauto.

(** The parts of the state that only the reminder handlers write. *)
Lemma save_df_to_file_reminders df path : preserves (P:=P) reminders_df (save_df_to_file df path).
Proof. unfold save_df_to_file. frame. Qed.

Lemma strftime_now_reminders : preserves (P:=P) reminders_df strftime_now.
Proof. intros s. unfold strftime_now. by destruct (now P (ext s)). Qed.

Lemma remote_reminders {A} e (g : Ext P → option A * Ext P) :
  preserves (P:=P) reminders_df (remote e g).
Proof. intros s. unfold remote. by destruct (g (ext s)). Qed.

Lemma provider_reminders c g : preserves (P:=P) reminders_df (provider c g).
Proof. intros s. unfold provider. by destruct (g (ext s)). Qed.

Lemma from_number_reminders : preserves (P:=P) reminders_df from_number.
Proof. intros s. by rewrite from_number_state. Qed.

Local Hint Resolve save_df_to_file_reminders strftime_now_reminders remote_reminders
  provider_reminders from_number_reminders : core.

Lemma safe_translate_reminders text lang : preserves (P:=P) reminders_df (safe_translate text lang).
Proof. unfold safe_translate. frame. Qed.

Lemma safe_send_sms_reminders to_number body :
  preserves (P:=P) reminders_df (safe_send_sms to_number body).
Proof. unfold safe_send_sms. frame. Qed.

Lemma safe_make_call_reminders to_number text :
  preserves (P:=P) reminders_df (safe_make_call to_number text).
Proof. unfold safe_make_call. frame. Qed.

Local Hint Resolve safe_translate_reminders safe_send_sms_reminders
  safe_make_call_reminders : core.

Lemma add_to_outbox_reminders r m l t : preserves (P:=P) reminders_df (add_to_outbox r m l t).
Proof. unfold add_to_outbox. frame. Qed.

Lemma process_outbox_reminders max : preserves (P:=P) reminders_df (process_outbox max).
Proof. unfold process_outbox, process_row, py_int. frame. Qed.

Lemma persist_all_reminders : preserves (P:=P) reminders_df persist_all.
Proof. unfold persist_all. frame. Qed.

Local Hint Resolve add_to_outbox_reminders process_outbox_reminders
  persist_all_reminders : core.

Lemma send_now_reminders r t k l : preserves (P:=P) reminders_df (send_now r t k l).
Proof. unfold send_now, append_row. frame. Qed.

Lemma add_partner_reminders n r ls c g : preserves (P:=P) reminders_df (add_partner n r ls c g).
Proof. unfold add_partner, append_row. frame. Qed.

Lemma submit_feedback_reminders n m l : preserves (P:=P) reminders_df (submit_feedback n m l).
Proof. unfold submit_feedback, append_row. frame. Qed.

Lemma outbox_page_reminders : preserves (P:=P) reminders_df outbox_page.
Proof. unfold outbox_page. frame. Qed.

Lemma loc_set_status selected df :
  "Task" ∈ pd.columns df → "Status" ∈ pd.columns df →
  pd.loc_set "Task" selected "Status" (VStr "Completed") df
    = Some (pd.mk (pd.columns df) (map (complete_row selected) (pd.rows df))).
Proof.
  intros HT HS. unfold pd.loc_set. rewrite decide_True by done.
  do 2 f_equal; [by rewrite decide_True|].
  apply map_ext. intros [i r]. unfold complete_row. simpl.
  destruct (py_eq _ _); [done|]. by rewrite decide_True.
Qed.

Lemma where_tolist_columns key v c df l :
  pd.where_tolist key v c df = Some l → key ∈ pd.columns df ∧ c ∈ pd.columns df.
Proof. unfold pd.where_tolist. by case_decide. Qed.

(** C10. "Mark Completed" with the task [selected] chosen in the select box:
    every reminder row whose Task equals [selected] gets Status "Completed",
    not only one of them; no other cell of any row, no column, no label and
    no other table changes (the handler then writes the reminders file). *)
Theorem mark_completed_frame choice s pending selected :
  pd.empty (reminders_df s) = false →
  pd.where_tolist "Status" (VStr "Pending") "Task" (reminders_df s) = Some pending →
  pending !! choice = Some selected →
  ∃ s',
    mark_completed choice s = (Ok tt, s') ∧
    reminders_df s' =
      pd.mk (pd.columns (reminders_df s))
            (map (λ ir, if py_eq (pd.cell ir.2 "Task") selected
                        then (ir.1, <["Status" := VStr "Completed"]> ir.2)
                        else ir)
                 (pd.rows (reminders_df s))) ∧
    Forall2 (λ old new, new.1 = old.1 ∧ ∀ c, c ≠ "Status" → new.2 !! c = old.2 !! c)
            (pd.rows (reminders_df s)) (pd.rows (reminders_df s')) ∧
    partners_df s' = partners_df s ∧
    message_logs s' = message_logs s ∧
    feedback_df s' = feedback_df s ∧
    outbox_df s' = outbox_df s ∧
    ext s' = ext s ∧
    dispatched s' = dispatched s.
Proof.
  intros Hne Hpending Hchoice.
  destruct (where_tolist_columns _ _ _ _ _ Hpending) as [HS HT].
  unfold mark_completed, bind, gets. rewrite Hne, Hpending. simpl. rewrite Hchoice.
  rewrite loc_set_status by done. simpl.
  eexists. split; [done|]. simpl. split_and!; try done.
  apply Forall2_fmap_r, Forall_Forall2_diag, Forall_forall. intros [i r] _.
  unfold complete_row. simpl. destruct (py_eq _ _); simpl; [|done].
  split; [done|]. intros c Hc. by rewrite lookup_insert_ne.
Qed.

Lemma step_reminders s a : reminders_df (step s a) = reminders_df (handle a s).2.
Proof.
  unfold step, run, bind. destruct (handle a s) as [[[]|e] s1]; simpl; [|done].
  apply persist_all_reminders.
Qed.

Lemma handle_other_reminders a s :
  (∀ t d w, a ≠ AddReminder t d w) → (∀ k, a ≠ MarkCompleted k) →
  reminders_df (handle a s).2 = reminders_df s.
Proof.
  intros Hadd Hmark.
  destruct a as [r t k l|n r ls c g|n m l|t d w|k| | |x]; cbn [handle].
  - apply send_now_reminders.
  - apply add_partner_reminders.
  - apply submit_feedback_reminders.
  - by destruct (Hadd t d w).
  - by destruct (Hmark k).
  - apply outbox_page_reminders.
  - apply persist_all_reminders.
  - done.
Qed.

Lemma add_reminder_reminders task due_date assigned_to s :
  reminders_df (add_reminder task due_date assigned_to s).2 =
    if decide (task = "" ∨ assigned_to = "") then reminders_df s
    else pd.concat (reminders_df s)
           (pd.DataFrame_records [new_reminder task due_date assigned_to]).
Proof. unfold add_reminder. by case_decide. Qed.

Lemma mark_completed_reminders choice s :
  reminders_df (mark_completed choice s).2 = reminders_df s ∨
  ∃ selected,
    "Task" ∈ pd.columns (reminders_df s) ∧ "Status" ∈ pd.columns (reminders_df s) ∧
    reminders_df (mark_completed choice s).2 =
      pd.mk (pd.columns (reminders_df s))
            (map (complete_row selected) (pd.rows (reminders_df s))).
Proof.
  unfold mark_completed, bind, gets.
  destruct (pd.empty (reminders_df s)); [by left|].
  destruct (pd.where_tolist _ _ _ _) as [pending|] eqn:Hpending; simpl; [|by left].
  destruct (where_tolist_columns _ _ _ _ _ Hpending) as [HS HT].
  destruct (pending !! choice) as [selected|]; [|by left].
  right. exists selected. by rewrite loc_set_status.
Qed.

Lemma statuses_concat df task due_date assigned_to :
  reminders_ok df →
  statuses (pd.concat df (pd.DataFrame_records [new_reminder task due_date assigned_to]))
    = statuses df ++ [VStr "Pending"] ∧
  reminders_ok (pd.concat df (pd.DataFrame_records [new_reminder task due_date assigned_to])).
Proof.
  intros Hok. split.
  - unfold statuses, pd.concat. cbn [pd.rows].
    rewrite (map_reindex (λ r, pd.cell r "Status")), map_app. apply (f_equal2 app).
    + change (map ?g ((pd.rows df).*2)) with (map g (map snd (pd.rows df))).
      rewrite !map_map. destruct Hok as [->|[_ HS]]; [done|].
      apply map_ext. intros ir. simpl. by apply cell_restrict.
    + simpl. rewrite cell_restrict by in_list. unfold pd.cell. by simplify_map_eq.
  - right. unfold pd.concat. cbn [pd.columns].
    change (pd.columns (pd.DataFrame_records [new_reminder task due_date assigned_to]))
      with reminders_columns.
    split; apply elem_of_app.
    + destruct (decide ("Task" ∈ pd.columns df)); [by left|right].
      apply list_elem_of_difference. split; [unfold reminders_columns; in_list|done].
    + destruct (decide ("Status" ∈ pd.columns df)); [by left|right].
      apply list_elem_of_difference. split; [unfold reminders_columns; in_list|done].
Qed.

Lemma statuses_complete selected df :
  Forall2 (λ old new, new = old ∨ new = VStr "Completed")
          (statuses df)
          (statuses (pd.mk (pd.columns df) (map (complete_row selected) (pd.rows df)))).
Proof.
  unfold statuses. simpl. rewrite map_map.
  apply Forall2_fmap, Forall_Forall2_diag, Forall_forall. intros [i r] _.
  unfold complete_row. simpl. destruct (py_eq _ _); [right|by left].
  unfold pd.cell. simpl. by rewrite lookup_insert_eq.
Qed.

(** A load with expected columns gives either those columns or the empty
    frame of the last fallback. *)
Lemma load_df_from_file_shape files path cols :
  cols ≠ [] →
  pd.columns (load_df_from_file files path (Some cols)) = cols ∨
  load_df_from_file files path (Some cols) = pd.DataFrame_empty.
Proof.
  intros Hne. destruct (files !! path) as [c|] eqn:Hfile.
  - destruct (read_json P c) as [df|] eqn:Hread.
    { left. apply load_df_from_file_columns; [done|]. right. exists c. by eauto. }
    destruct (json_load P c ≫= DataFrame_of P) as [df|] eqn:Hraw.
    { left. apply load_df_from_file_columns; [done|]. right. exists c. by eauto. }
    right. unfold load_df_from_file. rewrite Hfile, Hread. simpl.
    destruct (json_load P c) as [records|]; simpl in *; [|done]. by rewrite Hraw.
  - left. apply load_df_from_file_columns; eauto.
Qed.

Lemma reachable_reminders_ok s : reachable s → reminders_ok (reminders_df s).
Proof.
  induction 1 as [files x|s a _ IH].
  - simpl. destruct (load_df_from_file_shape files REMINDERS_FILE reminders_columns) as [Hc| ->];
      [done| |by left].
    right. rewrite Hc. unfold reminders_columns. split; in_list.
  - rewrite step_reminders.
    destruct a as [r t k l|n r ls c g|n m l|t d w|k| | |x]; cbn [handle].
    + by rewrite send_now_reminders.
    + by rewrite add_partner_reminders.
    + by rewrite submit_feedback_reminders.
    + rewrite add_reminder_reminders. case_decide; [done|]. by apply statuses_concat.
    + destruct (mark_completed_reminders k s) as [->|(sel & HT & HS & ->)]; [done|].
      by right.
    + by rewrite outbox_page_reminders.
    + by rewrite persist_all_reminders.
    + done.
Qed.

(** C9. In every reachable state, one more interaction can only do this
    to the Status column of the reminders: leave the Status of each existing
    reminder as it is, or, when the interaction is "Mark Completed", set it
    to "Completed"; and append reminders whose Status is "Pending", which
    only "Add Reminder" does.  No other operation touches the column. *)
Theorem reminder_status_transitions s a :
  reachable s →
  ∃ kept added,
    statuses (reminders_df (step s a)) = kept ++ added ∧
    Forall2 (λ old new, new = old ∨ (new = VStr "Completed" ∧ ∃ k, a = MarkCompleted k))
            (statuses (reminders_df s)) kept ∧
    Forall (λ v, v = VStr "Pending" ∧ ∃ t d w, a = AddReminder t d w) added.
Proof.
  intros Hreach%reachable_reminders_ok.
  assert (Forall2 (λ old new : Value, new = old ∨ (new = VStr "Completed" ∧ ∃ k, a = MarkCompleted k))
            (statuses (reminders_df s)) (statuses (reminders_df s))) as Hsame.
  { apply Forall_Forall2_diag, Forall_forall. by left. }
  rewrite step_reminders.
  assert (reminders_df (handle a s).2 = reminders_df s →
          ∃ kept added,
            statuses (reminders_df (handle a s).2) = kept ++ added ∧
            Forall2 (λ old new, new = old ∨ (new = VStr "Completed" ∧ ∃ k, a = MarkCompleted k))
                    (statuses (reminders_df s)) kept ∧
            Forall (λ v, v = VStr "Pending" ∧ ∃ t d w, a = AddReminder t d w) added) as Hkeep.
  { intros ->. exists (statuses (reminders_df s)), []. by rewrite app_nil_r. }
  destruct a as [r t k l|n r ls c g|n m l|t d w|k| | |x];
    try (apply Hkeep, handle_other_reminders; done).
  - (* Add Reminder *)
    clear Hkeep. cbn [handle]. rewrite add_reminder_reminders. case_decide.
    + exists (statuses (reminders_df s)), []. by rewrite app_nil_r.
    + destruct (statuses_concat (reminders_df s) t d w Hreach) as [-> _].
      exists (statuses (reminders_df s)), [VStr "Pending"]. split_and!; [done..|].
      apply Forall_singleton. eauto.
  - (* Mark Completed *)
    cbn [handle] in *.
    destruct (mark_completed_reminders k s) as [Heq|(sel & HT & HS & ->)]; [by apply Hkeep|].
    eexists _, []. rewrite app_nil_r. split_and!; [done| |done].
    eapply Forall2_impl; [apply statuses_complete|].
    intros old new [->| ->]; eauto.
Qed.

(** ** Sessions: the tables the outbox theorems assume

    The well-formedness that the outbox theorems ask of the outbox and of
    the message log holds in every state of a session, provided the outbox
    it started with was well formed. *)

Lemma table_view_outbox_df : table_view (P:=P) outbox_df.
Proof. done. Qed.

Lemma table_view_message_logs : table_view (P:=P) message_logs.
Proof. done. Qed.

Section World.

Context {B : Type} (f : App P → B) (Hf : table_view f).

Lemma table_view_fs g s : f (set_fs g s) = f s.
Proof. apply (Hf s). Qed.

Lemma save_df_to_file_view df path : preserves f (save_df_to_file df path).
Proof. intros s. apply table_view_fs. Qed.

Lemma strftime_now_view : preserves f strftime_now.
Proof. intros s. unfold strftime_now. destruct (now P (ext s)). apply (Hf s). Qed.

Lemma remote_view {A} e (g : Ext P → option A * Ext P) : preserves f (remote e g).
Proof. intros s. unfold remote. destruct (g (ext s)). apply (Hf s). Qed.

Lemma provider_view c g : preserves f (provider c g).
Proof. intros s. unfold provider. destruct (g (ext s)). apply (Hf s). Qed.

Lemma from_number_view : preserves f (from_number (P:=P)).
Proof. intros s. by rewrite from_number_state. Qed.

Local Hint Resolve save_df_to_file_view strftime_now_view remote_view provider_view
  from_number_view : core.

Lemma safe_translate_view text lang : preserves f (safe_translate text lang).
Proof. unfold safe_translate. frame. Qed.

Lemma safe_send_sms_view to_number body : preserves f (safe_send_sms to_number body).
Proof. unfold safe_send_sms. frame. Qed.

Lemma safe_make_call_view to_number text : preserves f (safe_make_call to_number text).
Proof. unfold safe_make_call. frame. Qed.

End World.

Section Maintains.

Context (I : App P → Prop).

Lemma maintains_ret {A} (a : A) : maintains I (ret a).
Proof. by intros s. Qed.

Lemma maintains_raise {A} e : maintains I (raise (A:=A) e).
Proof. by intros s. Qed.

Lemma maintains_gets {A} (g : App P → A) : maintains I (gets g).
Proof. by intros s. Qed.

Lemma maintains_or_raise {A} e (o : option A) : maintains I (or_raise e o).
Proof. destruct o; by intros s. Qed.

Lemma maintains_modify (g : App P → App P) : (∀ s, I s → I (g s)) → maintains I (modify g).
Proof. intros Hg s. apply Hg. Qed.

Lemma maintains_bind {A C} (m : M P A) (k : A → M P C) :
  maintains I m → (∀ a, maintains I (k a)) → maintains I (bind m k).
Proof.
  intros Hm Hk s Hs. unfold bind. specialize (Hm s Hs).
  destruct (m s) as [[a|e] s1]; simpl in *; [|done]. by apply Hk.
Qed.

Lemma maintains_try_except {A} (body : M P A) (handler : string → M P A) :
  maintains I body → (∀ e, maintains I (handler e)) → maintains I (try_except body handler).
Proof.
  intros Hm Hk s Hs. unfold try_except. specialize (Hm s Hs).
  destruct (body s) as [[a|e] s1]; simpl in *; [done|]. by apply Hk.
Qed.

Lemma maintains_for_each {A S} (body : A → S → M P S) l acc :
  (∀ a acc, maintains I (body a acc)) → maintains I (for_each body l acc).
Proof.
  intros Hbody. revert acc. induction l as [|a l IH]; intros acc; [by intros s|].
  simpl. by apply maintains_bind.
Qed.

End Maintains.

(** What a computation leaves alone, it keeps in whatever shape it was. *)
Lemma preserves_maintains {A B} (f : App P → B) (Q : B → Prop) (m : M P A) :
  preserves f m → maintains (λ s, Q (f s)) m.
Proof. intros Hm s Hs. by rewrite Hm. Qed.

(** Splits a computation along its binds, handlers and branches; an
    assignment that leaves the invariant's view alone is discharged, the
    others are left as goals. *)
Ltac maintain_step :=
  match goal with
  | |- maintains _ (bind _ _) => apply maintains_bind; [|intros ?]
  | |- maintains _ (try_except _ _) => apply maintains_try_except; [|intros ?]
  | |- maintains _ (for_each _ _ _) => apply maintains_for_each; intros ? ?
  | |- maintains _ (ret _) => apply maintains_ret
  | |- maintains _ (raise _) => apply maintains_raise
  | |- maintains _ (gets _) => apply maintains_gets
  | |- maintains _ (or_raise _ _) => apply maintains_or_raise
  | |- maintains _ (let _ := _ in _) => cbv zeta
  | |- maintains _ (modify _) =>
      apply maintains_modify; let s := fresh "s" in let Hs := fresh "Hs" in
      intros s Hs; try exact Hs
  | |- maintains _ (if ?c then _ else _) => destruct c
  | |- maintains _ (match ?c with _ => _ end) => destruct c
  end.
Ltac maintain := repeat maintain_step.

(** The same splitting for a part of the state the computation never
    assigns to. *)
Ltac untouched :=
  repeat frame_step;
  eauto using save_df_to_file_view, strftime_now_view, remote_view, provider_view,
    from_number_view, safe_translate_view, safe_send_sms_view, safe_make_call_view,
    table_view_outbox_df, table_view_message_logs.

(** *** The message log *)

Lemma log_wf_append logs row :
  log_wf logs →
  pd.columns (pd.DataFrame_records [row]) = message_logs_columns →
  log_wf (pd.concat logs (pd.DataFrame_records [row])).
Proof.
  intros [Hc| ->] Hrow; left; unfold pd.concat; cbn [pd.columns];
    rewrite ?Hc, Hrow; reflexivity.
Qed.

Ltac log_step :=
  maintain;
  try (apply (preserves_maintains message_logs log_wf); untouched; fail);
  try (cbn [message_logs set_message_logs]; by apply log_wf_append).

Lemma process_outbox_log_wf max :
  maintains (P:=P) (λ s, log_wf (message_logs s)) (process_outbox max).
Proof. unfold process_outbox, process_row, py_int. log_step. Qed.

Lemma run_log_wf a : maintains (P:=P) (λ s, log_wf (message_logs s)) (run a).
Proof.
  unfold run, persist_all. apply maintains_bind; [|intros ?; log_step].
  destruct a; cbn [handle].
  - unfold send_now, append_row, add_to_outbox. log_step.
  - unfold add_partner, append_row. log_step.
  - unfold submit_feedback, append_row. log_step.
  - unfold add_reminder, append_row. log_step.
  - unfold mark_completed. log_step.
  - unfold outbox_page. apply maintains_try_except; [|intros ?; apply maintains_ret].
    apply maintains_bind; [apply process_outbox_log_wf|intros ?; apply maintains_ret].
  - unfold persist_all. log_step.
  - log_step.
Qed.

(** In every reachable state the message log has the shape the outbox
    theorems assume. *)
Lemma reachable_log_wf s : reachable s → log_wf (message_logs s).
Proof.
  induction 1 as [files x|s a _ IH].
  - apply load_df_from_file_shape. done.
  - by apply run_log_wf.
Qed.

(** *** The outbox *)

Lemma labels_reindex (rs : list pd.Row) : (pd.reindex rs).*1 = seq 0 (length rs).
Proof.
  unfold pd.reindex. change (λ i r, (i, r)) with (λ i (r : pd.Row), ((0 + i)%nat, r)).
  generalize 0%nat. induction rs as [|r rs IH]; intros k; [done|].
  simpl. rewrite Nat.add_0_r. f_equal. rewrite <- IH. f_equal.
  apply imap_ext. intros i r' _. simpl. f_equal. lia.
Qed.

Lemma Forall_reindex (Q : pd.Row → Prop) (rs : list pd.Row) :
  Forall Q rs → Forall (λ ir, Q ir.2) (pd.reindex rs).
Proof.
  intros Hrs. apply (Forall_fmap snd Q).
  assert ((pd.reindex rs).*2 = rs) as ->; [|done].
  rewrite <- (list_fmap_id rs) at 2. apply (map_reindex (λ r, r)).
Qed.

Lemma outbox_inv_wf df : outbox_inv df → pd.rows df ≠ [] → outbox_wf df.
Proof.
  intros (Hnd & Hint & [Hc| ->]) Hrows; [|done].
  unfold outbox_wf. rewrite Hc. unfold outbox_columns. split_and!; try done; in_list.
Qed.

Lemma outbox_inv_enqueue df recipient message language msg_type created :
  outbox_inv df →
  outbox_inv (pd.concat df
    (pd.DataFrame_records [outbox_row recipient message language msg_type created])).
Proof.
  intros (Hnd & Hint & Hshape).
  assert (pd.cell (pd.restrict outbox_columns
            (list_to_map (outbox_row recipient message language msg_type created)))
            "Attempts" = VInt 0) as Hnew.
  { rewrite cell_restrict by (unfold outbox_columns; in_list).
    unfold pd.cell, outbox_row. by simplify_map_eq. }
  unfold outbox_inv, pd.concat, pd.labels. cbn [pd.rows pd.columns]. split_and!.
  - rewrite labels_reindex. apply NoDup_seq.
  - apply (Forall_reindex (λ r, ∃ a, pd.cell r "Attempts" = VInt a)).
    apply Forall_app. split.
    + destruct Hshape as [Hc| ->]; [|done]. rewrite Hc.
      apply Forall_fmap, Forall_fmap. eapply Forall_impl; [exact Hint|].
      intros [i r] [a Ha]. exists a. simpl in *.
      rewrite cell_restrict; [done|]. unfold outbox_columns. in_list.
    + apply Forall_cons. split; [|done]. by exists 0.
  - left. by destruct Hshape as [-> | ->].
Qed.

(** A drain of an outbox in that shape returns and leaves one in that
    shape. *)
Lemma process_outbox_inv max s :
  outbox_inv (outbox_df s) →
  ∃ res s', process_outbox max s = (Ok res, s') ∧ outbox_inv (outbox_df s').
Proof.
  intros Hinv. destruct (pd.rows (outbox_df s)) as [|ir rs] eqn:Hrows.
  { exists [], s. split; [|done]. unfold process_outbox, bind, gets, pd.empty.
    rewrite bool_decide_eq_true_2; [done|]. by left. }
  assert (outbox_wf (outbox_df s)) as Hwf.
  { apply outbox_inv_wf; [done|]. by rewrite Hrows. }
  pose proof Hinv as (_ & _ & [Hc|He]); [|by rewrite He in Hrows].
  pose proof Hwf as (Hnd & HR & HM & HA & Hint).
  unfold process_outbox. unfold bind at 1, gets at 1.
  destruct (pd.empty (outbox_df s)); [by exists [], s|].
  destruct (sweep_spec max (pd.columns (outbox_df s)) (pd.rows (outbox_df s)) [] [] [] s)
    as (res & K & s1 & Hrun & Hrows1 & Hcols & Hsub & Hint1 & _); try done.
  { by rewrite app_nil_r. }
  { by rewrite app_nil_r. }
  unfold bind at 1. rewrite Hrun. simpl. exists res, (persisted s1).
  split; [done|]. simpl. rewrite app_nil_r in Hrows1.
  unfold outbox_inv, pd.labels. rewrite Hrows1, Hcols. split_and!; [|done|by left].
  by apply (sublist_NoDup _ (pd.labels (outbox_df s))).
Qed.

Ltac outbox_step :=
  maintain;
  try (apply (preserves_maintains outbox_df outbox_inv); untouched; fail);
  try (cbn [outbox_df set_outbox_df]; by apply outbox_inv_enqueue).

Lemma run_outbox_inv a : maintains (P:=P) (λ s, outbox_inv (outbox_df s)) (run a).
Proof.
  unfold run, persist_all. apply maintains_bind; [|intros ?; outbox_step].
  destruct a; cbn [handle].
  - unfold send_now, append_row, add_to_outbox. outbox_step.
  - unfold add_partner, append_row. outbox_step.
  - unfold submit_feedback, append_row. outbox_step.
  - unfold add_reminder, append_row. outbox_step.
  - unfold mark_completed. outbox_step.
  - unfold outbox_page. apply maintains_try_except; [|intros ?; apply maintains_ret].
    apply maintains_bind; [|intros ?; apply maintains_ret].
    intros s Hs. destruct (process_outbox_inv 3 s Hs) as (res & s' & -> & Hs'). done.
  - unfold persist_all. outbox_step.
  - outbox_step.
Qed.

(** A session that found no outbox file: in each of its states the outbox
    is in that shape, so a drain is never aborted and every queued entry
    has an integer attempt count. *)
Lemma startup_outbox_inv files x :
  files !! OUTBOX_FILE = None → outbox_inv (outbox_df (startup files x)).
Proof.
  intros Hfile. cbn [startup outbox_df]. unfold load_df_from_file. rewrite Hfile.
  unfold outbox_inv. split_and!; [apply NoDup_nil_2|done|by left].
Qed.

Lemma step_outbox_inv s a : outbox_inv (outbox_df s) → outbox_inv (outbox_df (step s a)).
Proof. apply run_outbox_inv. Qed.

Lemma step_outbox_drains s a max :
  outbox_inv (outbox_df s) →
  ∃ res s', process_outbox max (step s a) = (Ok res, s').
Proof.
  intros Hs%(step_outbox_inv s a). destruct (process_outbox_inv max _ Hs) as (res & s' & Hrun & _).
  by exists res, s'.
Qed.


(** * More of the script *)

(** ** Appending one record to a table *)

Lemma first_seen_NoDup (l : list string) : NoDup l → pd.first_seen l = l.
Proof.
  induction 1 as [|x l Hx _ IH]; [done|].
  simpl. rewrite IH. f_equal. apply filter_all, Forall_forall.
  intros y Hy ->. done.
Qed.

Lemma list_difference_nil_r (l : list string) : list_difference l [] = l.
Proof. induction l as [|x l IH]; [done|]. simpl. by rewrite IH. Qed.

Lemma list_difference_self (l k : list string) : l ⊆ k → list_difference l k = [].
Proof.
  induction l as [|x l IH]; intros Hsub; [done|].
  simpl. destruct (decide_rel elem_of x k) as [_|Hx].
  - apply IH. intros y Hy. apply Hsub. by constructor.
  - destruct Hx. apply Hsub. constructor.
Qed.

(** A record with distinct keys is read back, key by key, from the row
    built of it. *)
Lemma record_cells (row : PyDict) :
  NoDup row.*1 →
  map (λ c, (c, pd.cell (list_to_map row) c)) row.*1 = row.
Proof.
  induction row as [|[k v] row IH]; [done|].
  rewrite fmap_cons. intros [Hk Hnd]%NoDup_cons. cbn [map fst list_to_map foldr].
  f_equal.
  - unfold pd.cell. by rewrite lookup_insert_eq.
  - etrans; [|by apply IH]. apply Forall_fmap_ext, Forall_forall.
    intros c Hc. f_equal. unfold pd.cell. rewrite lookup_insert_ne; [done|].
    by intros ->.
Qed.

Lemma concat_record cols T (row : PyDict) :
  shaped cols T → NoDup cols → row.*1 = cols →
  pd.columns (pd.concat T (pd.DataFrame_records [row])) = cols ∧
  pd.to_dict (pd.concat T (pd.DataFrame_records [row])) = pd.to_dict T ++ [row].
Proof.
  intros Hshape Hnd Hkeys.
  assert (pd.columns (pd.DataFrame_records [row]) = cols) as Hb.
  { unfold pd.DataFrame_records. cbn [pd.columns map mjoin list_join].
    rewrite app_nil_r. change (map fst row) with (row.*1).
    rewrite Hkeys. by apply first_seen_NoDup. }
  assert (pd.columns (pd.concat T (pd.DataFrame_records [row])) = cols) as Hc.
  { unfold pd.concat. cbn [pd.columns]. rewrite Hb.
    destruct Hshape as [-> | ->].
    - by rewrite list_difference_self, app_nil_r.
    - simpl. apply list_difference_nil_r. }
  split; [done|].
  unfold pd.to_dict at 1. rewrite Hc. unfold pd.concat. cbn [pd.rows].
  rewrite (map_reindex (λ r, map (λ c, (c, pd.cell r c)) cols)), map_app.
  apply (f_equal2 app).
  - destruct Hshape as [HT | ->]; [|done].
    unfold pd.to_dict. rewrite HT.
    change (map ?g ((pd.rows T).*2)) with (map g (map snd (pd.rows T))).
    rewrite !map_map. apply map_ext. intros ir. cbn beta.
    apply Forall_fmap_ext, Forall_forall. intros c Hin. f_equal.
    by apply cell_restrict.
  - rewrite Hb. cbn [pd.rows pd.DataFrame_records pd.reindex imap map fmap list_fmap snd].
    f_equal. etrans; [|apply (record_cells row); by rewrite Hkeys].
    rewrite Hkeys. apply Forall_fmap_ext, Forall_forall. intros c Hin. f_equal.
    by apply cell_restrict.
Qed.

Lemma concat_record_shaped cols T (row : PyDict) :
  shaped cols T → NoDup cols → row.*1 = cols →
  shaped cols (pd.concat T (pd.DataFrame_records [row])).
Proof. intros. left. by apply concat_record. Qed.

Lemma concat_record_dict cols T (row : PyDict) :
  shaped cols T → NoDup cols → row.*1 = cols →
  pd.to_dict (pd.concat T (pd.DataFrame_records [row])) = pd.to_dict T ++ [row].
Proof. intros. by apply (concat_record cols). Qed.

(** Literal column lists hold no name twice. *)
Ltac distinct := apply (bool_decide_unpack _); by vm_compute.

(** ** What each page writes *)

Lemma table_view_partners_df : table_view (P:=P) partners_df.
Proof. done. Qed.

Lemma table_view_feedback_df : table_view (P:=P) feedback_df.
Proof. done. Qed.

Lemma table_view_reminders_df : table_view (P:=P) reminders_df.
Proof. done. Qed.

(** The call log is written by [provider] alone. *)
Lemma save_df_to_file_dispatched df path : preserves (P:=P) dispatched (save_df_to_file df path).
Proof. by intros s. Qed.

Lemma strftime_now_dispatched : preserves (P:=P) dispatched strftime_now.
Proof. intros s. unfold strftime_now. by destruct (now P (ext s)). Qed.

Lemma remote_dispatched {A} e (g : Ext P → option A * Ext P) :
  preserves (P:=P) dispatched (remote e g).
Proof. intros s. unfold remote. by destruct (g (ext s)). Qed.

Lemma safe_translate_dispatched text lang : preserves (P:=P) dispatched (safe_translate text lang).
Proof. unfold safe_translate. frame. apply remote_dispatched. Qed.

Ltac open_pages :=
  unfold send_now, add_partner, submit_feedback, add_reminder, mark_completed,
    outbox_page, persist_all, append_row, add_to_outbox, process_outbox, process_row,
    py_int.

(** A part of the state the computation never assigns to. *)
Ltac unassigned :=
  repeat frame_step;
  eauto using save_df_to_file_view, strftime_now_view, remote_view, provider_view,
    from_number_view, safe_translate_view, safe_send_sms_view, safe_make_call_view,
    table_view_outbox_df, table_view_message_logs, table_view_partners_df,
    table_view_feedback_df, table_view_reminders_df,
    save_df_to_file_dispatched, strftime_now_dispatched, safe_translate_dispatched.

Ltac keeps :=
  match goal with
  | |- ?f (?m ?s).2 = ?f ?s => revert s; change (preserves f m)
  end;
  open_pages; unassigned.

(** The last line of the script writes files only. *)
Lemma persist_all_state s :
  persist_all s =
    (Ok tt,
     set_fs (<[OUTBOX_FILE := file_content (outbox_df s)]>
             (<[REMINDERS_FILE := file_content (reminders_df s)]>
              (<[FEEDBACK_FILE := file_content (feedback_df s)]>
               (<[MESSAGES_FILE := file_content (message_logs s)]>
                (<[PARTNERS_FILE := file_content (partners_df s)]> (fs s)))))) s).
Proof. done. Qed.

Lemma step_handle s a :
  ∃ s1, (handle a s).2 = s1 ∧
        partners_df (step s a) = partners_df s1 ∧
        message_logs (step s a) = message_logs s1 ∧
        feedback_df (step s a) = feedback_df s1 ∧
        reminders_df (step s a) = reminders_df s1 ∧
        outbox_df (step s a) = outbox_df s1 ∧
        ext (step s a) = ext s1 ∧
        dispatched (step s a) = dispatched s1.
Proof.
  exists (handle a s).2. split; [done|].
  unfold step, run, bind. destruct (handle a s) as [[[]|e] s1]; [|done].
  by rewrite persist_all_state.
Qed.

Lemma handle_keeps_partners a s :
  (∀ n r l c g, a ≠ AddPartner n r l c g) →
  partners_df (handle a s).2 = partners_df s.
Proof.
  intros Ha. destruct a as [r t k l|n r ls c g|n m l|t d w|k| | |x]; cbn [handle];
    try keeps.
  by destruct (Ha n r ls c g).
Qed.

Lemma handle_keeps_feedback a s :
  (∀ n m l, a ≠ SubmitFeedback n m l) →
  feedback_df (handle a s).2 = feedback_df s.
Proof.
  intros Ha. destruct a as [r t k l|n r ls c g|n m l|t d w|k| | |x]; cbn [handle];
    try keeps.
  by destruct (Ha n m l).
Qed.

Lemma handle_keeps_messaging a s :
  (∀ r t k l, a ≠ SendNow r t k l) → a ≠ ProcessOutbox →
  message_logs (handle a s).2 = message_logs s ∧
  outbox_df (handle a s).2 = outbox_df s ∧
  dispatched (handle a s).2 = dispatched s.
Proof.
  intros Ha Hb.
  destruct a as [r t k l|n r ls c g|n m l|t d w|k| | |x]; cbn [handle];
    try (by destruct (Ha r t k l)); try done;
    split_and!; keeps.
Qed.

(** X1. Each table is written by its own page only.  Whatever the state,
    one run of the script leaves the partners as they are unless it is "Add
    Partner", the feedback unless it is "Submit Feedback", the reminders
    unless it is "Add Reminder" or "Mark Completed", and the message log,
    the outbox and the log of provider calls unless it is "Send Now" or
    "Process Outbox". *)
Theorem pages_write_their_own_tables s a :
  ((∀ n r l c g, a ≠ AddPartner n r l c g) → partners_df (step s a) = partners_df s) ∧
  ((∀ n m l, a ≠ SubmitFeedback n m l) → feedback_df (step s a) = feedback_df s) ∧
  ((∀ t d w, a ≠ AddReminder t d w) → (∀ k, a ≠ MarkCompleted k) →
     reminders_df (step s a) = reminders_df s) ∧
  ((∀ r t k l, a ≠ SendNow r t k l) → a ≠ ProcessOutbox →
     message_logs (step s a) = message_logs s ∧
     outbox_df (step s a) = outbox_df s ∧
     dispatched (step s a) = dispatched s).
Proof.
  destruct (step_handle s a) as (s1 & Hs1 & -> & -> & -> & -> & -> & _ & ->).
  subst s1. split_and!.
  - apply handle_keeps_partners.
  - apply handle_keeps_feedback.
  - apply handle_other_reminders.
  - apply handle_keeps_messaging.
Qed.

(** ** Send Now *)

(** A translation returns, and moves nothing but the outside world. *)
Lemma safe_translate_world text lang s :
  ∃ out x, safe_translate text lang s = (Ok out, set_ext x s).
Proof.
  assert (s = set_ext (ext s) s) as Hs by (by destruct s).
  unfold safe_translate.
  repeat case_decide; try (exists text, (ext s); by rewrite <- Hs).
  - eexists _, (ext s). by rewrite <- Hs.
  - destruct (gt_translator P) as [translate|]; [|exists text, (ext s); by rewrite <- Hs].
    unfold try_except, remote. destruct (translate text "sw" (ext s)) as [[t|] x]; eauto.
Qed.

Lemma safe_send_sms_attempt to_number body : one_attempt (P:=P) (safe_send_sms to_number body).
Proof.
  intros s. rewrite safe_send_sms_spec.
  assert (s = with_world (ext s) (dispatched s) s) as Hs by (by destruct s).
  destruct (get_twilio_client P) as [client|].
  2: { exists false, NOT_CONFIGURED, (ext s), (dispatched s). rewrite <- Hs.
       intuition (eauto; congruence). }
  destruct (from_number s) as [[from_|e] s0].
  2: { exists false, e, (ext s), (dispatched s). rewrite <- Hs.
       intuition (eauto; congruence). }
  destruct (messages_create _ _ _ _ _ _) as [[sid|err] x]; do 4 eexists;
    (split; [reflexivity|]); intuition (eauto; congruence).
Qed.

Lemma safe_make_call_attempt to_number text : one_attempt (P:=P) (safe_make_call to_number text).
Proof.
  intros s. rewrite safe_make_call_spec.
  assert (s = with_world (ext s) (dispatched s) s) as Hs by (by destruct s).
  destruct (get_twilio_client P) as [client|].
  2: { exists false, NOT_CONFIGURED, (ext s), (dispatched s). rewrite <- Hs.
       intuition (eauto; congruence). }
  destruct (from_number s) as [[from_|e] s0].
  2: { exists false, e, (ext s), (dispatched s). rewrite <- Hs.
       intuition (eauto; congruence). }
  cbv zeta.
  destruct (calls_create _ _ _ _ _ _) as [[sid|err] x]; do 4 eexists;
    (split; [reflexivity|]); intuition (eauto; congruence).
Qed.

Lemma ret_attempt info : one_attempt (P:=P) (ret (false, info)).
Proof.
  intros s. exists false, info, (ext s), (dispatched s).
  split; [by destruct s|]. intuition (eauto; congruence).
Qed.

Lemma send_now_state recipient msg_text msg_type msg_lang s :
  recipient ≠ "" → msg_text ≠ "" →
  ∃ translated x d date,
    (safe_translate msg_text msg_lang s).1 = Ok translated ∧
    (get_twilio_client P = None → d = dispatched s) ∧
    ((∃ c, d = dispatched s ++ [c]) ∧
     send_now recipient msg_text msg_type msg_lang s =
       (let log := pd.concat (message_logs s)
                     (pd.DataFrame_records
                        [log_row recipient translated msg_lang date (kind_of msg_type)]) in
        (Ok tt, mkApp (partners_df s) log (feedback_df s) (reminders_df s) (outbox_df s)
                      (<[MESSAGES_FILE := file_content log]> (fs s)) x d))
     ∨
     (d = dispatched s ∨ ∃ c, d = dispatched s ++ [c]) ∧
     send_now recipient msg_text msg_type msg_lang s =
       (let out := pd.concat (outbox_df s)
                     (pd.DataFrame_records
                        [outbox_row (VStr recipient) (VStr translated) (VStr msg_lang)
                                    (VStr (kind_of msg_type)) date]) in
        (Ok tt, mkApp (partners_df s) (message_logs s) (feedback_df s) (reminders_df s) out
                      (<[OUTBOX_FILE := file_content out]> (fs s)) x d))).
Proof.
  intros Hr Ht.
  remember (send_now recipient msg_text msg_type msg_lang s) as result eqn:Hres.
  unfold send_now in Hres. rewrite decide_False in Hres by (by intros [?|?]).
  unfold bind at 1 in Hres.
  destruct (safe_translate_world msg_text msg_lang s) as (translated & x0 & Htr).
  rewrite Htr in Hres |- *.
  match type of Hres with context [bind ?m _] => assert (one_attempt m) as Hm end.
  { destruct (_ && _); [|apply ret_attempt].
    case_decide; [apply safe_send_sms_attempt|apply safe_make_call_attempt]. }
  destruct (Hm (set_ext x0 s)) as (ok & info & x & d & Hrun & Hd & Hok & Hnone).
  unfold bind at 1 in Hres. rewrite Hrun in Hres. cbn [dispatched set_ext] in *.
  destruct ok;
    unfold add_to_outbox, append_row in Hres;
    unfold bind, strftime_now, save_df_to_file, modify, gets in Hres;
    cbn [ext with_world] in Hres; destruct (now P x) as [date x'] eqn:Hnow;
    exists translated, x', d, date; (split; [done|]);
    (split; [by intros (_ & _ & ->)%Hnone|]); [left|right]; (split; [by auto|]);
    by rewrite Hres.
Qed.

(** ** The other forms *)

Lemma add_partner_state name role langs contact campaign s :
  name ≠ "" →
  add_partner name role langs contact campaign s =
    (let T := pd.concat (partners_df s)
                (pd.DataFrame_records [new_partner name role langs contact campaign]) in
     (Ok tt, mkApp T (message_logs s) (feedback_df s) (reminders_df s) (outbox_df s)
                   (<[PARTNERS_FILE := file_content T]> (fs s)) (ext s) (dispatched s))).
Proof. intros Hn. unfold add_partner. by rewrite decide_False. Qed.

Lemma add_reminder_state task due_date assigned_to s :
  task ≠ "" → assigned_to ≠ "" →
  add_reminder task due_date assigned_to s =
    (let T := pd.concat (reminders_df s)
                (pd.DataFrame_records [new_reminder task due_date assigned_to]) in
     (Ok tt, mkApp (partners_df s) (message_logs s) (feedback_df s) T (outbox_df s)
                   (<[REMINDERS_FILE := file_content T]> (fs s)) (ext s) (dispatched s))).
Proof. intros Ht Ha. unfold add_reminder. by rewrite decide_False by (by intros [?|?]). Qed.

Lemma submit_feedback_state fname fmsg flang s :
  fname ≠ "" → fmsg ≠ "" →
  ∃ date x,
    (now P (ext s)).1 = date ∧
    submit_feedback fname fmsg flang s =
      (let T := pd.concat (feedback_df s)
                  (pd.DataFrame_records [new_fb fname fmsg flang date]) in
       (Ok tt, mkApp (partners_df s) (message_logs s) T (reminders_df s) (outbox_df s)
                     (<[FEEDBACK_FILE := file_content T]> (fs s)) x (dispatched s))).
Proof.
  intros Hn Hm. unfold submit_feedback. rewrite decide_False by (by intros [?|?]).
  unfold bind at 1, strftime_now. destruct (now P (ext s)) as [date x0] eqn:Hnow.
  unfold bind at 1, append_row, modify. unfold bind at 1, gets. unfold bind at 1.
  unfold save_df_to_file, modify. cbn [feedback_df set_feedback_df set_ext fs].
  unfold bind.
  match goal with |- context [safe_translate ?t ?l ?st] =>
    destruct (safe_translate_world t l st) as (conf & x & ->) end.
  by exists date, x.
Qed.

(** ** The shape of the tables along a session *)

Lemma at_set_columns idx c v df :
  c ∈ pd.columns df → pd.columns (pd.at_set idx c v df) = pd.columns df.
Proof.
  intros Hc. unfold pd.at_set. cbv zeta.
  destruct (decide (c ∈ pd.columns df)); [|done].
  by destruct (decide (idx ∈ pd.labels df)).
Qed.

Lemma drop_columns idx df df' : pd.drop idx df = Some df' → pd.columns df' = pd.columns df.
Proof. unfold pd.drop. case_decide; [|done]. by intros [= <-]. Qed.

(** [df = st.session_state.outbox_df.drop(idx)], then the assignment. *)
Lemma maintains_drop_live (I : App P → Prop) idx e {A} (k : M P A) :
  (∀ s df, I s → pd.drop idx (outbox_df s) = Some df → I (set_outbox_df df s)) →
  maintains I k →
  maintains I (bind (gets outbox_df)
                 (λ df, bind (or_raise e (pd.drop idx df))
                          (λ df, bind (modify (set_outbox_df df)) (λ _, k)))).
Proof.
  intros Hdrop Hk s Hs. unfold bind, gets, or_raise, modify. simpl.
  destruct (pd.drop idx (outbox_df s)) as [df|] eqn:Hd; simpl; [|done].
  apply Hk. by apply Hdrop.
Qed.

Lemma process_row_columns max cols ir res :
  maintains (P:=P) (λ s, pd.columns (outbox_df s) = outbox_columns)
            (process_row max cols ir res).
Proof.
  destruct ir as [idx row]. unfold process_row, py_int.
  repeat first [apply maintains_drop_live; [intros ? ? ? ?|] | maintain_step];
    try (apply (preserves_maintains outbox_df (λ d, pd.columns d = outbox_columns));
         unassigned; fail).
  - cbn [outbox_df set_outbox_df]. rewrite at_set_columns; [done|].
    rewrite Hs. unfold outbox_columns. in_list.
  - cbn [outbox_df set_outbox_df]. erewrite drop_columns; done.
Qed.

Lemma process_outbox_shaped max :
  maintains (P:=P) (λ s, shaped outbox_columns (outbox_df s)) (process_outbox max).
Proof.
  intros s Hs. unfold process_outbox. unfold bind at 1, gets at 1.
  destruct (pd.empty (outbox_df s)) eqn:He; [done|].
  destruct Hs as [Hc|Hempty]; [|by rewrite Hempty in He].
  left.
  assert (∀ cols rs,
    maintains (P:=P) (λ s, pd.columns (outbox_df s) = outbox_columns)
      (bind (for_each (process_row max cols) rs [])
         (λ results,
            bind (gets outbox_df) (λ df,
            bind (save_df_to_file df OUTBOX_FILE) (λ _,
            bind (gets message_logs) (λ df,
            bind (save_df_to_file df MESSAGES_FILE) (λ _, ret results))))))) as Hloop.
  { intros cols rs.
    apply maintains_bind; [apply maintains_for_each; intros; apply process_row_columns|].
    intros res.
    apply (preserves_maintains outbox_df (λ d, pd.columns d = outbox_columns)).
    unassigned. }
  by apply Hloop.
Qed.

Lemma step_shaped s a : tables_shaped s → tables_shaped (step s a).
Proof.
  intros (Hp & Hl & Hf & Hr & Ho).
  pose proof (run_log_wf a s Hl) as Hl'.
  destruct (step_handle s a) as (s1 & Hs1 & Ep & El & Ef & Er & Eo & _).
  unfold tables_shaped. rewrite Ep, Ef, Er, Eo. subst s1.
  split_and!; [|exact Hl'| | |].
  - destruct a as [r t k l|n r ls c g|n m l|t d w|k| | |x];
      try (by rewrite handle_keeps_partners).
    cbn [handle]. destruct (decide (n = "")) as [->|Hn]; [done|].
    rewrite add_partner_state by done. cbn [snd partners_df].
    apply concat_record_shaped; [done|distinct|done].
  - destruct a as [r t k l|n r ls c g|n m l|t d w|k| | |x];
      try (by rewrite handle_keeps_feedback).
    cbn [handle]. destruct (decide (n = "")) as [->|Hn]; [done|].
    destruct (decide (m = "")) as [->|Hm].
    { unfold submit_feedback. by rewrite decide_True by (by right). }
    destruct (submit_feedback_state n m l s Hn Hm) as (date & x & _ & ->).
    cbn [snd feedback_df]. apply concat_record_shaped; [done|distinct|done].
  - destruct a as [r t k l|n r ls c g|n m l|t d w|k| | |x];
      try (by rewrite handle_other_reminders).
    + cbn [handle]. rewrite add_reminder_reminders. case_decide; [done|].
      apply concat_record_shaped; [done|distinct|done].
    + cbn [handle].
      destruct (mark_completed_reminders k s) as [->|(sel & _ & _ & ->)]; [done|].
      destruct Hr as [Hc| ->]; [by left|by right].
  - pose proof (handle_keeps_messaging a s) as Hk.
    destruct a as [r t k l|n r ls c g|n m l|t d w|k| | |x];
      try (destruct Hk as (_ & Hk & _); [done..|]; by rewrite Hk); clear Hk.
    + cbn [handle]. destruct (decide (r = "")) as [->|Hn]; [done|].
      destruct (decide (t = "")) as [->|Hm].
      { unfold send_now. by rewrite decide_True by (by right). }
      destruct (send_now_state r t k l s Hn Hm)
        as (tr & x & d & date & _ & _ & [[_ ->]|[_ ->]]); cbn [snd outbox_df]; [done|].
      apply concat_record_shaped; [done|distinct|done].
    + cbn [handle]. unfold outbox_page.
      apply (maintains_try_except (λ s, shaped outbox_columns (outbox_df s)));
        [|by intros ? ?|done].
      apply maintains_bind; [apply process_outbox_shaped|by intros ? ?].
Qed.

Lemma reachable_shaped s : reachable s → tables_shaped s.
Proof.
  induction 1 as [files x|s a _ IH]; [|by apply step_shaped].
  unfold tables_shaped, shaped. cbn [startup partners_df message_logs feedback_df
    reminders_df outbox_df].
  split_and!; by apply load_df_from_file_shape.
Qed.

(** X2. In every reachable state each of the five tables has exactly the
    columns the script expects of it, in their order, or is the frame
    without columns and rows that a load falls back to. *)
Theorem tables_keep_their_columns s :
  reachable s →
  (pd.columns (partners_df s) = partners_columns ∨ partners_df s = pd.DataFrame_empty) ∧
  (pd.columns (message_logs s) = message_logs_columns ∨ message_logs s = pd.DataFrame_empty) ∧
  (pd.columns (feedback_df s) = feedback_columns ∨ feedback_df s = pd.DataFrame_empty) ∧
  (pd.columns (reminders_df s) = reminders_columns ∨ reminders_df s = pd.DataFrame_empty) ∧
  (pd.columns (outbox_df s) = outbox_columns ∨ outbox_df s = pd.DataFrame_empty).
Proof. apply reachable_shaped. Qed.

(** ** Runs complete, and leave the data directory in step *)

Lemma mark_completed_returns choice s :
  reminders_ok (reminders_df s) → ∃ s', mark_completed choice s = (Ok tt, s').
Proof.
  intros Hok. unfold mark_completed, bind, gets.
  destruct (pd.empty (reminders_df s)) eqn:He; [by eauto|].
  destruct Hok as [Hrows|[HT HS]].
  { unfold pd.empty in He. rewrite bool_decide_eq_true_2 in He; [done|by left]. }
  unfold pd.where_tolist. rewrite decide_True by done. simpl.
  destruct (_ !! choice) as [selected|]; [|by eauto].
  rewrite loc_set_status by done. simpl. by eauto.
Qed.

Lemma outbox_page_returns s : ∃ s', outbox_page s = (Ok tt, s').
Proof.
  unfold outbox_page, try_except, bind.
  destruct (process_outbox 3 s) as [[res|e] s1]; by eauto.
Qed.

Lemma handle_returns a s :
  reminders_ok (reminders_df s) → ∃ s', handle a s = (Ok tt, s').
Proof.
  intros Hok. destruct a as [r t k l|n r ls c g|n m l|t d w|k| | |x]; cbn [handle].
  - destruct (decide (r = "")) as [->|Hr]; [by eauto|].
    destruct (decide (t = "")) as [->|Ht].
    { unfold send_now. rewrite decide_True by (by right). by eauto. }
    destruct (send_now_state r t k l s Hr Ht)
      as (tr & x & d' & date & _ & _ & [[_ ->]|[_ ->]]); by eauto.
  - destruct (decide (n = "")) as [->|Hn]; [by eauto|].
    rewrite add_partner_state by done. by eauto.
  - destruct (decide (n = "")) as [->|Hn]; [by eauto|].
    destruct (decide (m = "")) as [->|Hm].
    { unfold submit_feedback. rewrite decide_True by (by right). by eauto. }
    destruct (submit_feedback_state n m l s Hn Hm) as (date & x & _ & ->). by eauto.
  - destruct (decide (t = "")) as [->|Ht]; [by eauto|].
    destruct (decide (w = "")) as [->|Hw].
    { unfold add_reminder. rewrite decide_True by (by right). by eauto. }
    rewrite add_reminder_state by done. by eauto.
  - by apply mark_completed_returns.
  - apply outbox_page_returns.
  - rewrite persist_all_state. by eauto.
  - by eauto.
Qed.

(** The five data files are five different files. *)
Ltac other_file := let H := fresh in intros H; cbv in H; discriminate H.

Lemma persist_all_in_sync s : in_sync (persist_all s).2.
Proof.
  rewrite persist_all_state. unfold in_sync. cbn [snd fs set_fs partners_df message_logs
    feedback_df reminders_df outbox_df].
  split_and!;
    repeat (rewrite lookup_insert_ne by other_file); by rewrite lookup_insert_eq.
Qed.

Lemma run_completes a s :
  reminders_ok (reminders_df s) →
  ∃ s1, handle a s = (Ok tt, s1) ∧ run a s = persist_all s1.
Proof.
  intros Hok. destruct (handle_returns a s Hok) as (s1 & Hs1).
  exists s1. split; [done|]. unfold run, bind. by rewrite Hs1.
Qed.

(** X3. In every reachable state, the handler of whichever button is
    pressed, followed by the [persist_all()] that ends the script, returns:
    no exception escapes.  ("Mark Completed" reads the Task and Status
    columns, which a reachable reminders table with rows has; the Outbox
    page catches what a drain raises.) *)
Theorem every_run_completes s a :
  reachable s → ∃ s', run a s = (Ok tt, s').
Proof.
  intros Hok%reachable_reminders_ok.
  destruct (run_completes a s Hok) as (s1 & _ & ->).
  rewrite persist_all_state. by eauto.
Qed.

(** X4. After every run from a reachable state, each of the five files of
    the data directory holds what [save_df_to_file] writes for the table
    the session holds at that moment: the directory is never behind the
    session. *)
Theorem data_directory_in_step s a :
  reachable s →
  let s' := step s a in
  fs s' !! PARTNERS_FILE = Some (file_content (partners_df s')) ∧
  fs s' !! MESSAGES_FILE = Some (file_content (message_logs s')) ∧
  fs s' !! FEEDBACK_FILE = Some (file_content (feedback_df s')) ∧
  fs s' !! REMINDERS_FILE = Some (file_content (reminders_df s')) ∧
  fs s' !! OUTBOX_FILE = Some (file_content (outbox_df s')).
Proof.
  intros Hok%reachable_reminders_ok. cbv zeta. unfold step.
  destruct (run_completes a s Hok) as (s1 & _ & ->).
  apply persist_all_in_sync.
Qed.

(** ** Restarting the app *)

(** What [save_df_to_file] wrote for a table of the expected shape is
    loaded as a table with the expected columns and the same records. *)
Lemma load_file_content cols T files F :
  faithful_json P → cols ≠ [] → shaped cols T →
  files !! F = Some (file_content T) →
  pd.columns (load_df_from_file files F (Some cols)) = cols ∧
  pd.to_dict (load_df_from_file files F (Some cols)) = pd.to_dict T.
Proof.
  intros [Hjson Hdump] Hne Hshape Hfile.
  assert (read_json P (file_content T) = Some (pd.DataFrame_records (pd.to_dict T))) as Hread.
  { unfold file_content. destruct (to_json P T) as [c|] eqn:Hto; [by apply Hjson|apply Hdump]. }
  split.
  { apply load_df_from_file_columns; [done|]. right. exists (file_content T).
    split; [done|]. left. by rewrite Hread. }
  unfold load_df_from_file. rewrite Hfile, Hread. simpl.
  destruct Hshape as [<- | ->].
  - by destruct (expect_records T) as (T' & -> & _ & ->).
  - assert (given (Some cols) = Some cols) as Hg by (by destruct cols).
    unfold expect. rewrite Hg.
    destruct (to_dict_select cols (backfill cols (pd.DataFrame_records (pd.to_dict pd.DataFrame_empty))))
      as (T' & -> & _ & ->); [apply backfill_columns_sub|].
    by rewrite backfill_no_rows.
Qed.


(** ** What the forms add *)

(** X6. The three forms that add a record.  In a reachable state, "Add
    Partner", "Submit Feedback" and "Add Reminder" with their required
    fields filled in append exactly the record of the form to their table
    and keep every record that was there, in order; with a required field
    left empty the table stays as it is. *)
Theorem forms_append_one_record s :
  reachable s →
  (∀ name role langs contact campaign,
     pd.to_dict (partners_df (step s (AddPartner name role langs contact campaign))) =
       if decide (name = "") then pd.to_dict (partners_df s)
       else pd.to_dict (partners_df s) ++ [new_partner name role langs contact campaign]) ∧
  (∀ fname fmsg flang,
     pd.to_dict (feedback_df (step s (SubmitFeedback fname fmsg flang))) =
       if decide (fname = "" ∨ fmsg = "") then pd.to_dict (feedback_df s)
       else pd.to_dict (feedback_df s) ++ [new_fb fname fmsg flang (now P (ext s)).1]) ∧
  (∀ task due_date assigned_to,
     pd.to_dict (reminders_df (step s (AddReminder task due_date assigned_to))) =
       if decide (task = "" ∨ assigned_to = "") then pd.to_dict (reminders_df s)
       else pd.to_dict (reminders_df s) ++ [new_reminder task due_date assigned_to]).
Proof.
  intros (Hp & _ & Hf & Hr & _)%reachable_shaped. split_and!.
  - intros name role langs contact campaign.
    destruct (step_handle s (AddPartner name role langs contact campaign))
      as (s1 & Hs1 & -> & _). subst s1. cbn [handle].
    case_decide as Hn; [by subst|].
    rewrite add_partner_state by done. cbn [snd partners_df].
    apply (concat_record_dict partners_columns); [done|distinct|done].
  - intros fname fmsg flang.
    destruct (step_handle s (SubmitFeedback fname fmsg flang))
      as (s1 & Hs1 & _ & _ & -> & _). subst s1. cbn [handle].
    case_decide as Hn.
    { unfold submit_feedback. by rewrite decide_True. }
    assert (fname ≠ "" ∧ fmsg ≠ "") as [Hn' Hm] by (split; intros ->; apply Hn; auto).
    destruct (submit_feedback_state fname fmsg flang s Hn' Hm) as (date & x & <- & ->).
    cbn [snd feedback_df].
    apply (concat_record_dict feedback_columns); [done|distinct|done].
  - intros task due_date assigned_to.
    destruct (step_handle s (AddReminder task due_date assigned_to))
      as (s1 & Hs1 & _ & _ & _ & -> & _). subst s1. cbn [handle].
    rewrite add_reminder_reminders. case_decide; [done|].
    apply (concat_record_dict reminders_columns); [done|distinct|done].
Qed.

(** X7. "Send Now" with a recipient and a text, in a reachable state: the
    text is translated, and the message either is delivered, by one call to
    the provider, and appended to the message log as one "Sent" record while
    the outbox stays as it is; or it is appended to the outbox as one record
    with zero attempts while the log stays as it is.  It is never both and
    never neither, and without a Twilio client it is queued without any
    call to the provider. *)
Theorem send_now_logs_or_queues recipient msg_text msg_type msg_lang s :
  reachable s → recipient ≠ "" → msg_text ≠ "" →
  let s' := step s (SendNow recipient msg_text msg_type msg_lang) in
  ∃ translated date,
    (safe_translate msg_text msg_lang s).1 = Ok translated ∧
    ((pd.to_dict (message_logs s') =
        pd.to_dict (message_logs s)
          ++ [log_row recipient translated msg_lang date (kind_of msg_type)] ∧
      outbox_df s' = outbox_df s ∧
      (∃ c, dispatched s' = dispatched s ++ [c]) ∧
      is_Some (get_twilio_client P))
     ∨
     (pd.to_dict (outbox_df s') =
        pd.to_dict (outbox_df s)
          ++ [outbox_row (VStr recipient) (VStr translated) (VStr msg_lang)
                         (VStr (kind_of msg_type)) date] ∧
      message_logs s' = message_logs s ∧
      (dispatched s' = dispatched s ∨ ∃ c, dispatched s' = dispatched s ++ [c]) ∧
      (get_twilio_client P = None → dispatched s' = dispatched s))).
Proof.
  intros (_ & Hl & _ & _ & Ho)%reachable_shaped Hr Ht. cbv zeta.
  destruct (step_handle s (SendNow recipient msg_text msg_type msg_lang))
    as (s1 & Hs1 & _ & -> & _ & _ & -> & _ & ->). subst s1. cbn [handle].
  destruct (send_now_state recipient msg_text msg_type msg_lang s Hr Ht)
    as (translated & x & d & date & Htr & Hnone & [[Hd ->]|[Hd ->]]);
    exists translated, date; (split; [done|]);
    cbn [snd message_logs outbox_df dispatched]; [left|right]; split_and!; try done.
  - apply (concat_record_dict message_logs_columns); [done|distinct|done].
  - destruct (get_twilio_client P) as [client|]; [done|].
    destruct Hd as [c Hd]. rewrite Hnone in Hd by done.
    apply (f_equal length) in Hd. rewrite length_app in Hd. simpl in Hd. lia.
  - apply (concat_record_dict outbox_columns); [done|distinct|done].
Qed.

(** ** A drain accounts for every entry *)

Lemma dispatch_attempt cols row : one_attempt (P:=P) (dispatch cols row).
Proof.
  unfold dispatch. destruct (py_eq _ _);
    [apply safe_send_sms_attempt|apply safe_make_call_attempt].
Qed.

Lemma dispatch_offline cols row s :
  get_twilio_client P = None → dispatch cols row s = (Ok (false, NOT_CONFIGURED), s).
Proof.
  intros Hnone. unfold dispatch.
  destruct (py_eq _ _); rewrite ?safe_send_sms_spec, ?safe_make_call_spec; by rewrite Hnone.
Qed.

Lemma length_reindex (rs : list pd.Row) : length (pd.reindex rs) = length rs.
Proof. by rewrite <- (length_fmap fst), labels_reindex, length_seq. Qed.

Lemma length_concat_record T (row : PyDict) :
  length (pd.rows (pd.concat T (pd.DataFrame_records [row]))) = S (length (pd.rows T)).
Proof.
  unfold pd.concat. cbn [pd.rows]. rewrite length_reindex, length_app, !length_map.
  rewrite ?length_fmap. simpl. lia.
Qed.

Lemma bump_exhausted max idx row a :
  pd.cell row "Attempts" = VInt a → a >= max → bump max (idx, row) = (idx, row).
Proof. intros Ha Hmax. unfold bump. simpl. rewrite Ha. by rewrite decide_True. Qed.

Lemma bump_again max idx row a :
  pd.cell row "Attempts" = VInt a → ¬ a >= max →
  bump max (idx, row) = (idx, <["Attempts" := VInt (a + 1)]> row).
Proof. intros Ha Hmax. unfold bump. simpl. rewrite Ha. by rewrite decide_False. Qed.

Lemma sweep_account max cols todo : ∀ K rest res s,
  pd.rows (outbox_df s) = K ++ todo ++ rest →
  NoDup (K ++ todo ++ rest).*1 →
  pd.columns (outbox_df s) = cols →
  "Recipient" ∈ cols → "Message" ∈ cols → "Attempts" ∈ cols →
  Forall (λ ir, ∃ a, pd.cell ir.2 "Attempts" = VInt a) todo →
  ∃ res' s' calls,
    for_each (process_row max cols) todo res s = (Ok (res ++ res'), s') ∧
    pd.rows (outbox_df s') = K ++ survivors max todo res' ++ rest ∧
    pd.columns (outbox_df s') = cols ∧
    length res' = length todo ∧
    length (pd.rows (message_logs s')) =
      (length (pd.rows (message_logs s)) + length (delivered res'))%nat ∧
    dispatched s' = dispatched s ++ calls ∧
    (length (delivered res') ≤ length calls ≤ length todo)%nat ∧
    (get_twilio_client P = None →
       res' = map (offline_result max) todo ∧
       message_logs s' = message_logs s ∧ calls = [] ∧ ext s' = ext s).
Proof.
  induction todo as [|[idx row] todo IH];
    intros K rest res s Hrows Hnd Hcols HR HM HA Hint.
  { exists [], s, []. rewrite !app_nil_r. split_and!; try done; simpl; lia. }
  apply Forall_cons in Hint as [[a Ha] Hint]. cbn [snd] in Ha.
  assert (NoDup (pd.labels (outbox_df s))) as Hnd'.
  { unfold pd.labels. by rewrite Hrows. }
  cbn [for_each]. unfold bind at 1.
  rewrite (process_row_step max cols K idx row (todo ++ rest) res s a) by done.
  assert (∀ row', NoDup ((K ++ [(idx, row')]) ++ todo ++ rest).*1) as Hnd1.
  { intros row'. rewrite <-app_assoc. by rewrite !fmap_app, !fmap_cons in *. }
  assert (NoDup (K ++ todo ++ rest).*1) as Hnd2.
  { rewrite !fmap_app, !fmap_cons in *.
    apply NoDup_app in Hnd as (? & Hdisj & [? ?]%NoDup_cons).
    apply NoDup_app. split_and!; [done| |done].
    intros x Hx Hx'. apply (Hdisj x Hx). by constructor. }
  destruct (decide (a >= max)) as [Hmax|Hmax].
  - (* attempts used up: the row stays as it is, nothing is dispatched *)
    destruct (IH (K ++ [(idx, row)]) rest (res ++ [(idx, false, MAX_REACHED)]) s)
      as (res' & s' & calls & Hrun & Hrows' & Hcols' & Hlen & Hlog & Hcalls & Hbound & Hoff);
      [by rewrite <-app_assoc|done..|].
    exists ((idx, false, MAX_REACHED) :: res'), s', calls.
    rewrite Hrun, <-!app_assoc in *. split_and!; try done;
      try (rewrite ?delivered_cons, ?length_app; simpl in *; lia).
    + unfold survivors. cbn [zip_with mjoin list_join survivor fst snd].
      by rewrite (bump_exhausted max idx row a).
    + intros Hnone. destruct (Hoff Hnone) as (-> & ? & ? & ?). split_and!; try done.
      cbn [map]. f_equal. unfold offline_result. cbn [fst snd]. rewrite Ha.
      by rewrite decide_True.
  - destruct (dispatch_attempt cols row s) as (ok & info & x & d & Hd & Hdd & Hok & Hnone).
    rewrite Hd. destruct ok.
    + (* delivered: the row goes, one record joins the log *)
      destruct (Hok eq_refl) as [c ->].
      simpl ext. destruct (now P x) as [date x'] eqn:Hnow.
      match goal with |- context [for_each _ _ _ ?st] => set (s1 := st) end.
      destruct (IH K rest (res ++ [(idx, true, info)]) s1)
        as (res' & s' & calls & Hrun & Hrows' & Hcols' & Hlen & Hlog & Hcalls & Hbound & Hoff);
        [done..|].
      exists ((idx, true, info) :: res'), s', (c :: calls).
      rewrite Hrun, <-!app_assoc in *. split_and!; try done;
      try (rewrite ?delivered_cons, ?length_app; simpl in *; lia).
      * rewrite Hlog, delivered_cons. subst s1. cbn [message_logs].
        rewrite length_concat_record. simpl. lia.
      * rewrite Hcalls. subst s1. cbn [dispatched with_world]. by rewrite <- app_assoc.
      * intros Hno. by destruct (Hnone Hno) as [[=] _].
    + (* not delivered: the row stays, with one more attempt *)
      match goal with |- context [for_each _ _ _ ?st] => set (s1 := st) end.
      destruct (IH (K ++ [(idx, <["Attempts" := VInt (a + 1)]> row)]) rest
                   (res ++ [(idx, false, info)]) s1)
        as (res' & s' & calls & Hrun & Hrows' & Hcols' & Hlen & Hlog & Hcalls & Hbound & Hoff);
        [by subst s1; simpl; rewrite <-app_assoc|done..|].
      assert (∃ d', d = dispatched s ++ d' ∧ (length d' ≤ 1)%nat) as (d' & -> & Hd').
      { destruct Hdd as [->|[c ->]]; [exists []|exists [c]];
          (split; [by rewrite ?app_nil_r|simpl; lia]). }
      exists ((idx, false, info) :: res'), s', (d' ++ calls).
      rewrite Hrun, <-!app_assoc in *. split_and!; try done;
      try (rewrite ?delivered_cons, ?length_app; simpl in *; lia).
      * unfold survivors. cbn [zip_with mjoin list_join survivor fst snd].
        by rewrite (bump_again max idx row a).
      * rewrite Hcalls. subst s1. cbn [dispatched with_world]. by rewrite <- app_assoc.
      * intros Hno. destruct (Hoff Hno) as (-> & Hlogs & -> & Hext).
        destruct (Hnone Hno) as (_ & Hx & Hdis).
        rewrite (dispatch_offline cols row s Hno) in Hd.
        assert (info = NOT_CONFIGURED) as -> by congruence.
        apply (f_equal length) in Hdis. rewrite length_app in Hdis.
        destruct d' as [|? ?]; [|simpl in Hdis; lia].
        split_and!; try done.
        -- cbn [map]. f_equal. unfold offline_result. cbn [fst snd]. rewrite Ha.
           by rewrite decide_False.
        -- by rewrite Hext.
Qed.

Lemma survivors_length max rows res :
  length res = length rows →
  (length (survivors max rows res) + length (delivered res) = length rows)%nat.
Proof.
  revert res. induction rows as [|ir rows IH]; intros [|[[i ok] info] res] [=]; [done|].
  unfold survivors in *. cbn [zip_with mjoin list_join]. rewrite length_app, delivered_cons.
  specialize (IH res ltac:(done)).
  set (L := mjoin (zip_with (survivor max) rows res)) in *.
  unfold survivor. destruct ok; simpl in *; lia.
Qed.

Lemma survivors_offline max rows :
  survivors max rows (map (offline_result max) rows) = map (bump max) rows.
Proof.
  unfold survivors. induction rows as [|ir rows IH]; [done|].
  simpl in *. by rewrite IH.
Qed.

(** One drain of a well-formed outbox, entry by entry. *)
Lemma process_outbox_account max s :
  outbox_wf (outbox_df s) →
  ∃ res s' calls,
    process_outbox max s = (Ok res, s') ∧
    res.*1.*1 = pd.labels (outbox_df s) ∧
    pd.rows (outbox_df s') = survivors max (pd.rows (outbox_df s)) res ∧
    pd.columns (outbox_df s') = pd.columns (outbox_df s) ∧
    length (pd.rows (message_logs s')) =
      (length (pd.rows (message_logs s)) + length (delivered res))%nat ∧
    dispatched s' = dispatched s ++ calls ∧
    (length (delivered res) ≤ length calls ≤ length (pd.rows (outbox_df s)))%nat ∧
    (get_twilio_client P = None →
       res = map (offline_result max) (pd.rows (outbox_df s)) ∧
       message_logs s' = message_logs s ∧ calls = [] ∧ ext s' = ext s).
Proof.
  intros Hwf. pose proof Hwf as (Hnd & HR & HM & HA & Hint).
  unfold process_outbox. unfold bind at 1, gets at 1.
  destruct (pd.empty (outbox_df s)) eqn:He.
  { assert (pd.rows (outbox_df s) = []) as Hrows.
    { unfold pd.empty in He. apply bool_decide_eq_true in He as [?|Hc]; [done|].
      rewrite Hc in HR. by apply elem_of_nil in HR. }
    exists [], s, []. unfold pd.labels. rewrite Hrows, app_nil_r.
    split_and!; try done; simpl; lia. }
  destruct (sweep_spec max (pd.columns (outbox_df s)) (pd.rows (outbox_df s)) [] [] [] s)
    as (res0 & K & s0 & Hrun0 & _ & _ & _ & _ & Hlabels & _); try done.
  { by rewrite app_nil_r. }
  { by rewrite app_nil_r. }
  destruct (sweep_account max (pd.columns (outbox_df s)) (pd.rows (outbox_df s)) [] [] [] s)
    as (res & s1 & calls & Hrun & Hrows & Hcols & Hlen & Hlog & Hcalls & Hbound & Hoff);
    try done.
  { by rewrite app_nil_r. }
  { by rewrite app_nil_r. }
  assert (res0 = res ∧ s0 = s1) as [-> ->].
  { rewrite Hrun0 in Hrun. simpl in Hrun. by injection Hrun. }
  unfold bind at 1. rewrite Hrun0. simpl. exists res, (persisted s1), calls.
  rewrite app_nil_r in Hrows. split; [done|]. simpl. split_and!; try done; lia.
Qed.



(** ** Attempt counts along a session *)

Lemma bump_within max ir :
  (∃ a, pd.cell ir.2 "Attempts" = VInt a ∧ 0 ≤ a ≤ max) →
  ∃ a, pd.cell (bump max ir).2 "Attempts" = VInt a ∧ 0 ≤ a ≤ max.
Proof.
  intros (a & Ha & Hrange). unfold bump. rewrite Ha.
  case_decide; [by exists a|]. exists (a + 1). split; [|lia].
  unfold pd.cell. simpl. by rewrite lookup_insert_eq.
Qed.

Lemma survivors_within max rows res :
  Forall (λ ir, ∃ a, pd.cell ir.2 "Attempts" = VInt a ∧ 0 ≤ a ≤ max) rows →
  Forall (λ ir, ∃ a, pd.cell ir.2 "Attempts" = VInt a ∧ 0 ≤ a ≤ max) (survivors max rows res).
Proof.
  intros Hrows. revert res. unfold survivors.
  induction Hrows as [|ir rows Hir _ IH]; intros [|r res]; try done.
  cbn [zip_with mjoin list_join]. apply Forall_app. split; [|apply IH].
  unfold survivor. destruct r.1.2; [done|].
  apply Forall_cons. split; [by apply bump_within|done].
Qed.

Lemma enqueue_within max df recipient message language msg_type created :
  shaped outbox_columns df → 0 ≤ max →
  attempts_within max df →
  attempts_within max
    (pd.concat df
       (pd.DataFrame_records [outbox_row recipient message language msg_type created])).
Proof.
  intros Hshape Hmax Hrows. unfold attempts_within, pd.concat. cbn [pd.rows].
  apply (Forall_reindex (λ r, ∃ a, pd.cell r "Attempts" = VInt a ∧ 0 ≤ a ≤ max)).
  apply Forall_app. split.
  - destruct Hshape as [Hc| ->]; [|done]. rewrite Hc.
    apply Forall_fmap, Forall_fmap. eapply Forall_impl; [exact Hrows|].
    intros [i r] (a & Ha & Hrange). exists a. simpl in *.
    rewrite cell_restrict; [done|]. unfold outbox_columns. in_list.
  - apply Forall_cons. split; [|done]. exists 0. split; [|lia].
    change (pd.columns (pd.DataFrame_records
              [outbox_row recipient message language msg_type created]))
      with outbox_columns. cbn [map].
    rewrite cell_restrict by (unfold outbox_columns; in_list).
    unfold pd.cell, outbox_row. by simplify_map_eq.
Qed.

Lemma step_attempts_within s a :
  outbox_inv (outbox_df s) → attempts_within 3 (outbox_df s) →
  attempts_within 3 (outbox_df (step s a)).
Proof.
  intros Hinv Hwithin.
  destruct (step_handle s a) as (s1 & Hs1 & _ & _ & _ & _ & -> & _). subst s1.
  pose proof (handle_keeps_messaging a s) as Hk.
  destruct a as [r t k l|n r ls c g|n m l|t d w|k| | |x];
    try (destruct Hk as (_ & Hk & _); [done..|]; by rewrite Hk); clear Hk; cbn [handle].
  - destruct (decide (r = "")) as [->|Hr]; [done|].
    destruct (decide (t = "")) as [->|Ht].
    { unfold send_now. by rewrite decide_True by (by right). }
    destruct (send_now_state r t k l s Hr Ht)
      as (tr & x & d & date & _ & _ & [[_ ->]|[_ ->]]); cbn [snd outbox_df]; [done|].
    apply enqueue_within; [|done..]. by destruct Hinv as (_ & _ & ?).
  - unfold outbox_page, try_except, bind.
    destruct (pd.rows (outbox_df s)) as [|ir rs] eqn:Hrows.
    { destruct (process_outbox_inv 3 s Hinv) as (res & s' & Hrun & _).
      assert (process_outbox 3 s = (Ok [], s)) as ->; [|done].
      unfold process_outbox, bind, gets, pd.empty.
      rewrite bool_decide_eq_true_2; [done|]. by left. }
    assert (outbox_wf (outbox_df s)) as Hwf.
    { apply outbox_inv_wf; [done|]. by rewrite Hrows. }
    destruct (process_outbox_account 3 s Hwf) as (res & s' & calls & -> & _ & Hrows' & _).
    simpl. unfold attempts_within in *. rewrite Hrows'.
    by apply survivors_within.
Qed.

(** X10. In a session that found no outbox file, whatever the user does,
    every queued entry has an integer attempt count between 0 and 3 (the
    [max_attempts] of the Outbox page), and a drain of the outbox at any
    point of the session returns: "Error while processing outbox." is never
    shown. *)
Theorem attempts_stay_within_three files x (actions : list (Action P)) :
  files !! OUTBOX_FILE = None →
  let s := foldl step (startup files x) actions in
  Forall (λ ir, ∃ a, pd.cell ir.2 "Attempts" = VInt a ∧ 0 ≤ a ≤ 3) (pd.rows (outbox_df s)) ∧
  ∀ max, ∃ res s', process_outbox max s = (Ok res, s').
Proof.
  intros Hfile. cbv zeta.
  assert (outbox_inv (outbox_df (foldl step (startup files x) actions)) ∧
          attempts_within 3 (outbox_df (foldl step (startup files x) actions))) as [Hinv Hw].
  { induction actions as [|a actions IH] using rev_ind.
    - split; [by apply startup_outbox_inv|].
      cbn [foldl startup outbox_df]. unfold load_df_from_file. rewrite Hfile.
      by apply Forall_nil.
    - rewrite foldl_app. cbn [foldl]. destruct IH as [Hinv Hw].
      split; [by apply step_outbox_inv|by apply step_attempts_within]. }
  split; [done|]. intros max.
  destruct (process_outbox_inv max _ Hinv) as (res & s' & Hrun & _). by eauto.
Qed.

(** ** What a load makes of a file that parses *)

Lemma set_column_rows c v df :
  pd.rows (pd.set_column c v df) = map (λ ir, (ir.1, <[c := v]> ir.2)) (pd.rows df).
Proof. done. Qed.

Lemma set_column_new c v df :
  c ∉ pd.columns df → pd.columns (pd.set_column c v df) = pd.columns df ++ [c].
Proof. intros Hc. unfold pd.set_column. simpl. by rewrite decide_False. Qed.

Lemma backfill_cells cols : ∀ df,
  Forall2 (λ old new,
             new.1 = old.1 ∧
             ∀ c, pd.cell new.2 c =
                    if decide (c ∈ cols ∧ c ∉ pd.columns df) then VStr ""
                    else pd.cell old.2 c)
          (pd.rows df) (pd.rows (backfill cols df)).
Proof.
  unfold backfill. induction cols as [|c0 cols IH]; intros df.
  { apply Forall_Forall2_diag, Forall_forall. intros ir _. split; [done|].
    intros c. rewrite decide_False; [done|]. intros [[]%elem_of_nil _]. }
  cbn [foldl]. destruct (decide (c0 ∈ pd.columns df)) as [Hin|Hout].
  - eapply Forall2_impl; [apply IH|]. intros old new [Hl Hc]. split; [done|].
    intros c. rewrite Hc. apply decide_ext. split.
    + intros [? ?]. split; [by constructor|done].
    + intros [[->|?]%elem_of_cons ?]; done.
  - specialize (IH (pd.set_column c0 (VStr "") df)).
    rewrite set_column_rows in IH.
    apply Forall2_fmap_l in IH. eapply Forall2_impl; [exact IH|].
    intros old new [Hl Hc]. simpl in Hl. split; [done|].
    intros c. rewrite Hc. rewrite set_column_new by done.
    destruct (decide (c = c0)) as [->|Hne].
    + rewrite decide_False.
      2: { intros [_ Hn]. apply Hn, elem_of_app. right. constructor. }
      rewrite decide_True by (split; [constructor|done]).
      unfold pd.cell. simpl. by rewrite lookup_insert_eq.
    + assert (pd.cell (old.1, <[c0:=VStr ""]> old.2).2 c = pd.cell old.2 c) as ->.
      { unfold pd.cell. simpl. by rewrite lookup_insert_ne. }
      apply decide_ext. split.
      * intros [? Hn]. split; [by constructor|]. intros ?. apply Hn, elem_of_app. by left.
      * intros [[->|?]%elem_of_cons Hn]; [done|]. split; [done|].
        intros [?|[->|[]%elem_of_nil]%elem_of_cons]%elem_of_app; done.
Qed.

Lemma expect_rows cols df :
  cols ≠ [] →
  ∃ T, expect (Some cols) df = Some T ∧
       pd.columns T = cols ∧
       Forall2 (λ old new,
                  new.1 = old.1 ∧
                  (∀ c, c ∈ cols →
                        pd.cell new.2 c =
                          if decide (c ∈ pd.columns df) then pd.cell old.2 c else VStr "") ∧
                  (∀ c, c ∉ cols → new.2 !! c = None))
               (pd.rows df) (pd.rows T).
Proof.
  intros Hne. assert (given (Some cols) = Some cols) as Hg by (by destruct cols).
  unfold expect. rewrite Hg. unfold pd.select.
  rewrite decide_True by apply backfill_columns_sub.
  eexists. split; [done|]. split; [done|]. cbn [pd.rows].
  apply Forall2_fmap_r. eapply Forall2_impl; [apply backfill_cells|].
  intros old new [Hl Hc]. simpl. split_and!; [done| |].
  - intros c Hin. rewrite cell_restrict by done. rewrite Hc.
    destruct (decide (c ∈ pd.columns df)).
    + rewrite decide_False; [done|]. by intros [_ ?].
    + by rewrite decide_True.
  - intros c Hout. unfold pd.restrict. apply map_lookup_filter_None. right.
    intros v _. done.
Qed.

Lemma load_parsed files path c df cols :
  files !! path = Some c → parsed c = Some df → cols ≠ [] →
  Some (load_df_from_file files path (Some cols)) = expect (Some cols) df.
Proof.
  intros Hfile Hparsed Hne. unfold load_df_from_file, parsed in *. rewrite Hfile.
  destruct (read_json P c) as [df0|] eqn:Hread; simpl.
  - injection Hparsed as ->.
    by destruct (expect_rows cols df Hne) as (T & -> & _).
  - destruct (json_load P c) as [recs|]; simpl in *; [|done]. rewrite Hparsed. simpl.
    by destruct (expect_rows cols df Hne) as (T & -> & _).
Qed.

Lemma load_rows files path c df cols :
  files !! path = Some c → parsed c = Some df → cols ≠ [] →
  pd.columns (load_df_from_file files path (Some cols)) = cols ∧
  Forall2 (λ old new,
             new.1 = old.1 ∧
             (∀ k, k ∈ cols →
                   pd.cell new.2 k =
                     if decide (k ∈ pd.columns df) then pd.cell old.2 k else VStr "") ∧
             (∀ k, k ∉ cols → new.2 !! k = None))
          (pd.rows df) (pd.rows (load_df_from_file files path (Some cols))).
Proof.
  intros Hfile Hparsed Hne.
  pose proof (load_parsed files path c df cols Hfile Hparsed Hne) as Hload.
  destruct (expect_rows cols df Hne) as (T & HT & Hcols & Hrows).
  rewrite HT in Hload. injection Hload as ->. done.
Qed.

(** X11. A load of a file that one of the two parsers reads, with the
    expected columns [cols]: the table has exactly the columns [cols]; it
    has the rows of the file, in order and under their labels; in each row a
    cell under an expected column that the file has is the file's cell, a
    cell under an expected column that the file lacks is the empty string,
    and what the file holds under any other column is dropped. *)
Theorem load_projects_and_backfills files path c df cols :
  files !! path = Some c → parsed c = Some df → cols ≠ [] →
  let T := load_df_from_file files path (Some cols) in
  pd.columns T = cols ∧
  Forall2 (λ old new,
             new.1 = old.1 ∧
             (∀ k, k ∈ cols →
                   pd.cell new.2 k =
                     if decide (k ∈ pd.columns df) then pd.cell old.2 k else VStr "") ∧
             (∀ k, k ∉ cols → new.2 !! k = None))
          (pd.rows df) (pd.rows T).
Proof.
  intros Hfile Hparsed Hne. cbv zeta.
  by apply (load_rows files path c).
Qed.

(** X12. An outbox file whose records have no "Attempts" key blocks the
    queue.  The load fills the column with the empty string, [int("")]
    raises, and so every drain of the session just started raises
    ValueError at the first entry, before any provider call, leaving the
    state as it was; the Outbox page catches the exception, and nothing is
    ever sent. *)
Theorem outbox_file_without_attempts files x c df :
  files !! OUTBOX_FILE = Some c → parsed c = Some df →
  "Attempts" ∉ pd.columns df → pd.rows df ≠ [] →
  int_of_str P "" = None →
  let s := startup files x in
  (∀ max, process_outbox max s = (Raise "ValueError", s)) ∧
  outbox_page s = (Ok tt, s).
Proof.
  intros Hfile Hparsed Hcol Hrows Hint. cbv zeta.
  assert (outbox_columns ≠ []) as Hne by done.
  destruct (load_rows files OUTBOX_FILE c df outbox_columns
              Hfile Hparsed Hne) as [Hcols Hcells].
  assert (∀ max, process_outbox max (startup files x)
                 = (Raise "ValueError", startup files x)) as Hrun.
  { intros max. unfold process_outbox. unfold bind at 1, gets at 1.
    cbn [startup outbox_df] in *.
    destruct (pd.rows df) as [|old olds]; [done|].
    destruct (load_df_from_file files OUTBOX_FILE (Some outbox_columns)) as [cols rs].
    cbn [pd.rows pd.columns] in *. subst cols.
    apply Forall2_cons_inv_l in Hcells as ([idx row] & rs' & (_ & Hcell & _) & _ & ->).
    unfold pd.empty. rewrite bool_decide_eq_false_2 by (by intros [?|?]).
    cbn [pd.rows pd.columns for_each]. unfold bind at 1. unfold bind at 1.
    unfold process_row. unfold bind at 1.
    unfold pd.Series_get. rewrite decide_True by (unfold outbox_columns; in_list).
    cbn [snd] in Hcell. rewrite Hcell by (unfold outbox_columns; in_list).
    rewrite decide_False by done. unfold py_int. by rewrite Hint. }
  split; [done|]. unfold outbox_page, try_except, bind. by rewrite Hrun.
Qed.

(** X23. An outbox file whose records have no "Type" key turns a queued
    SMS into a voice call.  The load fills the column with the empty
    string, so the default of [row.get("Type", "sms")] never applies, the
    empty string is not "sms", and the drain dispatches the entry with
    [safe_make_call]: the one call made to the provider is a voice call
    that says the message. *)
Theorem outbox_file_without_type files x c df old a max client from_ :
  files !! OUTBOX_FILE = Some c → parsed c = Some df →
  pd.rows df = [old] →
  "Type" ∉ pd.columns df →
  "Recipient" ∈ pd.columns df → "Message" ∈ pd.columns df → "Attempts" ∈ pd.columns df →
  pd.cell old.2 "Attempts" = VInt a → a < max →
  get_twilio_client P = Some client →
  (∀ s, from_number s = (Ok from_, s)) →
  let s := startup files x in
  ∃ res s',
    process_outbox max s = (Ok res, s') ∧
    dispatched s' =
      [VoiceCall ("<Response><Say>" +:+ py_str (pd.cell old.2 "Message")
                    +:+ "</Say></Response>")
                 from_ (pd.cell old.2 "Recipient")].
Proof.
  intros Hfile Hparsed Hrows Htype HR HM HA Ha Hmax Hclient Hfrom. cbv zeta.
  assert (outbox_columns ≠ []) as Hne by done.
  destruct (load_rows files OUTBOX_FILE c df outbox_columns Hfile Hparsed Hne)
    as [Hcols Hcells].
  rewrite Hrows in Hcells.
  apply Forall2_cons_inv_l in Hcells as ([idx row] & rs & (_ & Hcell & _) & Hnil & Hload).
  apply Forall2_nil_inv_l in Hnil as ->. cbn [snd] in Hcell.
  assert (pd.cell row "Type" = VStr "") as Ht.
  { rewrite Hcell by (unfold outbox_columns; in_list). by rewrite decide_False. }
  assert (pd.cell row "Attempts" = VInt a) as Hat.
  { rewrite Hcell by (unfold outbox_columns; in_list). by rewrite decide_True. }
  assert (pd.cell row "Message" = pd.cell old.2 "Message") as Hmsg.
  { rewrite Hcell by (unfold outbox_columns; in_list). by rewrite decide_True. }
  assert (pd.cell row "Recipient" = pd.cell old.2 "Recipient") as Hrec.
  { rewrite Hcell by (unfold outbox_columns; in_list). by rewrite decide_True. }
  set (s := startup files x).
  assert (outbox_df s = load_df_from_file files OUTBOX_FILE (Some outbox_columns)) as Hout
    by done.
  rewrite <- Hout in Hcols, Hload.
  rewrite (process_outbox_at max s [] (idx, row) []); [|by rewrite Hcols|done].
  cbn [for_each]. unfold ret at 1.
  rewrite (process_row_step max (pd.columns (outbox_df s)) [] idx row [] [] s a);
    [|done|unfold pd.labels; rewrite Hload; apply NoDup_singleton|done
     |rewrite Hcols; unfold outbox_columns; in_list..|done].
  rewrite decide_False by lia.
  unfold dispatch, pd.Series_get.
  rewrite decide_True by (rewrite Hcols; unfold outbox_columns; in_list).
  rewrite Ht. change (py_eq (VStr "") (VStr "sms")) with false. cbv iota.
  rewrite safe_make_call_spec, Hclient, Hfrom, Hmsg, Hrec. cbv zeta.
  destruct (calls_create _ _ _ _ _ _) as [[sid|err] x1]; simpl.
  - destruct (now P x1) as [date x2]. simpl. by eauto.
  - by eauto.
Qed.

(** ** An incomplete Twilio section *)


(** ** Reminders and the dashboard *)

Lemma count_cons {A} (f : A → bool) x l :
  length (filter (λ y, f y = true) (x :: l)) =
    ((if f x then 1 else 0) + length (filter (λ y, f y = true) l))%nat.
Proof.
  rewrite filter_cons. destruct (f x) eqn:Hx; [by rewrite decide_True|].
  by rewrite decide_False.
Qed.

Lemma count_elem {A} (f : A → bool) x l :
  x ∈ l → f x = true → (1 ≤ length (filter (λ y, f y = true) l))%nat.
Proof.
  intros Hin Hx. assert (x ∈ filter (λ y, f y = true) l) as Hf.
  { by apply list_elem_of_filter. }
  destruct (filter _ l); [by apply elem_of_nil in Hf|simpl; lia].
Qed.

Lemma py_eq_refl v : v ≠ VNaN → py_eq v v = true.
Proof. destruct v; [by intros; apply bool_decide_eq_true..|done]. Qed.

Lemma py_eq_eq a b : py_eq a b = true → a = b.
Proof.
  destruct a, b; simpl; try done; intros H%bool_decide_eq_true; by subst.
Qed.

Lemma status_count_statuses v df :
  status_count v df = length (filter (λ w, py_eq w v = true) (statuses df)).
Proof.
  unfold status_count, statuses. induction (pd.rows df) as [|ir l IH]; [done|].
  rewrite map_cons. rewrite (count_cons (λ ir, py_eq (pd.cell ir.2 "Status") v)).
  rewrite (count_cons (λ w, py_eq w v)). by rewrite IH.
Qed.

Lemma reminder_metrics_counts s :
  reminders_ok (reminders_df s) →
  reminder_metrics s =
    (Ok (if pd.empty (reminders_df s) then None
         else Some (status_count (VStr "Pending") (reminders_df s),
                    status_count (VStr "Completed") (reminders_df s))), s).
Proof.
  intros Hok. unfold reminder_metrics, bind, gets.
  destruct (pd.empty (reminders_df s)) eqn:He; [done|].
  destruct Hok as [Hrows|[_ HS]].
  { unfold pd.empty in He. rewrite bool_decide_eq_true_2 in He; [done|by left]. }
  unfold len_where. by rewrite !decide_True by done.
Qed.

Lemma complete_row_status selected ir :
  pd.cell (complete_row selected ir).2 "Status" =
    if py_eq (pd.cell ir.2 "Task") selected then VStr "Completed"
    else pd.cell ir.2 "Status".
Proof.
  unfold complete_row. destruct (py_eq _ _); [|done].
  unfold pd.cell. simpl. by rewrite lookup_insert_eq.
Qed.

Lemma complete_row_task selected ir :
  pd.cell (complete_row selected ir).2 "Task" = pd.cell ir.2 "Task".
Proof.
  unfold complete_row. destruct (py_eq _ _); [|done].
  unfold pd.cell. simpl. by rewrite lookup_insert_ne.
Qed.

Lemma mark_counts selected cols rows :
  let before := pd.mk cols rows in
  let after := pd.mk cols (map (complete_row selected) rows) in
  let hits := filter (λ ir, py_eq (pd.cell ir.2 "Task") selected
                            && py_eq (pd.cell ir.2 "Status") (VStr "Pending") = true) rows in
  (status_count (VStr "Pending") after + length hits
     = status_count (VStr "Pending") before)%nat ∧
  (status_count (VStr "Completed") before + length hits
     ≤ status_count (VStr "Completed") after)%nat.
Proof.
  cbv zeta. unfold status_count. cbn [pd.rows].
  induction rows as [|ir rows [IHp IHc]]; [done|].
  rewrite map_cons.
  rewrite !(count_cons (λ ir, py_eq (pd.cell ir.2 "Status") (VStr "Pending"))).
  rewrite !(count_cons (λ ir, py_eq (pd.cell ir.2 "Status") (VStr "Completed"))).
  rewrite (count_cons (λ ir, py_eq (pd.cell ir.2 "Task") selected
                             && py_eq (pd.cell ir.2 "Status") (VStr "Pending"))).
  rewrite complete_row_status.
  destruct (py_eq (pd.cell ir.2 "Task") selected).
  - change (py_eq (VStr "Completed") (VStr "Pending")) with false.
    change (py_eq (VStr "Completed") (VStr "Completed")) with true.
    destruct (py_eq (pd.cell ir.2 "Status") (VStr "Pending")) eqn:Hp; simpl.
    + apply py_eq_eq in Hp. rewrite Hp.
      change (py_eq (VStr "Pending") (VStr "Completed")) with false. simpl. lia.
    + destruct (py_eq (pd.cell ir.2 "Status") (VStr "Completed")); simpl; lia.
  - simpl.
    destruct (py_eq (pd.cell ir.2 "Status") (VStr "Pending")),
             (py_eq (pd.cell ir.2 "Status") (VStr "Completed")); simpl; lia.
Qed.

Lemma pending_tasks_elem df selected :
  selected ∈ pending_tasks df →
  ∃ ir, ir ∈ pd.rows df ∧
        py_eq (pd.cell ir.2 "Status") (VStr "Pending") = true ∧
        pd.cell ir.2 "Task" = selected.
Proof.
  unfold pending_tasks. intros (ir & -> & [Hp Hin]%list_elem_of_filter)%list_elem_of_fmap.
  by exists ir.
Qed.

Lemma where_tolist_pending df :
  "Status" ∈ pd.columns df → "Task" ∈ pd.columns df →
  pd.where_tolist "Status" (VStr "Pending") "Task" df = Some (pending_tasks df).
Proof. intros HS HT. unfold pd.where_tolist. by rewrite decide_True. Qed.

(** What "Mark Completed" does to the reminders when the select box offers
    the task at position [choice]. *)
Lemma mark_completed_selected choice s selected :
  reminders_ok (reminders_df s) →
  pending_tasks (reminders_df s) !! choice = Some selected →
  reminders_df (step s (MarkCompleted choice)) =
    pd.mk (pd.columns (reminders_df s))
          (map (complete_row selected) (pd.rows (reminders_df s))).
Proof.
  intros Hok Hsel.
  destruct (step_handle s (MarkCompleted choice)) as (s1 & Hs1 & _ & _ & _ & -> & _).
  subst s1. cbn [handle].
  assert (pd.rows (reminders_df s) ≠ []) as Hrows.
  { intros Hnil. unfold pending_tasks in Hsel. by rewrite Hnil in Hsel. }
  destruct Hok as [?|[HT HS]]; [done|].
  unfold mark_completed, bind, gets.
  assert (pd.empty (reminders_df s) = false) as ->.
  { unfold pd.empty. apply bool_decide_eq_false_2. intros [?|Hc]; [done|].
    rewrite Hc in HT. by apply elem_of_nil in HT. }
  rewrite where_tolist_pending by done. simpl. rewrite Hsel.
  by rewrite loc_set_status by done.
Qed.

(** X14. On the dashboard, "Add Reminder" with a task and an assignee
    makes exactly one more pending reminder and leaves the number of
    completed ones as it is; the metrics are then shown (the table is not
    empty) and computing them does not raise. *)
Theorem add_reminder_on_the_dashboard task due_date assigned_to s :
  reachable s → task ≠ "" → assigned_to ≠ "" →
  let s' := step s (AddReminder task due_date assigned_to) in
  reminder_metrics s' =
    (Ok (Some (S (status_count (VStr "Pending") (reminders_df s)),
               status_count (VStr "Completed") (reminders_df s))), s').
Proof.
  intros Hreach Ht Ha. cbv zeta.
  pose proof (reachable_reminders_ok _ (reachable_step s (AddReminder task due_date assigned_to)
                                          Hreach)) as Hok'.
  pose proof (reachable_reminders_ok _ Hreach) as Hok.
  apply reachable_shaped in Hreach as (_ & _ & _ & Hr & _).
  rewrite reminder_metrics_counts by done.
  assert (reminders_df (step s (AddReminder task due_date assigned_to)) =
            pd.concat (reminders_df s)
              (pd.DataFrame_records [new_reminder task due_date assigned_to])) as ->.
  { destruct (step_handle s (AddReminder task due_date assigned_to))
      as (s1 & Hs1 & _ & _ & _ & -> & _). subst s1. cbn [handle].
    rewrite add_reminder_reminders. by rewrite decide_False by (by intros [?|?]). }
  assert (pd.empty (pd.concat (reminders_df s)
            (pd.DataFrame_records [new_reminder task due_date assigned_to])) = false) as ->.
  { unfold pd.empty. apply bool_decide_eq_false_2. intros [Hrows|Hcols].
    - apply (f_equal length) in Hrows. by rewrite length_concat_record in Hrows.
    - destruct (concat_record reminders_columns (reminders_df s)
                  (new_reminder task due_date assigned_to)) as [Hc _]; [done|distinct|done|].
      by rewrite Hc in Hcols. }
  rewrite !status_count_statuses.
  destruct (statuses_concat (reminders_df s) task due_date assigned_to Hok) as [-> _].
  rewrite !filter_app, !length_app.
  change (length (filter (λ w, py_eq w (VStr "Pending") = true) [VStr "Pending"]))
    with 1%nat.
  change (length (filter (λ w, py_eq w (VStr "Completed") = true) [VStr "Pending"]))
    with 0%nat.
  by rewrite Nat.add_1_r, Nat.add_0_r.
Qed.

(** X15. "Mark Completed" on the dashboard.  In a reachable state, when
    the task chosen in the select box is an actual value (not a missing
    one), the number of pending reminders goes down by at least one, the
    number of completed ones goes up by at least as much, the table keeps
    its rows, and the chosen task is no longer among the pending tasks. *)
Theorem mark_completed_on_the_dashboard choice s selected :
  reachable s →
  pending_tasks (reminders_df s) !! choice = Some selected →
  selected ≠ VNaN →
  let df := reminders_df s in
  let df' := reminders_df (step s (MarkCompleted choice)) in
  (status_count (VStr "Pending") df' < status_count (VStr "Pending") df)%nat ∧
  (status_count (VStr "Completed") df +
     (status_count (VStr "Pending") df - status_count (VStr "Pending") df')
   ≤ status_count (VStr "Completed") df')%nat ∧
  length (pd.rows df') = length (pd.rows df) ∧
  selected ∉ pending_tasks df'.
Proof.
  intros Hok%reachable_reminders_ok Hsel Hval. cbv zeta.
  rewrite (mark_completed_selected choice s selected) by done.
  destruct (mark_counts selected (pd.columns (reminders_df s)) (pd.rows (reminders_df s)))
    as [Hp Hc]. cbv zeta in Hp, Hc.
  assert (pd.mk (pd.columns (reminders_df s)) (pd.rows (reminders_df s)) = reminders_df s)
    as Hdf by (by destruct (reminders_df s)).
  rewrite Hdf in Hp, Hc.
  apply list_elem_of_lookup_2, pending_tasks_elem in Hsel as (ir & Hin & Hpend & Htask).
  match type of Hp with context [length ?l] =>
    assert (1 ≤ length l)%nat as Hhit end.
  { apply (count_elem (λ ir, py_eq (pd.cell ir.2 "Task") selected
                             && py_eq (pd.cell ir.2 "Status") (VStr "Pending")) ir);
      [done|]. rewrite Htask, py_eq_refl by done. by rewrite Hpend. }
  split_and!; [lia|lia|cbn [pd.rows]; by rewrite length_map|].
  intros (ir' & Hin' & Hpend' & Htask')%pending_tasks_elem. cbn [pd.rows] in Hin'.
  apply list_elem_of_fmap in Hin' as (ir0 & -> & Hin0).
  rewrite complete_row_status in Hpend'. rewrite complete_row_task in Htask'.
  rewrite Htask', py_eq_refl in Hpend' by done. done.
Qed.

(** X16. A pending reminder whose task is missing (a null in the file) is
    offered by the select box but cannot be completed: pandas compares NaN
    unequal to everything, so "Mark Completed" selects no row and, in a
    reachable state, leaves the reminders table exactly as it is. *)
Theorem missing_task_is_never_completed choice s :
  reachable s →
  pending_tasks (reminders_df s) !! choice = Some VNaN →
  reminders_df (step s (MarkCompleted choice)) = reminders_df s.
Proof.
  intros Hok%reachable_reminders_ok Hsel.
  rewrite (mark_completed_selected choice s VNaN) by done.
  destruct (reminders_df s) as [cols rows]. cbn [pd.columns pd.rows]. f_equal.
  etrans; [|apply map_id]. apply map_ext. intros ir. unfold complete_row.
  by destruct (pd.cell ir.2 "Task").
Qed.

(** ** The chatbot and the FAQ list *)

Section Assistant.

Context (openai : option (option string → string → list (string * string) →
                          Ext P → option string * Ext P)).
Context (lower : string → string).

(** X17. The keyword chatbot answers with the first FAQ entry, in the
    order of the [faqs] dict, whose question or answer contains the
    lower-cased input, and with the default reply when no entry does: the
    reply is the answer of that entry, and no earlier entry matches. *)
Theorem keyword_reply_first_match user_input items reply :
  (Forall (λ qa, ¬ answers lower user_input qa) items ∧
   keyword_reply lower user_input items reply = reply) ∨
  (∃ pre qa post,
     items = pre ++ qa :: post ∧
     Forall (λ qa, ¬ answers lower user_input qa) pre ∧
     answers lower user_input qa ∧
     keyword_reply lower user_input items reply = qa.2).
Proof.
  induction items as [|[q a] items IH]; [left; by split|].
  cbn [keyword_reply].
  destruct (contains (lower user_input) (lower q)
            || contains (lower user_input) (lower a)) eqn:Hm.
  - right. exists [], (q, a), items. split_and!; [done|done| |done].
    unfold answers. simpl. by apply orb_true_iff in Hm.
  - assert (¬ answers lower user_input (q, a)) as Hno.
    { unfold answers. simpl. apply orb_false_iff in Hm as [-> ->]. by intros [?|?]. }
    destruct IH as [[Hall ->]|(pre & qa & post & -> & Hpre & Hqa & ->)].
    + left. split; [by apply Forall_cons|done].
    + right. exists ((q, a) :: pre), qa, post. split_and!; [done| |done|done].
      by apply Forall_cons.
Qed.


(** X19. An [openai] section in the secrets without an [api_key] turns
    the AI chatbot off even when the environment variable OPENAI_API_KEY is
    set (which makes [openai_configured()] true): [configure_openai_api()]
    returns False and "Get Answer" answers from the FAQ keywords, with the
    reply of the keyword chatbot, translated. *)
Theorem incomplete_openai_section_turns_ai_off o user_input selected_language s :
  secrets P !! "openai" = Some o → o !! "api_key" = None →
  user_input ≠ "" →
  configure_openai_api openai = None ∧
  ∃ shown x,
    safe_translate (keyword_reply lower user_input faqs NO_ANSWER) selected_language s
      = (Ok shown, set_ext x s) ∧
    get_answer openai lower user_input selected_language s
      = (Ok (KeywordResponse shown), set_ext x s).
Proof.
  intros Hsec Hkey Hu.
  assert (configure_openai_api openai = None) as Hconf.
  { unfold configure_openai_api. destruct (_ || _); [done|]. by rewrite Hsec, Hkey. }
  split; [done|].
  destruct (safe_translate_world (keyword_reply lower user_input faqs NO_ANSWER)
              selected_language s) as (shown & x & Htr).
  exists shown, x. split; [done|].
  unfold get_answer. rewrite decide_False by done. rewrite Hconf.
  destruct openai; unfold bind; by rewrite Htr.
Qed.

(** X20. When the OpenAI call raises, "Get Answer" falls back to the
    keyword chatbot, with its other default reply ("Sorry, I couldn't fetch
    an AI response. ..."), translates the reply and shows it as the
    fallback: the exception does not escape. *)
Theorem openai_failure_falls_back create key user_input selected_language s x1 :
  openai = Some create → configure_openai_api openai = Some key →
  user_input ≠ "" →
  create key "gpt-3.5-turbo" [("system", SYSTEM_PROMPT); ("user", user_input)] (ext s)
    = (None, x1) →
  ∃ shown x,
    safe_translate (keyword_reply lower user_input faqs NO_AI_RESPONSE) selected_language
                   (set_ext x1 s) = (Ok shown, set_ext x s) ∧
    get_answer openai lower user_input selected_language s
      = (Ok (FallbackResponse shown), set_ext x s).
Proof.
  intros Hlib Hconf Hu Hcall.
  destruct (safe_translate_world (keyword_reply lower user_input faqs NO_AI_RESPONSE)
              selected_language (set_ext x1 s)) as (shown & x & Htr).
  exists shown, x. split; [done|].
  unfold get_answer. rewrite decide_False by done. rewrite Hconf, Hlib.
  unfold try_except. unfold bind at 1. unfold remote. rewrite Hcall.
  unfold bind. by rewrite Htr.
Qed.

End Assistant.

(** X21. The FAQ list in Luo and in Luhya shows every question in
    translation and every answer in English: the dictionary holds the three
    questions and none of the answers.  No network call is made, and in
    English the list is the [faqs] dict itself. *)
Theorem faq_page_translates_questions_only s :
  (∀ lang, lang ∈ ["Luo"; "Luhya"] →
     ∃ shown,
       faq_page lang s = (Ok shown, s) ∧
       Forall2 (λ qa sh, sh.1 ≠ qa.1 ∧ sh.2 = qa.2 ∧
                         custom_translations !! lang ≫= (.!! qa.1) = Some sh.1)
               faqs shown) ∧
  faq_page "English" s = (Ok faqs, s).
Proof.
  split.
  - intros lang Hlang. unfold faq_page, faqs. cbn [for_each]. unfold bind, ret.
    rewrite !safe_translate_dict by done.
    apply elem_of_cons in Hlang as [->|Hlang];
      [|apply elem_of_cons in Hlang as [->|Hlang]; [|by apply elem_of_nil in Hlang]];
      (eexists; split; [reflexivity|]); repeat constructor; done.
  - unfold faq_page, faqs. cbn [for_each]. unfold bind, ret.
    by rewrite !safe_translate_english.
Qed.

(** ** The message log is append-only *)

Lemma extends_log_append before df (row : PyDict) :
  extends_log before df →
  row.*1 = message_logs_columns → ("Status", VStr "Sent") ∈ row →
  extends_log before (pd.concat df (pd.DataFrame_records [row])).
Proof.
  intros (Hwf & later & Hdict & Hlater) Hkeys Hsent. split.
  - by apply (concat_record_shaped message_logs_columns); [|distinct|].
  - exists (later ++ [row]). split.
    + rewrite (concat_record_dict message_logs_columns); [|done|distinct|done].
      by rewrite Hdict, app_assoc.
    + apply Forall_app. split; [done|]. by apply Forall_cons.
Qed.

Ltac extend_step :=
  maintain;
  try (match goal with
       | |- maintains (λ s, extends_log ?b (message_logs s)) _ =>
           apply (preserves_maintains message_logs (extends_log b)); unassigned
       end; fail);
  try (cbn [message_logs set_message_logs]; apply extends_log_append;
       [done|done|in_list]).

Lemma run_extends_log before a :
  maintains (P:=P) (λ s, extends_log before (message_logs s)) (run a).
Proof.
  unfold run. apply maintains_bind; [|intros ?; unfold persist_all; extend_step].
  destruct a; cbn [handle]; open_pages; extend_step.
Qed.

(** X22. The message log is append-only.  In a reachable state, one run
    of the script, whatever the button, keeps every record of the log, in
    order, and appends only records of sent messages (with the six log
    columns and Status "Sent"): no run removes or rewrites a logged
    message. *)
Theorem message_log_is_append_only s a :
  reachable s →
  ∃ later,
    pd.to_dict (message_logs (step s a)) = pd.to_dict (message_logs s) ++ later ∧
    Forall (λ d : PyDict, d.*1 = message_logs_columns ∧ ("Status", VStr "Sent") ∈ d) later.
Proof.
  intros Hlog%reachable_log_wf.
  apply (run_extends_log (message_logs s) a s). split; [done|].
  exists []. by rewrite app_nil_r.
Qed.

End Properties.

(** * The properties at concrete inputs *)

Example fresh_outbox : outbox_df (fresh true true false) = pd.DataFrame_columns outbox_columns.
Proof. reflexivity. Qed.

Example enqueue_and_drain_delivered :
  (enqueue_and_drain true).1 = Ok [(0%nat, true, "SM0001")] ∧
  pd.to_dict (outbox_df (enqueue_and_drain true).2) = [] ∧
  pd.to_dict (message_logs (enqueue_and_drain true).2) =
    [[("Recipient", VStr "+254700000001"); ("Message", VStr "Clinic opens at 8");
      ("Language", VStr "English"); ("Date Sent", VStr "2024-05-01 09:00:00");
      ("Type", VStr "sms"); ("Status", VStr "Sent")]].
Proof. by vm_compute. Qed.

Example enqueue_and_drain_refused :
  (enqueue_and_drain false).1 = Ok [(0%nat, false, "unreachable")] ∧
  pd.to_dict (message_logs (enqueue_and_drain false).2) = [] ∧
  pd.to_dict (outbox_df (enqueue_and_drain false).2) =
    [[("Recipient", VStr "+254700000001"); ("Message", VStr "Clinic opens at 8");
      ("Language", VStr "English"); ("Date Created", VStr "2024-05-01 09:00:00");
      ("Type", VStr "sms"); ("Attempts", VInt 1)]].
Proof. by vm_compute. Qed.

Lemma demo_always_succeeds : provider_always_succeeds (demo true true false).
Proof.
  split_and!.
  - by eexists.
  - intros tw [= <-]. by eexists.
  - intros. by eexists _, _.
  - intros. by eexists _, _.
Defined.

Lemma fresh_outbox_fresh c d t : outbox_fresh (outbox_df (fresh c d t)).
Proof. split; [done|by left]. Defined.

Lemma fresh_log_wf c d t : log_wf (message_logs (fresh c d t)).
Proof. by left. Defined.

(** C1 at a concrete input: one SMS enqueued on a fresh session and drained
    with a provider that delivers. *)
Lemma process_outbox_success_witness :
  provider_always_succeeds (demo true true false) ∧
  outbox_fresh (outbox_df (fresh true true false)) ∧
  log_wf (message_logs (fresh true true false)) ∧
  ∃ created s1 info sent s',
    add_to_outbox (VStr "+254700000001") (VStr "Clinic opens at 8")
                    (VStr "English") (VStr "sms") (fresh true true false) = (Ok tt, s1) ∧
    pd.to_dict (outbox_df s1) =
      [outbox_row (VStr "+254700000001") (VStr "Clinic opens at 8")
                  (VStr "English") (VStr "sms") created] ∧
    process_outbox 3 s1 = (Ok [(0%nat, true, info)], s') ∧
    pd.rows (outbox_df s') = [] ∧
    pd.to_dict (message_logs s') =
      pd.to_dict (message_logs (fresh true true false)) ++
      [[("Recipient", VStr "+254700000001"); ("Message", VStr "Clinic opens at 8");
        ("Language", VStr "English"); ("Date Sent", VStr sent);
        ("Type", VStr "sms"); ("Status", VStr "Sent")]].
Proof.
  split_and!;
    [exact demo_always_succeeds | apply fresh_outbox_fresh | apply fresh_log_wf |].
  apply (proj2 (process_outbox_success (P:=demo true true false))).
  - exact demo_always_succeeds.
  - reflexivity.
  - apply fresh_outbox_fresh.
  - apply fresh_log_wf.
Defined.

Lemma queued_wf delivers attempts : outbox_wf (outbox_df (queued delivers attempts)).
Proof.
  split_and!.
  - apply NoDup_singleton.
  - repeat constructor.
  - repeat constructor.
  - repeat constructor.
  - apply Forall_singleton. by exists attempts.
Defined.


Example exhausted_entry_stays :
  (process_outbox 3 (queued true 3)).1 = Ok [(0%nat, false, MAX_REACHED)] ∧
  outbox_df (process_outbox 3 (queued true 3)).2 = outbox_df (queued true 3) ∧
  dispatched (process_outbox 3 (queued true 3)).2 = [].
Proof. by vm_compute. Qed.


Example two_failed_drains :
  (drains 2 3 (queued false 0)).1
    = Ok [[(0%nat, false, "unreachable")]; [(0%nat, false, "unreachable")]] ∧
  pd.to_dict (outbox_df (drains 2 3 (queued false 0)).2) =
    [[("Recipient", VStr "+254700000001"); ("Message", VStr "Clinic opens at 8");
      ("Language", VStr "English"); ("Date Created", VStr "2024-05-01 09:00:00");
      ("Type", VStr "sms"); ("Attempts", VInt 2)]].
Proof. by vm_compute. Qed.

(** C4 at a concrete input: the reminders file is unreadable, and the table
    loaded from it has none of the four expected columns. *)
Lemma load_df_from_file_unreadable_witness :
  load_df_from_file (P:=demo false false false) garbled REMINDERS_FILE (Some reminders_columns)
    = pd.DataFrame_empty ∧
  pd.columns (load_df_from_file (P:=demo false false false) garbled REMINDERS_FILE
                (Some reminders_columns)) ≠ reminders_columns.
Proof.
  apply (load_df_from_file_unreadable (P:=demo false false false) garbled REMINDERS_FILE None
           reminders_columns).
  - reflexivity.
  - reflexivity.
  - reflexivity.
  - discriminate.
Defined.

Example startup_on_garbled_file :
  reminders_df (startup (P:=demo false false false) garbled 0%nat) = pd.mk [] [] ∧
  partners_df (startup (P:=demo false false false) garbled 0%nat) = pd.mk partners_columns [].
Proof. by vm_compute. Qed.

Lemma demo_faithful_json c d t : faithful_json (demo c d t).
Proof. split; [by intros df ? [= <-]|done]. Defined.


(** C6 at a concrete input: googletrans is installed and its call raises. *)
Lemma safe_translate_never_raises_witness :
  (safe_translate (P:=demo false false true) "Karibu" "Swahili" (fresh false false true)).1
    = Ok "Karibu".
Proof.
  apply (proj2 (proj2 (proj2 (proj2
           (safe_translate_never_raises (P:=demo false false true) "Karibu" "Swahili"
              (fresh false false true)))))
           (λ _ _ x, (None, S x))).
  - reflexivity.
  - reflexivity.
Defined.

Example translate_examples :
  (safe_translate "What is SHA?" "Luhya" (fresh false false false)).1
    = Ok "SHA ni Social Health Authority, ebuya amagara netaweire." ∧
  (safe_translate "What is SHA" "Luo" (fresh false false false)).1 = Ok "What is SHA" ∧
  (safe_translate "what is sha?" "Luo" (fresh false false false)).1 = Ok "what is sha?" ∧
  (safe_translate "" "Luo" (fresh false false false)).1 = Ok "" ∧
  (safe_translate "Karibu" "Kikuyu" (fresh false false false)).1 = Ok "Karibu".
Proof. by vm_compute. Qed.

(** C7 at a concrete input: a phrase the Luhya dictionary does not hold. *)
Lemma safe_translate_exact_match_witness :
  "Luhya" ∈ ["Luo"; "Luhya"] ∧
  custom_translations !! "Luhya" ≫= (.!! "Where is the clinic?") = None ∧
  safe_translate (P:=demo false false false) "Where is the clinic?" "Luhya" (fresh false false false)
    = (Ok "Where is the clinic?", fresh false false false).
Proof.
  assert ("Luhya" ∈ ["Luo"; "Luhya"]) as Hin by repeat constructor.
  split_and!; [exact Hin|reflexivity|].
  apply (proj2 (proj2 (proj2 (safe_translate_exact_match (P:=demo false false false)
                                (fresh false false false)))
                 "Where is the clinic?" "Luhya" Hin)).
  reflexivity.
Defined.


Example senders_examples :
  (safe_send_sms (VStr "+254700000001") (VStr "Clinic opens at 8") (fresh true true false)).1
    = Ok (true, "SM0001") ∧
  (safe_make_call (VStr "+254700000001") (VStr "Clinic opens at 8") (fresh true true false)).1
    = Ok (true, "CA0001") ∧
  (safe_send_sms (VStr "+254700000001") (VStr "Clinic opens at 8") (fresh true false false)).1
    = Ok (false, "unreachable") ∧
  dispatched (safe_make_call (VStr "+254700000001") (VStr "Clinic opens at 8")
                  (fresh true false false)).2
    = [VoiceCall "<Response><Say>Clinic opens at 8</Say></Response>" (Some "+15550100")
         (VStr "+254700000001")].
Proof. by vm_compute. Qed.

(** C9 at a concrete input: the first interaction of a session adds a
    reminder. *)
Lemma reminder_status_transitions_witness :
  reachable (fresh false false false) ∧
  ∃ kept added,
    statuses (reminders_df (step (fresh false false false) add_call_clinic)) = kept ++ added ∧
    Forall2 (λ old new, new = old ∨
                        (new = VStr "Completed" ∧ ∃ k, add_call_clinic = MarkCompleted k))
            (statuses (reminders_df (fresh false false false))) kept ∧
    Forall (λ v, v = VStr "Pending" ∧ ∃ t d w, add_call_clinic = AddReminder t d w) added.
Proof.
  assert (reachable (fresh false false false)) as Hreach by constructor.
  split; [exact Hreach|].
  apply (reminder_status_transitions (P:=demo false false false) (fresh false false false)
           add_call_clinic Hreach).
Defined.

Example mark_completed_marks_every_match :
  statuses (reminders_df (step reminding (MarkCompleted 0)))
    = [VStr "Completed"; VStr "Pending"; VStr "Completed"] ∧
  statuses (reminders_df (step reminding (MarkCompleted 1)))
    = [VStr "Pending"; VStr "Completed"; VStr "Pending"] ∧
  statuses (reminders_df (step reminding (MarkCompleted 7)))
    = [VStr "Pending"; VStr "Pending"; VStr "Pending"].
Proof. by vm_compute. Qed.

(** C10 at a concrete input: "Call clinic" is chosen, and two reminders
    carry that task. *)
Lemma mark_completed_frame_witness :
  ∃ s',
    mark_completed 0 reminding = (Ok tt, s') ∧
    reminders_df s' =
      pd.mk (pd.columns (reminders_df reminding))
            (map (λ ir, if py_eq (pd.cell ir.2 "Task") (VStr "Call clinic")
                        then (ir.1, <["Status" := VStr "Completed"]> ir.2)
                        else ir)
                 (pd.rows (reminders_df reminding))) ∧
    Forall2 (λ old new, new.1 = old.1 ∧ ∀ c, c ≠ "Status" → new.2 !! c = old.2 !! c)
            (pd.rows (reminders_df reminding)) (pd.rows (reminders_df s')) ∧
    partners_df s' = partners_df reminding ∧
    message_logs s' = message_logs reminding ∧
    feedback_df s' = feedback_df reminding ∧
    outbox_df s' = outbox_df reminding ∧
    ext s' = ext reminding ∧
    dispatched s' = dispatched reminding.
Proof.
  apply (mark_completed_frame (P:=demo false false false) 0 reminding
           [VStr "Call clinic"; VStr "Print posters"; VStr "Call clinic"] (VStr "Call clinic")).
  - reflexivity.
  - reflexivity.
  - reflexivity.
Defined.

(** * More of the script, at concrete inputs *)

Lemma fresh_reachable c d t : reachable (fresh c d t).
Proof. constructor. Defined.

(** X2 at a concrete input: the session with two reminders. *)
Lemma tables_keep_their_columns_witness :
  reachable two_reminders ∧
  pd.columns (reminders_df two_reminders) = reminders_columns.
Proof.
  assert (reachable two_reminders) as Hreach by (do 2 constructor; apply fresh_reachable).
  split; [exact Hreach|].
  destruct (tables_keep_their_columns (P:=demo false false false) two_reminders Hreach)
    as (_ & _ & _ & [Hc|He] & _); [exact Hc|].
  by vm_compute in He.
Defined.

(** X3 at a concrete input: "Mark Completed" with a choice the select box
    does not have. *)
Lemma every_run_completes_witness :
  reachable two_reminders ∧ ∃ s', run (MarkCompleted 5) two_reminders = (Ok tt, s').
Proof.
  assert (reachable two_reminders) as Hreach by (do 2 constructor; apply fresh_reachable).
  split; [exact Hreach|].
  apply (every_run_completes (P:=demo false false false) two_reminders (MarkCompleted 5) Hreach).
Defined.

(** X4 at a concrete input: the first reminder of a session. *)
Lemma data_directory_in_step_witness :
  reachable (fresh false false false) ∧
  fs (step (fresh false false false) add_call_clinic) !! REMINDERS_FILE =
    Some (file_content (reminders_df (step (fresh false false false) add_call_clinic))).
Proof.
  split; [apply fresh_reachable|].
  apply (data_directory_in_step (P:=demo false false false) (fresh false false false)
           add_call_clinic (fresh_reachable _ _ _)).
Defined.

Example the_reminders_file_after_one_reminder :
  fs (step (fresh false false false) add_call_clinic) !! REMINDERS_FILE =
    Some (Some [new_reminder "Call clinic" "2024-05-02" "Akinyi"]).
Proof. by vm_compute. Qed.


Example restarted_with_two_reminders :
  pd.to_dict (reminders_df (startup (fs two_reminders) 7%nat)) =
    [new_reminder "Call clinic" "2024-05-02" "Akinyi";
     new_reminder "Print posters" "2024-05-03" "Otieno"].
Proof. by vm_compute. Qed.

(** X6 at a concrete input: a partner is added to a fresh session. *)
Lemma forms_append_one_record_witness :
  reachable (fresh false false false) ∧
  pd.to_dict (partners_df (step (fresh false false false)
                (AddPartner "Achieng" "Volunteer" ["Luo"; "English"] "+254700000002" "Clinics")))
    = [new_partner "Achieng" "Volunteer" ["Luo"; "English"] "+254700000002" "Clinics"].
Proof.
  split; [apply fresh_reachable|].
  apply (proj1 (forms_append_one_record (P:=demo false false false) (fresh false false false)
                  (fresh_reachable _ _ _))
           "Achieng" "Volunteer" ["Luo"; "English"] "+254700000002" "Clinics").
Defined.


(** X7 at a concrete input: a message sent while Twilio delivers, and the
    same message while Twilio is not configured. *)
Lemma send_now_logs_or_queues_witness :
  reachable (fresh false false false) ∧ "+254700000001" ≠ "" ∧ "Clinic opens at 8" ≠ "" ∧
  ∃ translated date,
    (safe_translate "Clinic opens at 8" "English" (fresh false false false)).1 = Ok translated ∧
    let s' := step (fresh false false false)
                (SendNow "+254700000001" "Clinic opens at 8" "sms" "English") in
    ((pd.to_dict (message_logs s') =
        pd.to_dict (message_logs (fresh false false false))
          ++ [log_row "+254700000001" translated "English" date (kind_of "sms")] ∧
      outbox_df s' = outbox_df (fresh false false false) ∧
      (∃ c, dispatched s' = dispatched (fresh false false false) ++ [c]) ∧
      is_Some (get_twilio_client (demo false false false)))
     ∨
     (pd.to_dict (outbox_df s') =
        pd.to_dict (outbox_df (fresh false false false))
          ++ [outbox_row (VStr "+254700000001") (VStr translated) (VStr "English")
                         (VStr (kind_of "sms")) date] ∧
      message_logs s' = message_logs (fresh false false false) ∧
      (dispatched s' = dispatched (fresh false false false)
       ∨ ∃ c, dispatched s' = dispatched (fresh false false false) ++ [c]) ∧
      (get_twilio_client (demo false false false) = None →
       dispatched s' = dispatched (fresh false false false)))).
Proof.
  split; [apply fresh_reachable|]. split; [done|]. split; [done|].
  apply (send_now_logs_or_queues (P:=demo false false false)
           "+254700000001" "Clinic opens at 8" "sms" "English" (fresh false false false)
           (fresh_reachable _ _ _)); done.
Defined.

Example send_now_delivered :
  let s' := step (fresh true true false)
              (SendNow "+254700000001" "Clinic opens at 8" "voice" "English") in
  pd.to_dict (message_logs s') =
    [log_row "+254700000001" "Clinic opens at 8" "English" "2024-05-01 09:00:00" "voice"] ∧
  pd.rows (outbox_df s') = [] ∧
  dispatched s' =
    [VoiceCall "<Response><Say>Clinic opens at 8</Say></Response>" (Some "+15550100")
               (VStr "+254700000001")].
Proof. by vm_compute. Qed.

Example send_now_queued :
  let s' := step (fresh false false false)
              (SendNow "+254700000001" "Clinic opens at 8" "sms" "English") in
  pd.to_dict (outbox_df s') =
    [outbox_row (VStr "+254700000001") (VStr "Clinic opens at 8") (VStr "English")
                (VStr "sms") "2024-05-01 09:00:00"] ∧
  pd.rows (message_logs s') = [] ∧
  dispatched s' = [].
Proof. by vm_compute. Qed.


Lemma offline_queue_wf : outbox_wf (outbox_df offline_queue).
Proof.
  split_and!.
  - apply (bool_decide_unpack _). by vm_compute.
  - repeat constructor.
  - repeat constructor.
  - repeat constructor.
  - repeat constructor; by eexists.
Defined.


Example offline_drain_results :
  (process_outbox 3 offline_queue).1 =
    Ok [(0%nat, false, NOT_CONFIGURED); (1%nat, false, MAX_REACHED)] ∧
  map attempts_of (pd.rows (outbox_df (process_outbox 3 offline_queue).2)) = [Some 1; Some 3].
Proof. by vm_compute. Qed.

(** X10 at a concrete input: a message sent offline and two drains. *)
Lemma attempts_stay_within_three_witness :
  (∅ : gmap string (option (list PyDict))) !! OUTBOX_FILE = None ∧
  let s := foldl step (fresh false false false) offline_session in
  Forall (λ ir, ∃ a, pd.cell ir.2 "Attempts" = VInt a ∧ 0 ≤ a ≤ 3) (pd.rows (outbox_df s)) ∧
  ∀ max, ∃ res s', process_outbox max s = (Ok res, s').
Proof.
  split; [reflexivity|].
  apply (attempts_stay_within_three (P:=demo false false false) ∅ 0%nat offline_session).
  reflexivity.
Defined.

Example offline_session_attempts :
  map attempts_of (pd.rows (outbox_df (foldl step (fresh false false false) offline_session)))
    = [Some 2].
Proof. by vm_compute. Qed.


(** X11 at a concrete input: a partners file with a foreign column. *)
Lemma load_projects_and_backfills_witness :
  let files : gmap string (option (list PyDict)) := {[ PARTNERS_FILE := Some foreign_partners ]} in
  let df := pd.DataFrame_records foreign_partners in
  files !! PARTNERS_FILE = Some (Some foreign_partners) ∧
  parsed (P:=demo false false false) (Some foreign_partners) = Some df ∧
  partners_columns ≠ [] ∧
  let T := load_df_from_file (P:=demo false false false) files PARTNERS_FILE
             (Some partners_columns) in
  pd.columns T = partners_columns ∧
  Forall2 (λ old new,
             new.1 = old.1 ∧
             (∀ k, k ∈ partners_columns →
                   pd.cell new.2 k =
                     if decide (k ∈ pd.columns df) then pd.cell old.2 k else VStr "") ∧
             (∀ k, k ∉ partners_columns → new.2 !! k = None))
          (pd.rows df) (pd.rows T).
Proof.
  cbv zeta. split; [reflexivity|]. split; [reflexivity|]. split; [done|].
  apply (load_projects_and_backfills (P:=demo false false false)
           {[ PARTNERS_FILE := Some foreign_partners ]} PARTNERS_FILE
           (Some foreign_partners) (pd.DataFrame_records foreign_partners) partners_columns);
    done.
Defined.

Example foreign_partners_loaded :
  pd.to_dict (load_df_from_file (P:=demo false false false)
                {[ PARTNERS_FILE := Some foreign_partners ]} PARTNERS_FILE
                (Some partners_columns)) =
    [[("Name", VStr "Achieng"); ("Role", VStr ""); ("Language", VStr "");
      ("Contact", VStr ""); ("Campaign Assigned", VStr "")]].
Proof. by vm_compute. Qed.

(** X12 at a concrete input: the outbox file has one record, without
    "Attempts". *)
Lemma outbox_file_without_attempts_witness :
  let files : gmap string (option (list PyDict)) :=
    {[ OUTBOX_FILE := Some outbox_without_attempts ]} in
  let df := pd.DataFrame_records outbox_without_attempts in
  files !! OUTBOX_FILE = Some (Some outbox_without_attempts) ∧
  parsed (P:=demo true true false) (Some outbox_without_attempts) = Some df ∧
  ("Attempts" ∉ pd.columns df) ∧ pd.rows df ≠ [] ∧
  int_of_str (demo true true false) "" = None ∧
  let s := startup (P:=demo true true false) files 0%nat in
  (∀ max, process_outbox max s = (Raise "ValueError", s)) ∧
  outbox_page s = (Ok tt, s).
Proof.
  cbv zeta.
  assert ("Attempts" ∉ pd.columns (pd.DataFrame_records outbox_without_attempts)) as Hcol.
  { apply (bool_decide_unpack _). by vm_compute. }
  split; [reflexivity|]. split; [reflexivity|]. split; [exact Hcol|].
  split; [done|]. split; [reflexivity|].
  apply (outbox_file_without_attempts (P:=demo true true false)
           {[ OUTBOX_FILE := Some outbox_without_attempts ]} 0%nat
           (Some outbox_without_attempts) (pd.DataFrame_records outbox_without_attempts));
    done.
Defined.


Example half_configured_send :
  (safe_send_sms (P:=half_configured) (VStr "+254700000001") (VStr "Clinic opens at 8")
     half_start).1 = Ok (false, "'from_number'").
Proof. by vm_compute. Qed.

(** X14 at a concrete input: a second reminder. *)
Lemma add_reminder_on_the_dashboard_witness :
  reachable (step (fresh false false false) add_call_clinic) ∧
  reminder_metrics two_reminders = (Ok (Some (2%nat, 0%nat)), two_reminders).
Proof.
  assert (reachable (step (fresh false false false) add_call_clinic)) as Hreach
    by (constructor; apply fresh_reachable).
  split; [exact Hreach|].
  apply (add_reminder_on_the_dashboard (P:=demo false false false)
           "Print posters" "2024-05-03" "Otieno"
           (step (fresh false false false) add_call_clinic) Hreach); done.
Defined.

Lemma two_reminders_reachable : reachable two_reminders.
Proof. do 2 constructor. apply fresh_reachable. Defined.

(** X15 at a concrete input: the first of two pending reminders is
    completed. *)
Lemma mark_completed_on_the_dashboard_witness :
  reachable two_reminders ∧
  pending_tasks (reminders_df two_reminders) !! 0%nat = Some (VStr "Call clinic") ∧
  let df := reminders_df two_reminders in
  let df' := reminders_df (step two_reminders (MarkCompleted 0)) in
  (status_count (VStr "Pending") df' < status_count (VStr "Pending") df)%nat ∧
  (status_count (VStr "Completed") df +
     (status_count (VStr "Pending") df - status_count (VStr "Pending") df')
   ≤ status_count (VStr "Completed") df')%nat ∧
  length (pd.rows df') = length (pd.rows df) ∧
  VStr "Call clinic" ∉ pending_tasks df'.
Proof.
  split; [apply two_reminders_reachable|]. split; [reflexivity|].
  apply (mark_completed_on_the_dashboard (P:=demo false false false) 0 two_reminders
           (VStr "Call clinic") two_reminders_reachable); done.
Defined.

Example metrics_after_mark_completed :
  (reminder_metrics (step two_reminders (MarkCompleted 0))).1 = Ok (Some (1%nat, 1%nat)).
Proof. by vm_compute. Qed.

(** X16 at a concrete input: the reminders file holds a pending reminder
    whose task is null. *)
Lemma missing_task_is_never_completed_witness :
  let s := startup (P:=demo false false false)
             {[ REMINDERS_FILE := Some reminders_with_null_task ]} 0%nat in
  reachable s ∧
  pending_tasks (reminders_df s) !! 0%nat = Some VNaN ∧
  reminders_df (step s (MarkCompleted 0)) = reminders_df s.
Proof.
  cbv zeta. split; [constructor|]. split; [reflexivity|].
  apply (missing_task_is_never_completed (P:=demo false false false) 0).
  - constructor.
  - reflexivity.
Defined.

Example keyword_replies :
  keyword_reply str_lower "How do I REGISTER?" faqs NO_ANSWER = NO_ANSWER ∧
  keyword_reply str_lower "REGISTER" faqs NO_ANSWER
    = "You can register at your nearest health center or via the SHA portal." ∧
  keyword_reply str_lower "a" faqs NO_ANSWER
    = "SHA stands for Social Health Authority, which provides health services and benefits.".
Proof. by vm_compute. Qed.

(** X19 at a concrete input: the [openai] section has no key, the
    environment has one, and the library is installed. *)
Lemma incomplete_openai_section_turns_ai_off_witness :
  openai_configured (P:=half_configured) = true ∧
  configure_openai_api (P:=half_configured) openai_up = None ∧
  ∃ shown x,
    safe_translate (P:=half_configured) (keyword_reply str_lower "register" faqs NO_ANSWER)
        "Luo" half_start
      = (Ok shown, set_ext x half_start) ∧
    get_answer (P:=half_configured) openai_up str_lower "register" "Luo" half_start
      = (Ok (KeywordResponse shown), set_ext x half_start).
Proof.
  split; [reflexivity|].
  apply (incomplete_openai_section_turns_ai_off (P:=half_configured) openai_up str_lower ∅
           "register" "Luo" half_start); done.
Defined.

(** X20 at a concrete input: OpenAI is configured and its call raises. *)
Lemma openai_failure_falls_back_witness :
  configure_openai_api (P:=ai_configured) openai_down = Some (Some "sk-0001") ∧
  ∃ shown x,
    safe_translate (P:=ai_configured) (keyword_reply str_lower "covered" faqs NO_AI_RESPONSE)
        "English" (set_ext (P:=ai_configured) 1%nat ai_start)
      = (Ok shown, set_ext x ai_start) ∧
    get_answer (P:=ai_configured) openai_down str_lower "covered" "English" ai_start
      = (Ok (FallbackResponse shown), set_ext x ai_start).
Proof.
  split; [reflexivity|].
  apply (openai_failure_falls_back (P:=ai_configured) openai_down str_lower
           (λ _ _ _ x, (None, S x)) (Some "sk-0001") "covered" "English" ai_start 1%nat);
    done.
Defined.

Example chatbot_replies :
  (get_answer (P:=ai_configured) openai_up str_lower "Where do I go?" "English"
     ai_start).1 = Ok (AIResponse "Visit the nearest health center.") ∧
  (get_answer (P:=ai_configured) openai_down str_lower "covered" "English"
     ai_start).1
    = Ok (FallbackResponse "SHA covers preventive care, maternal care, and essential treatments.") ∧
  (get_answer (P:=ai_configured) None str_lower "malaria" "Luhya" ai_start).1
    = Ok (KeywordResponse NO_ANSWER) ∧
  (get_answer (P:=ai_configured) openai_up str_lower "" "English" ai_start).1
    = Ok EnterQuestion.
Proof. by vm_compute. Qed.

Example faq_page_in_luhya :
  (faq_page (P:=demo false false false) "Luhya" (fresh false false false)).1 =
    Ok [("SHA ni Social Health Authority, ebuya amagara netaweire.",
         "SHA stands for Social Health Authority, which provides health services and benefits.");
        ("Olwikhilire kuhealth center oba e SHA portal.",
         "You can register at your nearest health center or via the SHA portal.");
        ("SHA ibuyire preventive care, maternal care, ne essential treatments.",
         "SHA covers preventive care, maternal care, and essential treatments.")].
Proof. by vm_compute. Qed.

(** X22 at a concrete input: a message is delivered. *)
Lemma message_log_is_append_only_witness :
  reachable (fresh true true false) ∧
  ∃ later,
    pd.to_dict (message_logs (step (fresh true true false)
                  (SendNow "+254700000001" "Clinic opens at 8" "sms" "English")))
      = pd.to_dict (message_logs (fresh true true false)) ++ later ∧
    Forall (λ d : PyDict, d.*1 = message_logs_columns ∧ ("Status", VStr "Sent") ∈ d) later.
Proof.
  split; [apply fresh_reachable|].
  apply (message_log_is_append_only (P:=demo true true false) (fresh true true false)
           (SendNow "+254700000001" "Clinic opens at 8" "sms" "English")
           (fresh_reachable _ _ _)).
Defined.


(** X23 at a concrete input: the outbox file has one record, without
    "Type", and Twilio delivers. *)
Lemma outbox_file_without_type_witness :
  let files : gmap string (option (list PyDict)) :=
    {[ OUTBOX_FILE := Some outbox_without_type ]} in
  let df := pd.DataFrame_records outbox_without_type in
  parsed (P:=demo true true false) (Some outbox_without_type) = Some df ∧
  pd.rows df = [untyped_row] ∧
  ("Type" ∉ pd.columns df) ∧
  get_twilio_client (demo true true false) = Some ("AC0001", "token") ∧
  ∃ res s',
    process_outbox 3 (startup (P:=demo true true false) files 0%nat) = (Ok res, s') ∧
    dispatched s' =
      [VoiceCall ("<Response><Say>" +:+ py_str (pd.cell untyped_row.2 "Message")
                    +:+ "</Say></Response>")
                 (Some "+15550100") (pd.cell untyped_row.2 "Recipient")].
Proof.
  cbv zeta.
  assert ("Type" ∉ pd.columns (pd.DataFrame_records outbox_without_type)) as Hcol.
  { apply (bool_decide_unpack _). by vm_compute. }
  split; [reflexivity|]. split; [reflexivity|]. split; [exact Hcol|].
  split; [reflexivity|].
  apply (outbox_file_without_type (P:=demo true true false)
           {[ OUTBOX_FILE := Some outbox_without_type ]} 0%nat
           (Some outbox_without_type) (pd.DataFrame_records outbox_without_type)
           untyped_row 0 3 ("AC0001", "token") (Some "+15550100"));
    try reflexivity; try exact Hcol; try lia;
    try (apply (bool_decide_unpack _); by vm_compute).
Defined.

Example sms_without_type_is_called :
  let s := startup (P:=demo true true false) {[ OUTBOX_FILE := Some outbox_without_type ]} 0%nat in
  (process_outbox 3 s).1 = Ok [(0%nat, true, "CA0001")] ∧
  pd.to_dict (message_logs (process_outbox 3 s).2) =
    [[("Recipient", VStr "+254700000001"); ("Message", VStr "Clinic opens at 8");
      ("Language", VStr "English"); ("Date Sent", VStr "2024-05-01 09:00:00");
      ("Type", VStr ""); ("Status", VStr "Sent")]].
Proof. by vm_compute. Qed.


(** X1 at a concrete input: a reminder is added; the partners and the
    messaging tables stay as they are. *)
Lemma pages_write_their_own_tables_witness :
  partners_df (step (fresh false false false) add_call_clinic)
    = partners_df (fresh false false false) ∧
  message_logs (step (fresh false false false) add_call_clinic)
    = message_logs (fresh false false false) ∧
  outbox_df (step (fresh false false false) add_call_clinic)
    = outbox_df (fresh false false false) ∧
  dispatched (step (fresh false false false) add_call_clinic)
    = dispatched (fresh false false false).
Proof.
  destruct (pages_write_their_own_tables (P:=demo false false false)
              (fresh false false false) add_call_clinic) as (Hp & _ & _ & Hm).
  split; [by apply Hp|]. by apply Hm.
Defined.

(** X21 at a concrete input: the FAQ list in Luo. *)
Lemma faq_page_translates_questions_only_witness :
  ∃ shown,
    faq_page (P:=demo false false false) "Luo" (fresh false false false)
      = (Ok shown, fresh false false false) ∧
    Forall2 (λ qa sh, sh.1 ≠ qa.1 ∧ sh.2 = qa.2 ∧
                      custom_translations !! "Luo" ≫= (.!! qa.1) = Some sh.1)
            faqs shown.
Proof.
  apply (proj1 (faq_page_translates_questions_only (P:=demo false false false)
                  (fresh false false false)) "Luo").
  repeat constructor.
Defined.

